(** * frappe/database/query.py : the query-construction engine

    A shallow embedding of [Engine], [Permission], [DynamicTableField],
    [ChildTableField], [LinkTableField], [ChildQuery] and
    [get_nested_set_hierarchy_result], followed by the properties of the
    builder that the specification states and by further properties that
    the code shows.

    - Python text is a [string]; the character classes are the ASCII ones,
      so the text the model speaks of is ASCII text.
    - A Python value that reaches the builder is a [pyval]; an exception is
      an [Err] of the [result] a function returns.
    - The engine is a record that the methods take and return; the query
      under construction is one of its fields.
    - What the module imports and consults (metadata, permissions, sharing,
      hooks, settings, storage, the operator map) is the interface [Env]. *)

From Stdlib Require Import String Ascii List Bool Arith ZArith Lia.
From Stdlib Require Import Sorted Permutation.
Import ListNotations.
Open Scope string_scope.
Open Scope list_scope.
Open Scope nat_scope.

Set Implicit Arguments.
Set Warnings "-register-all".

(* ------------------------------------------------------------------ *)
(** ** Python strings *)

Module Py.

Definition code (c : ascii) : nat := nat_of_ascii c.

Definition between (lo hi : nat) (c : ascii) : bool :=
  (lo <=? code c) && (code c <=? hi).

Definition is_digit (c : ascii) : bool := between 48 57 c.
Definition is_upper (c : ascii) : bool := between 65 90 c.
Definition is_lower (c : ascii) : bool := between 97 122 c.

(** [\w] under [re.ASCII], and in ASCII text without the flag *)
Definition is_word (c : ascii) : bool :=
  is_digit c || is_upper c || is_lower c || (code c =? 95).

(** [\s] under [re.ASCII]: space, \t, \n, \v, \f, \r *)
Definition is_space_ascii (c : ascii) : bool :=
  between 9 13 c || (code c =? 32).

(** [str.isspace] on one character of ASCII text, as used by [str.strip]
    and [str.split] without argument *)
Definition is_space (c : ascii) : bool :=
  is_space_ascii c || between 28 31 c.

Definition newline : ascii := ascii_of_nat 10.
Definition is_newline (c : ascii) : bool := code c =? 10.

Definition to_lower (c : ascii) : ascii :=
  if is_upper c then ascii_of_nat (code c + 32) else c.

Definition chr_eqb (a b : ascii) : bool := Ascii.eqb a b.

Fixpoint all_chars (p : ascii -> bool) (s : string) : bool :=
  match s with
  | EmptyString => true
  | String c t => p c && all_chars p t
  end.

Fixpoint any_char (p : ascii -> bool) (s : string) : bool :=
  match s with
  | EmptyString => false
  | String c t => p c || any_char p t
  end.

Fixpoint map_chars (f : ascii -> ascii) (s : string) : string :=
  match s with
  | EmptyString => EmptyString
  | String c t => String (f c) (map_chars f t)
  end.

(** [s.lower()] and [s.casefold()] *)
Definition lower (s : string) : string := map_chars to_lower s.
Definition casefold (s : string) : string := lower s.

(** ASCII text: every character is below 128. On such text the classes
    above are Python's; the letters, digits and blanks that Unicode has
    beyond are outside the text this development speaks of. *)
Definition is_ascii (s : string) : bool :=
  all_chars (fun c => code c <? 128) s.

(** [s.isdigit()], for ASCII text *)
Definition isdigit (s : string) : bool :=
  match s with
  | EmptyString => false
  | _ => all_chars is_digit s
  end.

(** [s.startswith(p)] *)
Definition startswith (p s : string) : bool := prefix p s.

(** [sub in s] *)
Fixpoint contains (sub s : string) : bool :=
  prefix sub s ||
  match s with
  | EmptyString => false
  | String _ t => contains sub t
  end.

(** [s.split(sep)] for a non-empty separator: [skip] counts the characters
    of a separator that has been recognised and is still to be dropped. *)
Fixpoint split_go (sep : string) (skip : nat) (cur s : string) : list string :=
  match s with
  | EmptyString => [cur]
  | String c t =>
      match skip with
      | S k => split_go sep k cur t
      | O =>
          if prefix sep s
          then cur :: split_go sep (String.length sep - 1) EmptyString t
          else split_go sep 0 (cur ++ String c EmptyString)%string t
      end
  end.

Definition split (sep s : string) : list string := split_go sep 0 EmptyString s.

Fixpoint lstrip_by (p : ascii -> bool) (s : string) : string :=
  match s with
  | EmptyString => EmptyString
  | String c t => if p c then lstrip_by p t else s
  end.

Fixpoint rstrip_by (p : ascii -> bool) (s : string) : string :=
  match s with
  | EmptyString => EmptyString
  | String c t =>
      match rstrip_by p t with
      | EmptyString => if p c then EmptyString else String c EmptyString
      | r => String c r
      end
  end.

(** [s.strip()] *)
Definition strip (s : string) : string := rstrip_by is_space (lstrip_by is_space s).

(** [s.strip(chars)] *)
Definition strip_chars (chars s : string) : string :=
  let p c := any_char (chr_eqb c) chars in
  rstrip_by p (lstrip_by p s).

(** [s.replace(c, empty)] for a one-character [c] *)
Fixpoint remove_char (x : ascii) (s : string) : string :=
  match s with
  | EmptyString => EmptyString
  | String c t => if chr_eqb c x then remove_char x t else String c (remove_char x t)
  end.

Definition in_list (s : string) (l : list string) : bool :=
  existsb (String.eqb s) l.

End Py.

(* ------------------------------------------------------------------ *)
(** ** Regular expressions

    The patterns of the module that are used through [match] only, hence
    as languages, are written as regular expressions and decided by
    Brzozowski derivatives. *)

Module Re.

Inductive regex : Type :=
| Void
| Eps
| Class (p : ascii -> bool)
| Cat (r1 r2 : regex)
| Alt (r1 r2 : regex)
| Star (r : regex).

Definition Chr (c : ascii) : regex := Class (Py.chr_eqb c).
Definition Opt (r : regex) : regex := Alt r Eps.
Definition Plus (r : regex) : regex := Cat r (Star r).

Fixpoint Lit (s : string) : regex :=
  match s with
  | EmptyString => Eps
  | String c t => Cat (Chr c) (Lit t)
  end.

(** a literal under [re.IGNORECASE] *)
Fixpoint LitI (s : string) : regex :=
  match s with
  | EmptyString => Eps
  | String c t =>
      Cat (Class (fun x => Py.chr_eqb (Py.to_lower x) (Py.to_lower c))) (LitI t)
  end.

Fixpoint nullable (r : regex) : bool :=
  match r with
  | Void => false
  | Eps => true
  | Class _ => false
  | Cat a b => nullable a && nullable b
  | Alt a b => nullable a || nullable b
  | Star _ => true
  end.

Definition cat (a b : regex) : regex :=
  match a, b with
  | Void, _ => Void
  | _, Void => Void
  | Eps, _ => b
  | _, _ => Cat a b
  end.

Definition alt (a b : regex) : regex :=
  match a, b with
  | Void, _ => b
  | _, Void => a
  | _, _ => Alt a b
  end.

Fixpoint deriv (c : ascii) (r : regex) : regex :=
  match r with
  | Void => Void
  | Eps => Void
  | Class p => if p c then Eps else Void
  | Cat a b =>
      if nullable a
      then alt (cat (deriv c a) b) (deriv c b)
      else cat (deriv c a) b
  | Alt a b => alt (deriv c a) (deriv c b)
  | Star a => cat (deriv c a) (Star a)
  end.

Fixpoint matches (r : regex) (s : string) : bool :=
  match s with
  | EmptyString => nullable r
  | String c t => matches (deriv c r) t
  end.

(** [^ r $] used with [pattern.match]: Python's [$] also matches just
    before a newline that ends the string. *)
Definition anchored (r : regex) : regex := Cat r (Opt (Chr Py.newline)).

Definition fullmatch_dollar (r : regex) (s : string) : bool :=
  matches (anchored r) s.

(** The language of a regular expression. *)
Inductive lang : regex -> string -> Prop :=
| LEps : lang Eps EmptyString
| LClass p c : p c = true -> lang (Class p) (String c EmptyString)
| LCat a b s1 s2 : lang a s1 -> lang b s2 -> lang (Cat a b) (s1 ++ s2)%string
| LAltL a b s : lang a s -> lang (Alt a b) s
| LAltR a b s : lang b s -> lang (Alt a b) s
| LStar0 a : lang (Star a) EmptyString
| LStarS a s1 s2 : lang a s1 -> lang (Star a) s2 -> lang (Star a) (s1 ++ s2)%string.

End Re.

(* ------------------------------------------------------------------ *)
(** ** The module's patterns *)

Module Patterns.
Import Re.

Definition backtick : ascii := "`"%char.
Definition dquote : ascii := ascii_of_nat 34.
Definition is_quote (c : ascii) : bool := Py.chr_eqb c backtick || Py.chr_eqb c dquote.

Definition W : regex := Class Py.is_word.
Definition S_ : regex := Class Py.is_space_ascii.
(** [.] : any character but a newline *)
Definition Dot : regex := Class (fun c => negb (Py.is_newline c)).
Definition BQ : regex := Chr backtick.

(** [`?\w+`?] *)
Definition bq_word : regex := Cat (Opt BQ) (Cat (Plus W) (Opt BQ)).

(** [(?:\s+as\s+\w+)?] *)
Definition as_alias (as_ : regex) : regex :=
  Opt (Cat (Plus S_) (Cat as_ (Cat (Plus S_) (Plus W)))).

(** [TABLE_NAME_PATTERN = re.compile(r"^[\w -]*$", flags=re.ASCII)] *)
Definition TABLE_NAME_PATTERN : regex :=
  anchored (Star (Class (fun c => Py.is_word c || Py.chr_eqb c " " || Py.chr_eqb c "-"))).

(** [ALLOWED_FIELD_PATTERN =
     re.compile(r"^(?:`?\w+`?\.)?(`?\w+`?|\w+)(?:\s+as\s+\w+)?$", flags=re.ASCII)] *)
Definition ALLOWED_FIELD_PATTERN : regex :=
  anchored (Cat (Opt (Cat bq_word (Chr ".")))
           (Cat (Alt bq_word (Plus W)) (as_alias (Lit "as")))).

(** [FUNCTION_CALL_PATTERN =
     re.compile(r"^\w+\(.*\)(?:\s+as\s+\w+)?$", flags=re.IGNORECASE | re.ASCII)] *)
Definition FUNCTION_CALL_PATTERN : regex :=
  anchored (Cat (Plus W) (Cat (Chr "(") (Cat (Star Dot) (Cat (Chr ")")
           (as_alias (LitI "as")))))).

(** [ALLOWED_SQL_FIELD_PATTERN =
     re.compile(r"^(?:`?\w+`?\.)?(`?\w+`?|\w+)$", flags=re.ASCII)] *)
Definition ALLOWED_SQL_FIELD_PATTERN : regex :=
  anchored (Cat (Opt (Cat bq_word (Chr "."))) (Alt bq_word (Plus W))).

Definition pattern_match (r : regex) (s : string) : bool := matches r s.

(** *** [FIELD_PARSE_REGEX], with its two groups

    [^(?:Q?(tab\w+)Q?\.)?Q?(\w+)Q?$], where [Q] stands for the class of
    the backtick and the double quote. The pattern is compiled without
    [re.ASCII]: its [\w] is the one of this model on ASCII text. *)

Definition drop_quote (s : string) : string :=
  match s with
  | String c t => if is_quote c then t else s
  | EmptyString => s
  end.

(** the longest run of word characters at the head, and what follows *)
Fixpoint word_run (s : string) : string * string :=
  match s with
  | String c t =>
      if Py.is_word c
      then let (w, r) := word_run t in (String c w, r)
      else (EmptyString, s)
  | EmptyString => (EmptyString, EmptyString)
  end.

(** [Q?(\w+)Q?] at the head of [s]: the word and the rest *)
Definition quoted_word (s : string) : option (string * string) :=
  let (w, r) := word_run (drop_quote s) in
  match w with
  | EmptyString => None
  | _ => Some (w, drop_quote r)
  end.

(** [$] *)
Definition at_end (s : string) : bool :=
  match s with
  | EmptyString => true
  | String c EmptyString => Py.is_newline c
  | _ => false
  end.

Definition is_tab_word (w : string) : bool :=
  Py.startswith "tab" w && (3 <? String.length w).

(** [FIELD_PARSE_REGEX.match(s)], returning [match.groups()] *)
Definition FIELD_PARSE_REGEX_match (s : string) : option (option string * string) :=
  match quoted_word s with
  | None => None
  | Some (w, r) =>
      if at_end r then Some (None, w)
      else
        match r with
        | String c r' =>
            if Py.chr_eqb c "." && is_tab_word w
            then match quoted_word r' with
                 | Some (f, r'') => if at_end r'' then Some (Some w, f) else None
                 | None => None
                 end
            else None
        | EmptyString => None
        end
  end.

(** *** [re.search] of [(Q)tab(.+?)\1.\1(.+)\1] in [DynamicTableField.parse]

    [(.+)\1]: the longest non-empty run without newline that is followed
    by the quote [q]. *)
Fixpoint greedy_until (q : ascii) (s : string) : option string :=
  match s with
  | EmptyString => None
  | String c t =>
      if Py.is_newline c then None
      else match greedy_until q t with
           | Some y => Some (String c y)
           | None =>
               match t with
               | String d _ => if Py.chr_eqb d q then Some (String c EmptyString) else None
               | EmptyString => None
               end
           end
  end.

(** [\1.\1(.+)\1] at the head of [s] *)
Definition child_ref_tail (q : ascii) (s : string) : option string :=
  match s with
  | String a (String d (String b rest)) =>
      if Py.chr_eqb a q && negb (Py.is_newline d) && Py.chr_eqb b q
      then greedy_until q rest
      else None
  | _ => None
  end.

(** [(.+?)] followed by the tail: the shortest group first; [x] is the
    group read so far. *)
Fixpoint child_ref_lazy (q : ascii) (x s : string) : option (string * string) :=
  match s with
  | EmptyString => None
  | String c t =>
      if Py.is_newline c then None
      else
        let x' := (x ++ String c EmptyString)%string in
        match child_ref_tail q t with
        | Some y => Some (x', y)
        | None => child_ref_lazy q x' t
        end
  end.

Definition child_ref_at (s : string) : option (ascii * string * string) :=
  match s with
  | String q (String t (String a (String b rest))) =>
      if is_quote q && Py.chr_eqb t "t" && Py.chr_eqb a "a" && Py.chr_eqb b "b"
      then match child_ref_lazy q EmptyString rest with
           | Some (x, y) => Some (q, x, y)
           | None => None
           end
      else None
  | _ => None
  end.

(** the leftmost match; [None] is Python's [None] *)
Fixpoint child_ref_search (s : string) : option (ascii * string * string) :=
  match child_ref_at s with
  | Some g => Some g
  | None =>
      match s with
      | String _ t => child_ref_search t
      | EmptyString => None
      end
  end.

(** *** [COMMA_PATTERN = re.compile(r",\s*(?![^()]*\))")]

    The look-ahead [(?![^()]*\))] fails when the first parenthesis that
    follows is a closing one. *)
Fixpoint closes_first (s : string) : bool :=
  match s with
  | EmptyString => false
  | String c t =>
      if Py.chr_eqb c ")" then true
      else if Py.chr_eqb c "(" then false
      else closes_first t
  end.

(** [COMMA_PATTERN.split(s)]: [eat] is true while the whitespace that
    follows a separating comma is being dropped. *)
Fixpoint comma_split_go (eat : bool) (cur s : string) : list string :=
  match s with
  | EmptyString => [cur]
  | String c t =>
      if eat && Py.is_space c then comma_split_go true cur t
      else if Py.chr_eqb c "," && negb (closes_first t)
      then cur :: comma_split_go true EmptyString t
      else comma_split_go false (cur ++ String c EmptyString)%string t
  end.

Definition COMMA_PATTERN_split (s : string) : list string :=
  comma_split_go false EmptyString s.

(** *** [re.split(r"\s+as\s+", field, flags=re.IGNORECASE)]

    [ws_as_ws s]: the length of the match of [\s+as\s+] at the head of
    [s], when there is one. *)
Fixpoint space_run (s : string) : nat :=
  match s with
  | String c t => if Py.is_space c then S (space_run t) else 0
  | EmptyString => 0
  end.

Fixpoint drop (n : nat) (s : string) : string :=
  match n, s with
  | S k, String _ t => drop k t
  | _, _ => s
  end.

Definition ws_as_ws (s : string) : option nat :=
  let n1 := space_run s in
  match n1 with
  | 0 => None
  | _ =>
      match drop n1 s with
      | String a (String b r) =>
          if Py.chr_eqb (Py.to_lower a) "a" && Py.chr_eqb (Py.to_lower b) "s"
          then match space_run r with
               | 0 => None
               | n2 => Some (n1 + 2 + n2)
               end
          else None
      | _ => None
      end
  end.

Fixpoint as_split_go (skip : nat) (cur s : string) : list string :=
  match s with
  | EmptyString => [cur]
  | String c t =>
      match skip with
      | S k => as_split_go k cur t
      | O =>
          match ws_as_ws s with
          | Some n => cur :: as_split_go (n - 1) EmptyString t
          | None => as_split_go 0 (cur ++ String c EmptyString)%string t
          end
      end
  end.

Definition AS_split (s : string) : list string := as_split_go 0 EmptyString s.

End Patterns.

Import Patterns.

(* ------------------------------------------------------------------ *)
(** ** Exceptions *)

Inductive exception : Type :=
| ValidationError     (* frappe.throw without an exception class *)
| PermissionError     (* frappe.PermissionError *)
| TypeError
| ValueError
| AttributeError
| KeyError.

Inductive result (A : Type) : Type :=
| Ok (a : A)
| Err (e : exception).

Arguments Ok {A} a.
Arguments Err {A} e.

Definition bind {A B : Type} (r : result A) (k : A -> result B) : result B :=
  match r with
  | Ok a => k a
  | Err e => Err e
  end.

Notation "x <- c ;; k" := (bind c (fun x => k))
  (at level 61, c at next level, right associativity).
Notation "' p <- c ;; k" := (bind c (fun x => match x with p => k end))
  (at level 61, p pattern, c at next level, right associativity).

Definition is_ok {A : Type} (r : result A) : bool :=
  match r with Ok _ => true | Err _ => false end.

(* ------------------------------------------------------------------ *)
(** ** Values, columns and predicates *)

(** [pypika.Table]; two tables are the same table when their names are. *)
Record Table : Type := { table_name : string }.

Definition table_eqb (a b : Table) : bool :=
  String.eqb a.(table_name) b.(table_name).

(** Modelled from the spec: [frappe.qb.DocType], which is not part of this
    module: an entity resolves to a physical table name by a fixed naming
    convention, prefix + entity name. *)
Definition DocType (doctype : string) : Table :=
  {| table_name := ("tab" ++ doctype)%string |}.

(** [pypika.Field]; [Star] is the field named [*]. *)
Record Field : Type := {
  f_name : string;
  f_table : Table;
  f_alias : option string
}.

(** [table[name]], [getattr(table, name)] *)
Definition column (t : Table) (name : string) : Field :=
  {| f_name := name; f_table := t; f_alias := None |}.

(** [field.as_(alias)] *)
Definition as_ (f : Field) (alias : option string) : Field :=
  {| f_name := f.(f_name); f_table := f.(f_table); f_alias := alias |}.

Definition star (t : Table) : Field := column t "*".

(** The Python values that reach the builder. *)
Inductive pyval : Type :=
| PNone
| PBool (b : bool)
| PInt (z : Z)
| PStr (s : string)
| PList (l : list pyval)
| PTuple (l : list pyval)
| PSet (l : list pyval)
| PDict (d : list (pyval * pyval))
| PField (f : Field)               (* a pypika Field, Star included *)
| PFunction (name sql : string)    (* a pypika Function *)
| PCriterion (id : string)         (* any other pypika Criterion of the caller *)
| PPseudoColumn (sql : string)     (* PseudoColumnMapper *)
| PObject (id : string).           (* anything else *)

(** [isinstance(v, Criterion)]: Field and Function are Criterion classes *)
Definition is_criterion (v : pyval) : bool :=
  match v with
  | PField _ | PFunction _ _ | PCriterion _ => true
  | _ => false
  end.

(** [bool(v)] *)
Definition truthy (v : pyval) : bool :=
  match v with
  | PNone => false
  | PBool b => b
  | PInt z => negb (z =? 0)%Z
  | PStr s => negb (String.eqb s EmptyString)
  | PList l | PTuple l | PSet l => negb (Nat.eqb (List.length l) 0)
  | PDict d => negb (Nat.eqb (List.length d) 0)
  | _ => true
  end.

(** [hash(v)] succeeds *)
Fixpoint hashable (v : pyval) : bool :=
  match v with
  | PList _ | PSet _ | PDict _ => false
  | PTuple l => forallb hashable l
  | _ => true
  end.

(** Predicates of the query AST. [COp key f v] is
    [OPERATOR_MAP[key](f, v)]; [CAnd] and [COr] are [&] and [|]. *)
Inductive criterion : Type :=
| CEmpty                               (* EmptyCriterion *)
| CTerm (t : pyval)                    (* a Criterion given by the caller *)
| CEq (l r : pyval)                    (* l == r *)
| CIsNull (f : pyval)                  (* f.isnull() *)
| CIsIn (f : pyval) (vs : list string) (* f.isin(vs) *)
| COp (key : string) (f v : pyval)
| CAnd (a b : criterion)
| COr (a b : criterion)
| CRaw (sql : string).                 (* RawCriterion *)

Definition cand (a b : criterion) : criterion :=
  match a, b with
  | CEmpty, _ => b
  | _, CEmpty => a
  | _, _ => CAnd a b
  end.

(** [Criterion.all(terms)] *)
Definition Criterion_all (terms : list criterion) : criterion :=
  fold_left cand terms CEmpty.

(** a join clause: the table, the alias the builder gave it when it joined
    it, and the condition *)
Record Join : Type := {
  join_item : Table;
  join_alias : option string;
  join_on : criterion
}.

Inductive Order : Type := asc | desc.

Inductive query_mode : Type := SelectFrom | Update | Into | Delete.

(** *** Dynamic fields *)

Record ChildTableField : Type := {
  ct_doctype : string;
  ct_fieldname : string;
  ct_parent_doctype : string;
  ct_parent_fieldname : option string;
  ct_alias : option string
}.

Record LinkTableField : Type := {
  lt_doctype : string;
  lt_fieldname : string;
  lt_parent_doctype : string;
  lt_link_fieldname : string;
  lt_alias : option string
}.

Inductive DynamicTableField : Type :=
| Child (f : ChildTableField)
| Link (f : LinkTableField).

(** the attributes [__init__] sets when it runs to its end *)
Record ChildQueryAttrs : Type := {
  cq_fieldname : string;
  cq_fields : list pyval;
  cq_parent_doctype : string;
  cq_doctype : string
}.

(** A [ChildQuery] object: [None] is the object whose [__init__] returned
    before any attribute was set. *)
Definition ChildQuery : Type := option ChildQueryAttrs.

(** the elements of [Engine.fields] *)
Inductive field_item : Type :=
| ITerm (t : pyval)
| IDynamic (f : DynamicTableField)
| IChildQuery (c : ChildQuery).

(** *** The query under construction *)

Record Query : Type := {
  q_table : Table;
  q_mode : query_mode;
  q_selects : list pyval;
  q_joins : list Join;
  q_wheres : list criterion;
  q_orderbys : list (string * Order);
  q_groupbys : list string;
  q_limit : option Z;
  q_offset : option Z;
  q_distinct : bool;
  q_for_update : option (bool * bool);
  q_child_queries : list ChildQuery;
  q_immutable : bool
}.

Definition set_mode (q : Query) (x : query_mode) : Query :=
  {| q_table := q.(q_table);
     q_mode := x;
     q_selects := q.(q_selects);
     q_joins := q.(q_joins);
     q_wheres := q.(q_wheres);
     q_orderbys := q.(q_orderbys);
     q_groupbys := q.(q_groupbys);
     q_limit := q.(q_limit);
     q_offset := q.(q_offset);
     q_distinct := q.(q_distinct);
     q_for_update := q.(q_for_update);
     q_child_queries := q.(q_child_queries);
     q_immutable := q.(q_immutable) |}.

Definition set_selects (q : Query) (x : list pyval) : Query :=
  {| q_table := q.(q_table);
     q_mode := q.(q_mode);
     q_selects := x;
     q_joins := q.(q_joins);
     q_wheres := q.(q_wheres);
     q_orderbys := q.(q_orderbys);
     q_groupbys := q.(q_groupbys);
     q_limit := q.(q_limit);
     q_offset := q.(q_offset);
     q_distinct := q.(q_distinct);
     q_for_update := q.(q_for_update);
     q_child_queries := q.(q_child_queries);
     q_immutable := q.(q_immutable) |}.

Definition set_joins (q : Query) (x : list Join) : Query :=
  {| q_table := q.(q_table);
     q_mode := q.(q_mode);
     q_selects := q.(q_selects);
     q_joins := x;
     q_wheres := q.(q_wheres);
     q_orderbys := q.(q_orderbys);
     q_groupbys := q.(q_groupbys);
     q_limit := q.(q_limit);
     q_offset := q.(q_offset);
     q_distinct := q.(q_distinct);
     q_for_update := q.(q_for_update);
     q_child_queries := q.(q_child_queries);
     q_immutable := q.(q_immutable) |}.

Definition set_wheres (q : Query) (x : list criterion) : Query :=
  {| q_table := q.(q_table);
     q_mode := q.(q_mode);
     q_selects := q.(q_selects);
     q_joins := q.(q_joins);
     q_wheres := x;
     q_orderbys := q.(q_orderbys);
     q_groupbys := q.(q_groupbys);
     q_limit := q.(q_limit);
     q_offset := q.(q_offset);
     q_distinct := q.(q_distinct);
     q_for_update := q.(q_for_update);
     q_child_queries := q.(q_child_queries);
     q_immutable := q.(q_immutable) |}.

Definition set_orderbys (q : Query) (x : list (string * Order)) : Query :=
  {| q_table := q.(q_table);
     q_mode := q.(q_mode);
     q_selects := q.(q_selects);
     q_joins := q.(q_joins);
     q_wheres := q.(q_wheres);
     q_orderbys := x;
     q_groupbys := q.(q_groupbys);
     q_limit := q.(q_limit);
     q_offset := q.(q_offset);
     q_distinct := q.(q_distinct);
     q_for_update := q.(q_for_update);
     q_child_queries := q.(q_child_queries);
     q_immutable := q.(q_immutable) |}.

Definition set_groupbys (q : Query) (x : list string) : Query :=
  {| q_table := q.(q_table);
     q_mode := q.(q_mode);
     q_selects := q.(q_selects);
     q_joins := q.(q_joins);
     q_wheres := q.(q_wheres);
     q_orderbys := q.(q_orderbys);
     q_groupbys := x;
     q_limit := q.(q_limit);
     q_offset := q.(q_offset);
     q_distinct := q.(q_distinct);
     q_for_update := q.(q_for_update);
     q_child_queries := q.(q_child_queries);
     q_immutable := q.(q_immutable) |}.

Definition set_limit (q : Query) (x : option Z) : Query :=
  {| q_table := q.(q_table);
     q_mode := q.(q_mode);
     q_selects := q.(q_selects);
     q_joins := q.(q_joins);
     q_wheres := q.(q_wheres);
     q_orderbys := q.(q_orderbys);
     q_groupbys := q.(q_groupbys);
     q_limit := x;
     q_offset := q.(q_offset);
     q_distinct := q.(q_distinct);
     q_for_update := q.(q_for_update);
     q_child_queries := q.(q_child_queries);
     q_immutable := q.(q_immutable) |}.

Definition set_offset (q : Query) (x : option Z) : Query :=
  {| q_table := q.(q_table);
     q_mode := q.(q_mode);
     q_selects := q.(q_selects);
     q_joins := q.(q_joins);
     q_wheres := q.(q_wheres);
     q_orderbys := q.(q_orderbys);
     q_groupbys := q.(q_groupbys);
     q_limit := q.(q_limit);
     q_offset := x;
     q_distinct := q.(q_distinct);
     q_for_update := q.(q_for_update);
     q_child_queries := q.(q_child_queries);
     q_immutable := q.(q_immutable) |}.

Definition set_distinct (q : Query) (x : bool) : Query :=
  {| q_table := q.(q_table);
     q_mode := q.(q_mode);
     q_selects := q.(q_selects);
     q_joins := q.(q_joins);
     q_wheres := q.(q_wheres);
     q_orderbys := q.(q_orderbys);
     q_groupbys := q.(q_groupbys);
     q_limit := q.(q_limit);
     q_offset := q.(q_offset);
     q_distinct := x;
     q_for_update := q.(q_for_update);
     q_child_queries := q.(q_child_queries);
     q_immutable := q.(q_immutable) |}.

Definition set_for_update (q : Query) (x : option (bool * bool)) : Query :=
  {| q_table := q.(q_table);
     q_mode := q.(q_mode);
     q_selects := q.(q_selects);
     q_joins := q.(q_joins);
     q_wheres := q.(q_wheres);
     q_orderbys := q.(q_orderbys);
     q_groupbys := q.(q_groupbys);
     q_limit := q.(q_limit);
     q_offset := q.(q_offset);
     q_distinct := q.(q_distinct);
     q_for_update := x;
     q_child_queries := q.(q_child_queries);
     q_immutable := q.(q_immutable) |}.

Definition set_child_queries (q : Query) (x : list ChildQuery) : Query :=
  {| q_table := q.(q_table);
     q_mode := q.(q_mode);
     q_selects := q.(q_selects);
     q_joins := q.(q_joins);
     q_wheres := q.(q_wheres);
     q_orderbys := q.(q_orderbys);
     q_groupbys := q.(q_groupbys);
     q_limit := q.(q_limit);
     q_offset := q.(q_offset);
     q_distinct := q.(q_distinct);
     q_for_update := q.(q_for_update);
     q_child_queries := x;
     q_immutable := q.(q_immutable) |}.

Definition set_immutable (q : Query) (x : bool) : Query :=
  {| q_table := q.(q_table);
     q_mode := q.(q_mode);
     q_selects := q.(q_selects);
     q_joins := q.(q_joins);
     q_wheres := q.(q_wheres);
     q_orderbys := q.(q_orderbys);
     q_groupbys := q.(q_groupbys);
     q_limit := q.(q_limit);
     q_offset := q.(q_offset);
     q_distinct := q.(q_distinct);
     q_for_update := q.(q_for_update);
     q_child_queries := q.(q_child_queries);
     q_immutable := x |}.

(* ------------------------------------------------------------------ *)
(** ** The collaborators of the builder

    Metadata, permissions, sharing, hooks, settings and storage are
    consulted by the module and defined elsewhere; so are the constants
    it imports. They are the fields of one interface. *)

Record DocField : Type := {
  fieldtype : string;
  options : string
}.

(** an entry of [meta.get_link_fields()] and of [get_doctype_link_fields] *)
Record LinkDf : Type := {
  df_fieldname : string;
  df_options : string;
  df_ignore_user_permissions : bool
}.

(** [frappe.permissions.get_role_permissions(doctype, user)] *)
Record RolePermissions : Type := {
  rp_read : bool;
  rp_select : bool;
  rp_has_if_owner_enabled : bool;
  rp_if_owner : list string
}.

(** an entry of the user-permission list of one entity; an empty
    [up_applicable_for] is an absent one *)
Record UserPermission : Type := {
  up_doc : string;
  up_applicable_for : string
}.

(** a row of a tree entity's table *)
Record NodeRow : Type := {
  n_name : string;
  n_lft : option Z;
  n_rgt : option Z
}.

Class Env : Type := {
  (* constants imported by the module *)
  special_char : ascii -> bool;            (* SPECIAL_CHAR_PATTERN, one character *)
  operator_keys : list string;             (* the keys of OPERATOR_MAP *)
  NESTED_SET_OPERATORS : list string;
  (* whether that constant is a set, whose membership test hashes the value
     it is asked for *)
  NESTED_SET_OPERATORS_hashed : bool;
  (* what frappe.qb.DocType and frappe.get_meta raise when the entity that
     they are handed is not a string *)
  DocType_raises : exception;
  get_meta_raises : exception;
  table_fields : list string;              (* frappe.model.table_fields *)
  SqlFunctions : list string;              (* the values of the enumeration *)
  DefaultOrderBy : string;
  (* frappe.local, frappe.session *)
  db_type : string;
  session_user : string;
  (* metadata *)
  get_field : string -> string -> option DocField;
  get_link_fields : string -> list LinkDf;
  istable : string -> bool;
  get_doctype_name : string -> string;
  (* permissions *)
  has_permission : string -> string -> string -> option string -> bool;
  get_role_permissions : string -> string -> RolePermissions;
  get_permitted_fields : string -> option string -> string -> list string;
  only_has_select_perm : string -> string -> bool;
  get_user_permissions : string -> list (string * list UserPermission);
  get_shared : string -> string -> list string;
  (* the results of the permission_query_conditions hooks of an entity and
     of [*], in order, and of the permission_query server script *)
  hook_conditions : string -> string -> list string;
  script_condition : string -> string -> option string;
  apply_strict_user_permissions : bool;
  (* frappe.database.utils *)
  is_filter_value : pyval -> bool;         (* isinstance(v, FilterValue) *)
  convert_to_value : pyval -> pyval;
  (* sqlparse.format(field, strip_comments=True, keyword_case=lower),
     followed on MariaDB by MARIADB_SPECIFIC_COMMENT.sub *)
  strip_comments : bool -> string -> string;
  (* Engine.get_function_object: the name and the text of the pypika
     Function it builds from a field string *)
  function_object : string -> result (string * string);
  (* storage: the rows of a tree entity, and SQL's [name = value] *)
  rows : string -> list NodeRow;
  sql_name_eq : string -> pyval -> bool
}.

(* ------------------------------------------------------------------ *)
(** ** The query AST builder

    Modelled from the spec: the query-AST builder (pypika's QueryBuilder)
    is not part of this module; it accumulates selected fields, joins and
    conjoined predicates, and answers [is_joined(target)] by the target
    table. Where the spec is silent the model follows the builder that
    the code calls: two tables are the same table when their names and
    their aliases agree, and [do_join] gives a table that is joined
    without an alias to a query built on that very table the alias
    [<name>2]. The tables that the engine and the dynamic fields make
    have no alias; the alias of a joined table is kept in its join
    clause. The builder's check that the tables of a join condition
    belong to the query (its JoinException) is not modelled. *)

Definition from_ (t : Table) (m : query_mode) : Query :=
  {| q_table := t; q_mode := m; q_selects := []; q_joins := []; q_wheres := [];
     q_orderbys := []; q_groupbys := []; q_limit := None; q_offset := None;
     q_distinct := false; q_for_update := None; q_child_queries := [];
     q_immutable := false |}.

Definition select (q : Query) (t : pyval) : Query :=
  set_selects q (q.(q_selects) ++ [t]).

Definition where_ (q : Query) (c : criterion) : Query :=
  match c with
  | CEmpty => q
  | _ => set_wheres q (q.(q_wheres) ++ [c])
  end.

(** [self._from + [self._update_table] + self._with]: the tables the query
    is built on; an insert has none *)
Definition base_tables (q : Query) : list Table :=
  match q.(q_mode) with
  | Into => []
  | _ => [q.(q_table)]
  end.

(** [join.item in base_tables] *)
Definition own_table (q : Query) (t : Table) : bool :=
  existsb (table_eqb t) (base_tables q).

(** the alias [do_join] gives the table [t] when it joins it to [q] *)
Definition join_alias_of (q : Query) (t : Table) : option string :=
  if own_table q t then Some (t.(table_name) ++ "2")%string else None.

(** [query.is_joined(t)], that is [any(t == join.item for join in
    self._joins)], for a table [t] without alias: a clause that was given
    an alias is not a clause on [t] *)
Definition is_joined (q : Query) (t : Table) : bool :=
  existsb (fun j => table_eqb t j.(join_item)
                    && match j.(join_alias) with None => true | Some _ => false end)
          q.(q_joins).

(** [query.left_join(t).on(c)], for a table [t] without alias *)
Definition left_join_on (q : Query) (t : Table) (c : criterion) : Query :=
  set_joins q (q.(q_joins)
               ++ [{| join_item := t; join_alias := join_alias_of q t; join_on := c |}]).

(** the join clauses on the table of the name of [t], whatever their alias *)
Definition count_joins (t : Table) (q : Query) : nat :=
  List.length (filter (fun j => table_eqb t j.(join_item)) q.(q_joins)).

(** some join clause is on the table of the name of [t] *)
Definition has_join (q : Query) (t : Table) : bool :=
  existsb (fun j => table_eqb t j.(join_item)) q.(q_joins).

(* ------------------------------------------------------------------ *)
(** ** Dynamic fields *)

Section DynamicFields.
Context {site : Env}.

Definition dyn_doctype (d : DynamicTableField) : string :=
  match d with
  | Child f => f.(ct_doctype)
  | Link f => f.(lt_doctype)
  end.

(** [self.parent_doctype] *)
Definition dyn_parent_doctype (d : DynamicTableField) : string :=
  match d with
  | Child f => f.(ct_parent_doctype)
  | Link f => f.(lt_parent_doctype)
  end.

Definition dyn_fieldname (d : DynamicTableField) : string :=
  match d with
  | Child f => f.(ct_fieldname)
  | Link f => f.(lt_fieldname)
  end.

Definition dyn_alias (d : DynamicTableField) : option string :=
  match d with
  | Child f => f.(ct_alias)
  | Link f => f.(lt_alias)
  end.

(** [self.table = frappe.qb.DocType(self.doctype)] *)
Definition dyn_table (d : DynamicTableField) : Table := DocType (dyn_doctype d).

(** [self.field = self.table[self.fieldname]] *)
Definition dyn_field (d : DynamicTableField) : Field :=
  column (dyn_table d) (dyn_fieldname d).

(** [(table.parent == main_table.name) & (table.parenttype == parent_doctype)] *)
Definition child_join_on (t main_table : Table) (parent_doctype : string) : criterion :=
  CAnd (CEq (PField (column t "parent")) (PField (column main_table "name")))
       (CEq (PField (column t "parenttype")) (PStr parent_doctype)).

(** [table.name == getattr(main_table, link_fieldname)] *)
Definition link_join_on (t main_table : Table) (link_fieldname : string) : criterion :=
  CEq (PField (column t "name")) (PField (column main_table link_fieldname)).

(** [ChildTableField.apply_join], [LinkTableField.apply_join] *)
Definition apply_join (d : DynamicTableField) (q : Query) : Query :=
  match d with
  | Child f =>
      let t := DocType f.(ct_doctype) in
      let main_table := DocType f.(ct_parent_doctype) in
      if negb (is_joined q t)
      then left_join_on q t (child_join_on t main_table f.(ct_parent_doctype))
      else q
  | Link f =>
      let t := DocType f.(lt_doctype) in
      let main_table := DocType f.(lt_parent_doctype) in
      if negb (is_joined q t)
      then left_join_on q t (link_join_on t main_table f.(lt_link_fieldname))
      else q
  end.

(** [alias or None] *)
Definition or_none (a : option string) : option string :=
  match a with
  | Some s => if String.eqb s EmptyString then None else Some s
  | None => None
  end.

(** [ChildTableField.apply_select], [LinkTableField.apply_select] *)
Definition apply_select (d : DynamicTableField) (q : Query) : Query :=
  let t := DocType (dyn_doctype d) in
  let q := apply_join d q in
  select q (PField (as_ (column t (dyn_fieldname d)) (or_none (dyn_alias d)))).

(** [DynamicTableField.parse]. [Ok None] is the function returning [None];
    the errors are those of the two tuple unpackings, of [.groups()] on a
    search without match and of reading an attribute of a field that the
    metadata does not have. *)
Definition parse (field doctype : string) : result (option DynamicTableField) :=
  if Py.contains "." field then
    '(field, alias) <-
       (if Py.contains " as " field
        then match Py.split " as " field with
             | [f; a] => Ok (f, Some a)
             | _ => Err ValueError
             end
        else Ok (field, None)) ;;
    if Py.startswith "`tab" field
       || Py.startswith (String dquote "tab") field
    then
      match child_ref_search field with
      | None => Err AttributeError
      | Some (_, child_doctype, child_field) =>
          if String.eqb child_doctype doctype then Ok None
          else Ok (Some (Child {| ct_doctype := child_doctype;
                                  ct_fieldname := child_field;
                                  ct_parent_doctype := doctype;
                                  ct_parent_fieldname := None;
                                  ct_alias := alias |}))
      end
    else
      match Py.split "." field with
      | [linked_fieldname; fieldname] =>
          match get_field doctype linked_fieldname with
          | None => Err AttributeError
          | Some linked_field =>
              let linked_doctype := linked_field.(options) in
              if String.eqb linked_field.(fieldtype) "Link"
              then Ok (Some (Link {| lt_doctype := linked_doctype;
                                     lt_fieldname := fieldname;
                                     lt_parent_doctype := doctype;
                                     lt_link_fieldname := linked_fieldname;
                                     lt_alias := alias |}))
              else if Py.in_list linked_field.(fieldtype) table_fields
              then Ok (Some (Child {| ct_doctype := linked_doctype;
                                      ct_fieldname := fieldname;
                                      ct_parent_doctype := doctype;
                                      ct_parent_fieldname := Some linked_fieldname;
                                      ct_alias := alias |}))
              else Ok None
          end
      | _ => Err ValueError
      end
  else Ok None.

End DynamicFields.

(* ------------------------------------------------------------------ *)
(** ** Nested-set hierarchies *)

Section NestedSet.
Context {site : Env}.

(** SQL comparisons: a comparison with NULL selects no row *)
Definition sql_gt (a b : option Z) : bool :=
  match a, b with
  | Some x, Some y => (y <? x)%Z
  | _, _ => false
  end.

Definition sql_lt (a b : option Z) : bool := sql_gt b a.

Definition lft_key (r : NodeRow) : Z :=
  match r.(n_lft) with Some z => z | None => 0%Z end.

Fixpoint insert_by (le : NodeRow -> NodeRow -> bool) (r : NodeRow) (l : list NodeRow)
  : list NodeRow :=
  match l with
  | [] => [r]
  | x :: t => if le r x then r :: l else x :: insert_by le r t
  end.

(** [orderby(table.lft, order=...)] *)
Definition order_by_lft (o : Order) (l : list NodeRow) : list NodeRow :=
  let le a b :=
    match o with
    | asc => (lft_key a <=? lft_key b)%Z
    | desc => (lft_key b <=? lft_key a)%Z
    end in
  fold_right (insert_by le) [] l.

(** [select("lft", "rgt").where(table.name == name).run()[0]], with the
    [IndexError] of an empty result caught *)
Definition node_bounds (doctype : string) (name : pyval) : option Z * option Z :=
  match filter (fun r => sql_name_eq r.(n_name) name) (rows doctype) with
  | r :: _ => (r.(n_lft), r.(n_rgt))
  | [] => (None, None)
  end.


Definition descendant_operators : list string :=
  ["descendants of"; "not descendants of"; "descendants of (inclusive)"].

(** [get_nested_set_hierarchy_result] *)
Definition get_nested_set_hierarchy_result
    (doctype : string) (name : pyval) (hierarchy : string) : list pyval :=
  let '(lft, rgt) := node_bounds doctype name in
  if Py.in_list hierarchy descendant_operators then
    let result :=
      map (fun r => PStr r.(n_name))
          (order_by_lft asc
             (filter (fun r => sql_lt r.(n_rgt) rgt)
                     (filter (fun r => sql_gt r.(n_lft) lft) (rows doctype)))) in
    if String.eqb hierarchy "descendants of (inclusive)"
    then result ++ [name]
    else result
  else
    map (fun r => PStr r.(n_name))
        (order_by_lft desc
           (filter (fun r => sql_gt r.(n_rgt) rgt)
                   (filter (fun r => sql_lt r.(n_lft) lft) (rows doctype)))).

End NestedSet.

(* ------------------------------------------------------------------ *)
(** ** Engine *)

Record Engine : Type := {
  self_doctype : string;
  self_table : Table;
  self_user : string;
  self_parent_doctype : option string;
  self_apply_permissions : bool;
  self_is_mariadb : bool;
  self_query : Query;
  self_fields : list field_item
}.

Definition with_query (self : Engine) (q : Query) : Engine :=
  {| self_doctype := self.(self_doctype); self_table := self.(self_table);
     self_user := self.(self_user);
     self_parent_doctype := self.(self_parent_doctype);
     self_apply_permissions := self.(self_apply_permissions);
     self_is_mariadb := self.(self_is_mariadb);
     self_query := q; self_fields := self.(self_fields) |}.

Definition with_fields (self : Engine) (l : list field_item) : Engine :=
  {| self_doctype := self.(self_doctype); self_table := self.(self_table);
     self_user := self.(self_user);
     self_parent_doctype := self.(self_parent_doctype);
     self_apply_permissions := self.(self_apply_permissions);
     self_is_mariadb := self.(self_is_mariadb);
     self_query := self.(self_query); self_fields := l |}.

Section Filters.
Context {site : Env}.

(** [SPECIAL_CHAR_PATTERN.search(s)] *)
Definition has_special_char (s : string) : bool := Py.any_char special_char s.

(** [doctype or self.doctype] *)
Definition doctype_or (doctype : option string) (d : string) : string :=
  match doctype with
  | Some s => if String.eqb s EmptyString then d else s
  | None => d
  end.

(** [Engine._validate_and_prepare_filter_field] *)
Definition _validate_and_prepare_filter_field
    (self : Engine) (field : pyval) (doctype : option string)
  : result (Engine * pyval) :=
  match field with
  | PStr s =>
      if has_special_char s then
        dynamic_field <- parse s self.(self_doctype) ;;
        match dynamic_field with
        | Some d =>
            Ok (with_query self (apply_join d self.(self_query)),
                PField (dyn_field d))
        | None =>
            if negb (pattern_match ALLOWED_SQL_FIELD_PATTERN s)
            then Err PermissionError
            else Ok (self,
                     PField (column (DocType (doctype_or doctype self.(self_doctype))) s))
        end
      else Ok (self, PField (column (DocType (doctype_or doctype self.(self_doctype))) s))
  | _ => Ok (self, field)
  end.

Definition is_sequence (v : pyval) : bool :=
  match v with
  | PList _ | PTuple _ | PSet _ => true
  | _ => false
  end.

(** [OPERATOR_MAP[key]]: the operator is kept by its key *)
Definition operator_fn (key : string) : result string :=
  if Py.in_list key operator_keys then Ok key else Err KeyError.

(** [nodes or ("",)] *)
Definition nodes_or_blank (nodes : list pyval) : pyval :=
  match nodes with
  | [] => PTuple [PStr EmptyString]
  | _ => PList nodes
  end.

(** the implicit join of [_apply_filter], when a child entity is named *)
Definition implicit_join (self : Engine) (doctype : option string) : Engine :=
  match doctype with
  | Some d =>
      if negb (String.eqb d EmptyString) && negb (String.eqb d self.(self_doctype))
      then
        let t := DocType d in
        if istable d && negb (is_joined self.(self_query) t)
        then with_query self
               (left_join_on self.(self_query) t
                  (child_join_on t self.(self_table) self.(self_doctype)))
        else self
      else self
  | None => self
  end.

(** [_value]: the converted value, an empty sequence replaced by [("",)] *)
Definition normalize_value (value : pyval) : pyval :=
  let _value := convert_to_value value in
  if negb (truthy _value) && is_sequence _value
  then PTuple [PStr EmptyString] else _value.

(** [field if isinstance(field, str) else _field.name] *)
Definition original_field_name (field _field : pyval) : result string :=
  match field with
  | PStr s => Ok s
  | _ => match _field with
         | PField f => Ok f.(f_name)
         | PFunction n _ => Ok n
         | _ => Err AttributeError
         end
  end.

(** [_df.options if _df else self.doctype]: the entity whose tree a
    hierarchy operator walks *)
Definition ref_doctype (doctype name : string) : string :=
  match get_field doctype name with
  | Some _df => _df.(options)
  | None => doctype
  end.

Definition hierarchy_key (hierarchy : string) : string :=
  if Py.in_list hierarchy ["not ancestors of"; "not descendants of"]
  then "not in" else "in".

(** [Engine._apply_filter] *)
Definition _apply_filter
    (self : Engine) (field value : pyval) (operator : string) (doctype : option string)
  : result Engine :=
  '(self, _field) <- _validate_and_prepare_filter_field self field doctype ;;
  let self := implicit_join self doctype in
  let _value := normalize_value value in
  if Py.in_list operator NESTED_SET_OPERATORS then
    name <- original_field_name field _field ;;
    let nodes :=
      get_nested_set_hierarchy_result
        (ref_doctype self.(self_doctype) name) _value operator in
    fn <- operator_fn (hierarchy_key operator) ;;
    Ok (with_query self
          (where_ self.(self_query) (COp fn _field (nodes_or_blank nodes))))
  else
    fn <- operator_fn (Py.casefold operator) ;;
    match _value, _field with
    | PNone, PField _ =>
        Ok (with_query self (where_ self.(self_query) (CIsNull _field)))
    | _, _ =>
        Ok (with_query self (where_ self.(self_query) (COp fn _field _value)))
    end.

(** a value that the membership test of a set can look up: a set is
    looked up as a frozen set *)
Definition set_key (v : pyval) : bool :=
  match v with
  | PSet _ => true
  | _ => hashable v
  end.

(** [Engine._apply_filter] as the list and the mapping forms of a filter
    call it, with an operator that need not be a string. An operator that
    is not a string goes the same way: the field is validated first; then
    the membership test [_operator in NESTED_SET_OPERATORS] raises
    TypeError when the constant is a set and the operator cannot be
    hashed, and otherwise finds nothing, and [_operator.casefold()] raises
    AttributeError. *)
Definition _apply_filter_with
    (self : Engine) (field value operator : pyval) (doctype : option string)
  : result Engine :=
  match operator with
  | PStr op => _apply_filter self field value op doctype
  | _ =>
      _ <- _validate_and_prepare_filter_field self field doctype ;;
      if NESTED_SET_OPERATORS_hashed && negb (set_key operator)
      then Err TypeError
      else Err AttributeError
  end.

(** the entity of a four-element filter: [doctype or self.doctype] and
    [if doctype and ...] take any falsy value as no entity; [None] here is
    an entity that is neither falsy nor a string *)
Definition as_doctype (v : pyval) : option (option string) :=
  match v with
  | PStr s => Some (Some s)
  | _ => if truthy v then None else Some None
  end.

(** [Engine._apply_filter] with an entity that is neither falsy nor a
    string. The field is validated as far as the entity is not needed; a
    plain field name hands the entity to [frappe.qb.DocType], and any other
    field passes the validation and leaves it to [frappe.get_meta], in the
    test for the implicit join. Either way the call raises. *)
Definition _apply_filter_without_entity (self : Engine) (field : pyval)
  : result Engine :=
  match field with
  | PStr s =>
      if has_special_char s then
        dynamic_field <- parse s self.(self_doctype) ;;
        match dynamic_field with
        | Some _ => Err get_meta_raises
        | None =>
            if negb (pattern_match ALLOWED_SQL_FIELD_PATTERN s)
            then Err PermissionError
            else Err DocType_raises
        end
      else Err DocType_raises
  | _ => Err get_meta_raises
  end.

(** [Engine.apply_list_filters] *)
Definition apply_list_filters (self : Engine) (filter : list pyval) : result Engine :=
  match filter with
  | [field; value] => _apply_filter self field value "=" None
  | [field; operator; value] => _apply_filter_with self field value operator None
  | [doctype; field; operator; value] =>
      match as_doctype doctype with
      | Some d => _apply_filter_with self field value operator d
      | None => _apply_filter_without_entity self field
      end
  | _ => Err ValueError
  end.

(** [Engine.apply_dict_filters] *)
Fixpoint apply_dict_filters (self : Engine) (filters : list (pyval * pyval))
  : result Engine :=
  match filters with
  | [] => Ok self
  | (field, value) :: rest =>
      self <-
        match value with
        | PList l | PTuple l =>
            match l with
            | [operator; value] => _apply_filter_with self field value operator None
            | _ => Err ValueError
            end
        | _ => _apply_filter self field value "=" None
        end ;;
      apply_dict_filters self rest
  end.

(** [Engine.apply_filters] on a scalar, a predicate or a mapping *)
Definition apply_filters_item (self : Engine) (filters : pyval) : result Engine :=
  match filters with
  | PNone => Ok self
  | _ =>
      if is_filter_value filters
      then apply_dict_filters self [(PStr "name", convert_to_value filters)]
      else if is_criterion filters
      then Ok (with_query self (where_ self.(self_query) (CTerm filters)))
      else match filters with
           | PDict d => apply_dict_filters self d
           | _ => Err ValueError
           end
  end.

Fixpoint apply_filters_each (self : Engine) (filters : list pyval) : result Engine :=
  match filters with
  | [] => Ok self
  | f :: rest =>
      self <-
        (if is_filter_value f || is_criterion f
            || match f with PDict _ => true | _ => false end
         then apply_filters_item self f
         else match f with
              | PList l | PTuple l => apply_list_filters self l
              | _ => Err ValueError
              end) ;;
      apply_filters_each self rest
  end.

(** [Engine.apply_filters] *)
Definition apply_filters (self : Engine) (filters : pyval) : result Engine :=
  match filters with
  | PNone => Ok self
  | _ =>
      if is_filter_value filters || is_criterion filters
         || match filters with PDict _ => true | _ => false end
      then apply_filters_item self filters
      else match filters with
           | PList l | PTuple l =>
               if forallb is_filter_value l && (0 <? List.length l)
               then apply_dict_filters self
                      [(PStr "name", PTuple [PStr "in"; PTuple (map convert_to_value l)])]
               else apply_filters_each self l
           | _ => Err ValueError
           end
  end.

End Filters.

(* ------------------------------------------------------------------ *)
(** ** Field parsing *)

Section Fields.
Context {site : Env}.

Definition throw {A : Type} (e : exception) : result A := Err e.

(** [_validate_select_field] *)
Definition _validate_select_field (field : string) : result unit :=
  if String.eqb field "*" then Ok tt
  else if Py.isdigit field then Ok tt
  else if pattern_match ALLOWED_FIELD_PATTERN field
          || pattern_match FUNCTION_CALL_PATTERN field
  then Ok tt
  else throw PermissionError.

(** [_sanitize_field] *)
Definition _sanitize_field (field : string) (is_mariadb : bool) : result string :=
  _ <- _validate_select_field field ;;
  Ok (Py.strip (strip_comments is_mariadb field)).

(** [SQL_FUNCTIONS]: each function name followed by an opening parenthesis *)
Definition SQL_FUNCTIONS : list string :=
  map (fun v => (v ++ "(")%string) SqlFunctions.

(** [has_function] *)
Definition has_function (field : string) : bool :=
  let field :=
    if negb (Py.contains "`" field) then Py.casefold field else field in
  existsb (fun func => Py.contains func field) SQL_FUNCTIONS.

(** [Engine.parse_string_field] *)
Definition parse_string_field (self : Engine) (field : string) : result Field :=
  if String.eqb field "*" then Ok (star self.(self_table))
  else
    let '(field_part, alias) :=
      if Py.contains " as " (Py.lower field) then
        match AS_split field with
        | p0 :: p1 :: _ =>
            (Py.strip p0,
             Some (Py.strip_chars (String backtick (String dquote EmptyString))
                                  (Py.strip p1)))
        | _ => (field, None)
        end
      else (field, None) in
    match FIELD_PARSE_REGEX_match field_part with
    | None => throw ValidationError
    | Some (table_name, field_name) =>
        let pypika_field :=
          match or_none table_name with
          | Some t => column (DocType t) field_name
          | None => column self.(self_table) field_name
          end in
        match or_none alias with
        | Some a => Ok (as_ pypika_field (Some a))
        | None => Ok pypika_field
        end
    end.

(** [list(child_fields_list)] *)
Definition as_list (v : pyval) : option (list pyval) :=
  match v with
  | PList l | PTuple l => Some l
  | _ => None
  end.

(** [ChildQuery(fieldname, fields, parent_doctype)]: the object is built
    whether or not [__init__] sets its attributes. *)
Definition ChildQuery_init (fieldname : pyval) (fields : list pyval)
    (parent_doctype : string) : result ChildQuery :=
  match fieldname with
  | PStr name =>
      match get_field parent_doctype name with
      | None => Err AttributeError
      | Some field =>
          if negb (Py.in_list field.(fieldtype) table_fields)
          then Ok None
          else Ok (Some {| cq_fieldname := name;
                           cq_fields := fields;
                           cq_parent_doctype := parent_doctype;
                           cq_doctype := field.(options) |})
      end
  | _ => Err AttributeError
  end.

Fixpoint child_queries_of (self : Engine) (d : list (pyval * pyval))
  : result (list field_item) :=
  match d with
  | [] => Ok []
  | (child_field, child_fields_list) :: rest =>
      match as_list child_fields_list with
      | None => throw ValidationError
      | Some l =>
          c <- ChildQuery_init child_field l self.(self_doctype) ;;
          more <- child_queries_of self rest ;;
          Ok (IChildQuery c :: more)
      end
  end.

(** [Engine._parse_single_field_item]; the result is the list of the
    entries it contributes to [_fields]. *)
Definition _parse_single_field_item (self : Engine) (field : pyval)
  : result (list field_item) :=
  if is_criterion field then Ok [ITerm field]
  else
    match field with
    | PDict d => child_queries_of self d
    | PStr s =>
        if has_function s then
          '(n, sql) <- function_object s ;;
          Ok [ITerm (PFunction n sql)]
        else
          parsed <- parse s self.(self_doctype) ;;
          match parsed with
          | Some d => Ok [IDynamic d]
          | None =>
              f <- parse_string_field self s ;;
              Ok [ITerm (PField f)]
          end
    | _ => throw ValidationError
    end.

Fixpoint sanitize_all (is_mariadb : bool) (l : list pyval) : result (list pyval) :=
  match l with
  | [] => Ok []
  | PStr s :: rest =>
      s' <- _sanitize_field s is_mariadb ;;
      more <- sanitize_all is_mariadb rest ;;
      Ok (PStr s' :: more)
  | v :: rest =>
      more <- sanitize_all is_mariadb rest ;;
      Ok (v :: more)
  end.

Fixpoint parse_items (self : Engine) (l : list pyval) : result (list field_item) :=
  match l with
  | [] => Ok []
  | field_item :: rest =>
      parsed <- _parse_single_field_item self field_item ;;
      more <- parse_items self rest ;;
      Ok (parsed ++ more)
  end.

(** [Engine.parse_fields] *)
Definition parse_fields (self : Engine) (fields : pyval) : result (list field_item) :=
  if negb (truthy fields) then Ok []
  else
    sanitized_field_list <-
      match fields with
      | PStr s =>
          sanitize_all self.(self_is_mariadb)
            (map PStr
               (filter (fun f => negb (String.eqb f EmptyString))
                       (map Py.strip (COMMA_PATTERN_split s))))
      | PList l | PTuple l => sanitize_all self.(self_is_mariadb) l
      | _ => throw ValidationError
      end ;;
    parse_items self sanitized_field_list.

End Fields.

(* ------------------------------------------------------------------ *)
(** ** Column and row permissions *)

Section Permissions.
Context {site : Env}.

(** [Engine.get_permission_type] *)
Definition get_permission_type (self : Engine) (doctype : string) : string :=
  if only_has_select_perm doctype self.(self_user) then "select" else "read".

(** [set(get_permitted_fields(...))]; the order in which the set is
    listed is that of its first occurrences *)
Definition permitted_set (self : Engine) (doctype : string) (parenttype : option string)
  : list string :=
  nodup string_dec
    (get_permitted_fields doctype parenttype (get_permission_type self doctype)).

(** [[f for f in fields if f in permitted]] *)
Fixpoint filter_permitted (permitted : list string) (fields : list pyval)
  : result (list pyval) :=
  match fields with
  | [] => Ok []
  | f :: rest =>
      if negb (hashable f) then Err TypeError
      else
        more <- filter_permitted permitted rest ;;
        match f with
        | PStr s => if Py.in_list s permitted then Ok (f :: more) else Ok more
        | _ => Ok more
        end
  end.

(** one turn of the loop of [apply_field_permissions]: what [field] adds
    to [allowed_fields] *)
Definition permitted_item (self : Engine) (permitted_fields_set : list string)
    (field : field_item) : result (list field_item) :=
  match field with
  | IDynamic (Child f) =>
      let permitted_child_fields_set :=
        permitted_set self f.(ct_doctype) (Some f.(ct_parent_doctype)) in
      if Py.in_list f.(ct_fieldname) permitted_child_fields_set
      then Ok [field] else Ok []
  | IDynamic (Link f) =>
      if Py.in_list f.(lt_link_fieldname) permitted_fields_set
      then Ok [field] else Ok []
  | IChildQuery None => Err AttributeError
  | IChildQuery (Some c) =>
      let permitted_child_fields_set :=
        permitted_set self c.(cq_doctype) (Some c.(cq_parent_doctype)) in
      fields <- filter_permitted permitted_child_fields_set c.(cq_fields) ;;
      match fields with
      | [] => Ok []
      | _ => Ok [IChildQuery (Some {| cq_fieldname := c.(cq_fieldname);
                                      cq_fields := fields;
                                      cq_parent_doctype := c.(cq_parent_doctype);
                                      cq_doctype := c.(cq_doctype) |})]
      end
  | ITerm (PField f) =>
      if String.eqb f.(f_name) "*"
      then parse_fields self (PList (map PStr permitted_fields_set))
      else if Py.in_list f.(f_name) permitted_fields_set
      then Ok [field]
      else if match or_none f.(f_alias) with Some _ => true | None => false end
              && Py.in_list f.(f_name) permitted_fields_set
      then Ok [field]
      else Ok []
  | ITerm (PPseudoColumn _) => Ok [field]
  | ITerm _ => Ok []
  end.

Fixpoint permitted_items (self : Engine) (permitted_fields_set : list string)
    (fields : list field_item) : result (list field_item) :=
  match fields with
  | [] => Ok []
  | field :: rest =>
      allowed <- permitted_item self permitted_fields_set field ;;
      more <- permitted_items self permitted_fields_set rest ;;
      Ok (allowed ++ more)
  end.

(** [Engine.apply_field_permissions] *)
Definition apply_field_permissions (self : Engine) : result (list field_item) :=
  let permitted_fields_set :=
    permitted_set self self.(self_doctype) self.(self_parent_doctype) in
  permitted_items self permitted_fields_set self.(self_fields).

(** [Engine.apply_fields], after [self.query] was set *)
Definition select_field (q : Query) (field : field_item) : Query :=
  match field with
  | IDynamic d => apply_select d q
  | IChildQuery c => set_child_queries q (q.(q_child_queries) ++ [c])
  | ITerm t => select q t
  end.

Definition apply_fields (self : Engine) (fields : pyval) : result Engine :=
  parsed <- parse_fields self fields ;;
  let self := with_fields self parsed in
  self <-
    (if self.(self_apply_permissions)
     then allowed <- apply_field_permissions self ;; Ok (with_fields self allowed)
     else Ok self) ;;
  let self :=
    match self.(self_fields) with
    | [] => with_fields self [ITerm (PField (column self.(self_table) "name"))]
    | _ => self
    end in
  let q := set_child_queries self.(self_query) [] in
  Ok (with_query self (fold_left select_field self.(self_fields) q)).

(** [Engine.requires_owner_constraint] *)
Definition role_has (rp : RolePermissions) (perm_type : string) : bool :=
  if String.eqb perm_type "select" then rp.(rp_select)
  else if String.eqb perm_type "read" then rp.(rp_read)
  else false.

Definition requires_owner_constraint (role_permissions : RolePermissions) : bool :=
  if negb role_permissions.(rp_has_if_owner_enabled) then false
  else
    let if_owner_perms := role_permissions.(rp_if_owner) in
    match if_owner_perms with
    | [] => false
    | _ =>
        if existsb (fun perm_type =>
                      role_has role_permissions perm_type
                      && negb (Py.in_list perm_type if_owner_perms))
                   ["select"; "read"]
        then false
        else true
    end.

(** [Engine.get_doctype_link_fields] *)
Definition get_doctype_link_fields (self : Engine) : list LinkDf :=
  {| df_fieldname := "name"; df_options := self.(self_doctype);
     df_ignore_user_permissions := false |}
  :: get_link_fields self.(self_doctype).

(** [user_permissions.get(doctype, {})] *)
Fixpoint dict_get {A : Type} (k : string) (d : list (string * list A)) : list A :=
  match d with
  | [] => []
  | (k', v) :: rest => if String.eqb k k' then v else dict_get k rest
  end.

(** the inner loop of [get_user_permission_conditions]; the engine has no
    attribute [reference_doctype], so reading it raises *)
Fixpoint permitted_docs (self : Engine) (df : LinkDf) (values : list UserPermission)
  : result (list string) :=
  match values with
  | [] => Ok []
  | permission :: rest =>
      here <-
        (if String.eqb permission.(up_applicable_for) EmptyString
         then Ok [permission.(up_doc)]
         else if String.eqb df.(df_fieldname) "name"
         then Err AttributeError
         else if String.eqb permission.(up_applicable_for) self.(self_doctype)
         then Ok [permission.(up_doc)]
         else Ok []) ;;
      more <- permitted_docs self df rest ;;
      Ok (here ++ more)
  end.

(** the condition one link field contributes *)
Definition user_permission_condition (self : Engine) (docs : list string) (df : LinkDf)
  : criterion :=
  let field_name := df.(df_fieldname) in
  let f := PField (column self.(self_table) field_name) in
  if apply_strict_user_permissions
  then CIsIn f docs
  else COr (CIsNull f) (CIsIn f docs).

(** one turn of the loop over the link fields *)
Definition link_field_condition (self : Engine)
    (user_permissions : list (string * list UserPermission)) (df : LinkDf)
  : result (list criterion) :=
  if df.(df_ignore_user_permissions) then Ok []
  else
    match dict_get df.(df_options) user_permissions with
    | [] => Ok []
    | user_permission_values =>
        docs <- permitted_docs self df user_permission_values ;;
        match docs with
        | [] => Ok []
        | _ => Ok [user_permission_condition self docs df]
        end
    end.

Fixpoint link_field_conditions (self : Engine)
    (user_permissions : list (string * list UserPermission)) (dfs : list LinkDf)
  : result (list criterion) :=
  match dfs with
  | [] => Ok []
  | df :: rest =>
      here <- link_field_condition self user_permissions df ;;
      more <- link_field_conditions self user_permissions rest ;;
      Ok (here ++ more)
  end.

(** [Engine.get_user_permission_conditions] *)
Definition get_user_permission_conditions (self : Engine)
    (role_permissions : RolePermissions) : result (list criterion * bool) :=
  if negb (role_permissions.(rp_read) || role_permissions.(rp_select))
  then Ok ([], false)
  else
    let user_permissions := get_user_permissions self.(self_user) in
    match user_permissions with
    | [] => Ok ([], false)
    | _ =>
        conditions <-
          link_field_conditions self user_permissions (get_doctype_link_fields self) ;;
        Ok (conditions, true)
    end.

(** [Engine.get_permission_query_conditions] *)
Definition get_permission_query_conditions (self : Engine) : list criterion :=
  map CRaw
      (filter (fun c => negb (String.eqb c EmptyString))
              (hook_conditions self.(self_doctype) self.(self_user)))
  ++ match script_condition self.(self_doctype) self.(self_user) with
     | Some condition =>
         if String.eqb condition EmptyString then [] else [CRaw condition]
     | None => []
     end.

(** the first half of [add_permission_conditions]: the conditions and
    [fetch_shared_docs] *)
Definition row_conditions (self : Engine) : result (list criterion * bool) :=
  let role_permissions := get_role_permissions self.(self_doctype) self.(self_user) in
  '(conditions, fetch_shared_docs) <-
     (if requires_owner_constraint role_permissions
      then Ok ([CEq (PField (column self.(self_table) "owner")) (PStr self.(self_user))],
               true)
      else if role_permissions.(rp_read) || role_permissions.(rp_select)
      then get_user_permission_conditions self role_permissions
      else Ok ([], false)) ;;
  Ok (conditions ++ get_permission_query_conditions self, fetch_shared_docs).

(** [Engine.add_permission_conditions] *)
Definition add_permission_conditions (self : Engine) : result Engine :=
  '(conditions, fetch_shared_docs) <- row_conditions self ;;
  let shared_docs :=
    if fetch_shared_docs then get_shared self.(self_doctype) self.(self_user) else [] in
  match shared_docs, conditions with
  | _ :: _, _ :: _ =>
      Ok (with_query self
            (where_ self.(self_query)
               (COr (Criterion_all conditions)
                    (CIsIn (PField (column self.(self_table) "name")) shared_docs))))
  | _ :: _, [] =>
      Ok (with_query self
            (where_ self.(self_query)
               (CIsIn (PField (column self.(self_table) "name")) shared_docs)))
  | [], _ :: _ =>
      Ok (with_query self (where_ self.(self_query) (Criterion_all conditions)))
  | [], [] => Ok self
  end.

End Permissions.

(* ------------------------------------------------------------------ *)
(** ** Clauses *)

Section Clauses.
Context {site : Env}.

(** [s.split()] *)
Fixpoint split_ws_go (cur s : string) : list string :=
  match s with
  | EmptyString =>
      match cur with EmptyString => [] | _ => [cur] end
  | String c t =>
      if Py.is_space c
      then match cur with
           | EmptyString => split_ws_go EmptyString t
           | _ => cur :: split_ws_go EmptyString t
           end
      else split_ws_go (cur ++ String c EmptyString)%string t
  end.

Definition split_ws (s : string) : list string := split_ws_go EmptyString s.

Definition nonempty (s : string) : bool := negb (String.eqb s EmptyString).

(** [Engine._validate_group_by] *)
Fixpoint validate_group_by_parts (parts : list string) : result unit :=
  match parts with
  | [] => Ok tt
  | part :: rest =>
      let field_name := Py.strip part in
      if negb (nonempty field_name) then validate_group_by_parts rest
      else if Py.isdigit field_name then validate_group_by_parts rest
      else if negb (pattern_match ALLOWED_SQL_FIELD_PATTERN field_name)
      then throw PermissionError
      else validate_group_by_parts rest
  end.

Definition _validate_group_by (group_by : pyval) : result string :=
  match group_by with
  | PStr s =>
      _ <- validate_group_by_parts (COMMA_PATTERN_split s) ;;
      Ok s
  | _ => throw TypeError
  end.

(** [Engine._validate_order_by] *)
Fixpoint validate_order_by_parts (declarations : list string) : result unit :=
  match declarations with
  | [] => Ok tt
  | declaration :: rest =>
      let _order_by := Py.strip declaration in
      if nonempty _order_by then
        match split_ws _order_by with
        | field_name :: more =>
            _ <- (if Py.isdigit field_name then Ok tt
                  else if negb (pattern_match ALLOWED_SQL_FIELD_PATTERN field_name)
                  then throw PermissionError
                  else Ok tt) ;;
            _ <- match more with
                 | d :: _ =>
                     let direction := Py.lower d in
                     if nonempty direction
                        && negb (Py.in_list direction ["asc"; "desc"])
                     then throw ValueError
                     else Ok tt
                 | [] => Ok tt
                 end ;;
            validate_order_by_parts rest
        | [] => validate_order_by_parts rest
        end
      else validate_order_by_parts rest
  end.

Definition _validate_order_by (order_by : pyval) : result string :=
  match order_by with
  | PStr s =>
      _ <- validate_order_by_parts (Py.split "," s) ;;
      Ok s
  | _ => throw TypeError
  end.

Definition orderby (q : Query) (field : string) (o : Order) : Query :=
  set_orderbys q (q.(q_orderbys) ++ [(field, o)]).

Definition order_declaration (q : Query) (declaration : string) : Query :=
  let _order_by := Py.strip declaration in
  if nonempty _order_by then
    match Py.split " " _order_by with
    | order_field :: more =>
        let order_direction :=
          match more with
          | d :: _ => if String.eqb (Py.lower d) "asc" then asc else desc
          | [] => desc
          end in
        orderby q order_field order_direction
    | [] => q
    end
  else q.

(** [Engine.apply_order_by] *)
Definition apply_order_by (self : Engine) (order_by : pyval) : result Engine :=
  if negb (truthy order_by)
     || match order_by with PStr s => String.eqb s DefaultOrderBy | _ => false end
  then Ok self
  else
    s <- _validate_order_by order_by ;;
    Ok (with_query self
          (fold_left order_declaration (Py.split "," s) self.(self_query))).

(** [limit] and [offset]: an [int] that is not negative *)
Definition non_negative_int (v : pyval) : result Z :=
  match v with
  | PInt z => if (z <? 0)%Z then throw TypeError else Ok z
  | PBool b => Ok (if b then 1%Z else 0%Z)
  | _ => throw TypeError
  end.

End Clauses.

(* ------------------------------------------------------------------ *)
(** ** [Engine.get_query]

    The build is run with a trace of the collaborator calls and of the
    phases it enters, which an error leaves as it stands. *)

Inductive event : Type :=
| EvHasPermission (doctype ptype : string)   (* frappe.has_permission *)
| EvParseFields                              (* Engine.apply_fields entered *)
| EvApplyFilters                             (* Engine.apply_filters entered *)
| EvApplyOrderBy
| EvClauses
| EvRowPermissions.                          (* Engine.add_permission_conditions entered *)

Definition M (A : Type) : Type := list event * result A.

Definition mret {A : Type} (a : A) : M A := ([], Ok a).

Definition mbind {A B : Type} (m : M A) (k : A -> M B) : M B :=
  match m with
  | (t, Ok a) => let (t', r) := k a in (t ++ t', r)
  | (t, Err e) => (t, Err e)
  end.

Definition tell (e : event) : M unit := ([e], Ok tt).
Definition lift {A : Type} (r : result A) : M A := ([], r).

Notation "x <~ c ;; k" := (mbind c (fun x => k))
  (at level 61, c at next level, right associativity).
Notation "' p <~ c ;; k" := (mbind c (fun x => match x with p => k end))
  (at level 61, p pattern, c at next level, right associativity).

Inductive table_arg : Type :=
| TableObject (t : Table)
| TableName (doctype : string).

Record Args : Type := {
  a_table : table_arg;
  a_fields : pyval;
  a_filters : pyval;
  a_order_by : pyval;
  a_group_by : pyval;
  a_limit : pyval;
  a_offset : pyval;
  a_distinct : bool;
  a_for_update : bool;
  a_update : bool;
  a_into : bool;
  a_delete : bool;
  a_skip_locked : bool;
  a_wait : bool;
  a_ignore_permissions : bool;
  a_user : option string;
  a_parent_doctype : option string
}.

Section GetQuery.
Context {site : Env}.

(** [Engine.validate_doctype] *)
Definition validate_doctype (doctype : string) : result unit :=
  if negb (pattern_match TABLE_NAME_PATTERN doctype)
  then throw ValidationError
  else Ok tt.

(** [Engine.check_read_permission] *)
Definition check_read_permission (doctype user : string) (parent_doctype : option string)
  : M unit :=
  _ <~ tell (EvHasPermission doctype "select") ;;
  if has_permission doctype "select" user parent_doctype then mret tt
  else
    _ <~ tell (EvHasPermission doctype "read") ;;
    if has_permission doctype "read" user parent_doctype then mret tt
    else lift (throw PermissionError).

(** the engine as [get_query] sets it up, its query just created *)
Definition new_engine (a : Args) (doctype : string) (table : Table) (m : query_mode)
  : Engine :=
  {| self_doctype := doctype; self_table := table;
     self_user := match or_none a.(a_user) with Some u => u | None => session_user end;
     self_parent_doctype := a.(a_parent_doctype);
     self_apply_permissions := negb a.(a_ignore_permissions);
     self_is_mariadb := String.eqb db_type "mariadb";
     self_query := from_ table m; self_fields := [] |}.

(** [Engine.get_query], from [self.apply_filters(filters)] on *)
Definition finish_query (a : Args) (self : Engine) : M Query :=
  _ <~ tell EvApplyFilters ;;
  self <~ lift (apply_filters self a.(a_filters)) ;;
  _ <~ tell EvApplyOrderBy ;;
  self <~ lift (apply_order_by self a.(a_order_by)) ;;
  _ <~ tell EvClauses ;;
  self <~
    (if truthy a.(a_limit)
     then lift (n <- non_negative_int a.(a_limit) ;;
                Ok (with_query self (set_limit self.(self_query) (Some n))))
     else mret self) ;;
  self <~
    (if truthy a.(a_offset)
     then lift (n <- non_negative_int a.(a_offset) ;;
                Ok (with_query self (set_offset self.(self_query) (Some n))))
     else mret self) ;;
  let self :=
    if a.(a_distinct)
    then with_query self (set_distinct self.(self_query) true) else self in
  let self :=
    if a.(a_for_update)
    then with_query self
           (set_for_update self.(self_query)
              (Some (a.(a_skip_locked), negb a.(a_wait))))
    else self in
  self <~
    (if truthy a.(a_group_by)
     then lift (g <- _validate_group_by a.(a_group_by) ;;
                Ok (with_query self
                      (set_groupbys self.(self_query)
                         (self.(self_query).(q_groupbys) ++ [g]))))
     else mret self) ;;
  self <~
    (if self.(self_apply_permissions)
     then _ <~ tell EvRowPermissions ;; lift (add_permission_conditions self)
     else mret self) ;;
  mret (set_immutable self.(self_query) true).

(** [Engine.get_query] *)
Definition get_query (a : Args) : M Query :=
  '(doctype, table) <~
     match a.(a_table) with
     | TableObject t => mret (get_doctype_name t.(table_name), t)
     | TableName doctype =>
         _ <~ lift (validate_doctype doctype) ;;
         mret (doctype, DocType doctype)
     end ;;
  _ <~ (if negb a.(a_ignore_permissions)
        then check_read_permission doctype
               (match or_none a.(a_user) with Some u => u | None => session_user end)
               a.(a_parent_doctype)
        else mret tt) ;;
  self <~
    (if a.(a_update) then mret (new_engine a doctype table Update)
     else if a.(a_into) then mret (new_engine a doctype table Into)
     else if a.(a_delete) then mret (new_engine a doctype table Delete)
     else
       _ <~ tell EvParseFields ;;
       lift (apply_fields (new_engine a doctype table SelectFrom) a.(a_fields))) ;;
  finish_query a self.

End GetQuery.

(* ------------------------------------------------------------------ *)
(** ** A concrete site

    Modelled from the spec: the constants and collaborators behind [Env],
    none of which is part of this module, at one site. An entity [Task]
    with a link to [User], a child collection [Task Item] and the tree of
    the specification (X with bounds 2 and 7, Y with bounds 3 and 4);
    [guest] may not read it, [alice] is restricted to her own tasks, [bob]
    has user permissions. A special character is one outside the
    plain-identifier alphabet. *)

Module Site.

Definition task_field (fieldname : string) : option DocField :=
  if String.eqb fieldname "subject" then Some {| fieldtype := "Data"; options := EmptyString |}
  else if String.eqb fieldname "status" then Some {| fieldtype := "Select"; options := EmptyString |}
  else if String.eqb fieldname "assigned_to" then Some {| fieldtype := "Link"; options := "User" |}
  else if String.eqb fieldname "project" then Some {| fieldtype := "Link"; options := "Project" |}
  else if String.eqb fieldname "parent_task" then Some {| fieldtype := "Link"; options := "Task" |}
  else if String.eqb fieldname "items" then Some {| fieldtype := "Table"; options := "Task Item" |}
  else None.

Definition task_rows : list NodeRow :=
  [ {| n_name := "ROOT"; n_lft := Some 1%Z; n_rgt := Some 8%Z |};
    {| n_name := "X"; n_lft := Some 2%Z; n_rgt := Some 7%Z |};
    {| n_name := "Y"; n_lft := Some 3%Z; n_rgt := Some 4%Z |};
    {| n_name := "Z"; n_lft := Some 5%Z; n_rgt := Some 6%Z |} ].

Definition scalar (v : pyval) : bool :=
  match v with
  | PStr _ | PInt _ | PBool _ => true
  | _ => false
  end.

#[export] Instance env : Env := {|
  special_char := fun c => negb (Py.is_word c);
  operator_keys := ["="; "!="; "<"; ">"; "<="; ">="; "in"; "not in"; "like";
                    "not like"; "is"; "between"];
  NESTED_SET_OPERATORS := ["descendants of"; "not descendants of"; "ancestors of";
                           "not ancestors of"; "descendants of (inclusive)"];
  NESTED_SET_OPERATORS_hashed := true;
  DocType_raises := AttributeError;
  get_meta_raises := TypeError;
  table_fields := ["Table"; "Table MultiSelect"];
  SqlFunctions := ["dayofyear"; "extract"; "locate"; "count"; "sum"; "avg"; "max";
                   "min"; "abs"; "timestamp"; "ifnull"];
  DefaultOrderBy := "KEEP_DEFAULT_ORDERING";
  db_type := "mariadb";
  session_user := "Administrator";
  get_field := fun doctype fieldname =>
    if String.eqb doctype "Task" then task_field fieldname else None;
  get_link_fields := fun doctype =>
    if String.eqb doctype "Task"
    then [ {| df_fieldname := "assigned_to"; df_options := "User";
              df_ignore_user_permissions := true |};
           {| df_fieldname := "project"; df_options := "Project";
              df_ignore_user_permissions := false |} ]
    else [];
  istable := fun doctype => String.eqb doctype "Task Item";
  get_doctype_name := fun t => Patterns.drop 3 t;
  has_permission := fun doctype ptype user parent =>
    negb (String.eqb user "guest");
  get_role_permissions := fun doctype user =>
    if String.eqb user "alice"
    then {| rp_read := true; rp_select := false; rp_has_if_owner_enabled := true;
            rp_if_owner := ["read"; "write"] |}
    else {| rp_read := true; rp_select := true; rp_has_if_owner_enabled := false;
            rp_if_owner := [] |};
  get_permitted_fields := fun doctype parenttype ptype =>
    if String.eqb doctype "Task" then ["name"; "subject"; "status"; "assigned_to"]
    else if String.eqb doctype "Task Item" then ["name"; "qty"]
    else ["name"];
  only_has_select_perm := fun doctype user => false;
  get_user_permissions := fun user =>
    if String.eqb user "bob"
    then [("Project", [ {| up_doc := "P1"; up_applicable_for := EmptyString |};
                        {| up_doc := "P2"; up_applicable_for := "Task" |};
                        {| up_doc := "P3"; up_applicable_for := "Issue" |} ])]
    else [];
  get_shared := fun doctype user =>
    if String.eqb user "alice" then ["T-7"] else [];
  hook_conditions := fun doctype user => [];
  script_condition := fun doctype user => None;
  apply_strict_user_permissions := false;
  is_filter_value := scalar;
  convert_to_value := fun v => v;
  strip_comments := fun is_mariadb s => s;
  function_object := fun s => Ok (s, s);
  rows := fun doctype => if String.eqb doctype "Task" then task_rows else [];
  sql_name_eq := fun n v => match v with PStr s => String.eqb n s | _ => false end
|}.

(** the same site under strict user permissions *)
Definition strict_env : Env := {|
  special_char := special_char;
  operator_keys := operator_keys;
  NESTED_SET_OPERATORS := NESTED_SET_OPERATORS;
  NESTED_SET_OPERATORS_hashed := NESTED_SET_OPERATORS_hashed;
  DocType_raises := DocType_raises;
  get_meta_raises := get_meta_raises;
  table_fields := table_fields;
  SqlFunctions := SqlFunctions;
  DefaultOrderBy := DefaultOrderBy;
  db_type := db_type;
  session_user := session_user;
  get_field := get_field;
  get_link_fields := get_link_fields;
  istable := istable;
  get_doctype_name := get_doctype_name;
  has_permission := has_permission;
  get_role_permissions := get_role_permissions;
  get_permitted_fields := get_permitted_fields;
  only_has_select_perm := only_has_select_perm;
  get_user_permissions := get_user_permissions;
  get_shared := get_shared;
  hook_conditions := hook_conditions;
  script_condition := script_condition;
  apply_strict_user_permissions := true;
  is_filter_value := is_filter_value;
  convert_to_value := convert_to_value;
  strip_comments := strip_comments;
  function_object := function_object;
  rows := rows;
  sql_name_eq := sql_name_eq
|}.

(** a column of [Task] *)
Definition task_column (name : string) : pyval :=
  PField (column (DocType "Task") name).

(** an engine on [Task], as [get_query] sets it up *)
Definition engine (user : string) (apply_permissions : bool) : Engine :=
  {| self_doctype := "Task"; self_table := DocType "Task"; self_user := user;
     self_parent_doctype := None; self_apply_permissions := apply_permissions;
     self_is_mariadb := true; self_query := from_ (DocType "Task") SelectFrom;
     self_fields := [] |}.

Definition args (doctype : string) (fields filters : pyval) (ignore_permissions : bool)
    (user : string) : Args :=
  {| a_table := TableName doctype; a_fields := fields; a_filters := filters;
     a_order_by := PNone; a_group_by := PNone; a_limit := PNone; a_offset := PNone;
     a_distinct := false; a_for_update := false; a_update := false; a_into := false;
     a_delete := false; a_skip_locked := false; a_wait := true;
     a_ignore_permissions := ignore_permissions; a_user := Some user;
     a_parent_doctype := None |}.

End Site.

(* ------------------------------------------------------------------ *)
(** ** Predicates used to state the properties *)

(** the join clauses are as [left_join_on] makes them: aliased exactly
    when they join the query's own table *)
Definition joins_built (q : Query) : Prop :=
  forall j, In j q.(q_joins) -> j.(join_alias) = join_alias_of q j.(join_item).

(** the invariant of a build: no table other than the query's own has two
    join clauses *)
Definition joins_unique (q : Query) : Prop :=
  joins_built q
  /\ forall t, own_table q t = false -> count_joins t q <= 1.

(** the dynamic field [d] aimed at the table of [doctype] *)
Definition retarget (d : DynamicTableField) (doctype : string) : DynamicTableField :=
  match d with
  | Child f => Child {| ct_doctype := doctype; ct_fieldname := f.(ct_fieldname);
                        ct_parent_doctype := f.(ct_parent_doctype);
                        ct_parent_fieldname := f.(ct_parent_fieldname);
                        ct_alias := f.(ct_alias) |}
  | Link f => Link {| lt_doctype := doctype; lt_fieldname := f.(lt_fieldname);
                      lt_parent_doctype := f.(lt_parent_doctype);
                      lt_link_fieldname := f.(lt_link_fieldname);
                      lt_alias := f.(lt_alias) |}
  end.

(** a raw predicate of a hook or of a server script *)
Definition is_raw (c : criterion) : bool :=
  match c with
  | CRaw _ => true
  | _ => false
  end.

(** [self.table.owner == self.user] *)
Definition owner_condition (self : Engine) : criterion :=
  CEq (PField (column self.(self_table) "owner")) (PStr self.(self_user)).

(** [self.table.name.isin(shared_docs)] *)
Definition shared_condition (self : Engine) (shared_docs : list string) : criterion :=
  CIsIn (PField (column self.(self_table) "name")) shared_docs.

(** a plain identifier: a non-empty run of word characters *)
Definition plain_identifier (n : string) : Prop :=
  Py.all_chars Py.is_word n = true /\ n <> EmptyString.

(** the permitted-field set an allowed entry was checked against: that of
    the owning entity for a column and for the link column of a
    linked-entity field, that of the child entity for a child-entity
    field and for the sub-fields of a child query *)
Definition item_permitted {site : Env} (self : Engine) (item : field_item) : Prop :=
  match item with
  | ITerm (PField f) =>
      In f.(f_name)
         (permitted_set self self.(self_doctype) self.(self_parent_doctype))
  | IDynamic (Link f) =>
      In f.(lt_link_fieldname)
         (permitted_set self self.(self_doctype) self.(self_parent_doctype))
  | IDynamic (Child f) =>
      In f.(ct_fieldname)
         (permitted_set self f.(ct_doctype) (Some f.(ct_parent_doctype)))
  | IChildQuery (Some c) =>
      c.(cq_fields) <> []
      /\ Forall (fun f => exists s, f = PStr s
                    /\ In s (permitted_set self c.(cq_doctype)
                               (Some c.(cq_parent_doctype))))
                c.(cq_fields)
  | _ => False
  end.

Definition not_pseudo_column (item : field_item) : Prop :=
  match item with
  | ITerm (PPseudoColumn _) => False
  | _ => True
  end.

(** some character of [p] is not a word character *)
Definition has_nonword (p : string) : bool :=
  Py.any_char (fun c => negb (Py.is_word c)) p.

(** a fact about one character, settled on each of them *)
Ltac by_cases_on c :=
  destruct c as [[] [] [] [] [] [] [] []]; vm_compute; try reflexivity;
  intuition discriminate.


(* ------------------------------------------------------------------ *)
(** ** The alphabet of a pattern *)

(** the characters an expression can read *)
Fixpoint alphabet (r : Re.regex) (c : ascii) : bool :=
  match r with
  | Re.Void | Re.Eps => false
  | Re.Class p => p c
  | Re.Cat a b | Re.Alt a b => alphabet a c || alphabet b c
  | Re.Star a => alphabet a c
  end.

(** the characters of a clause field: word characters, the backtick and
    the dot, and the newline that [$] lets through at the end *)
Definition clause_char (c : ascii) : bool :=
  Py.is_word c || Py.chr_eqb c backtick || Py.chr_eqb c "." || Py.is_newline c.

(** the characters of an entity name: [[\w -]] *)
Definition name_char (c : ascii) : bool :=
  Py.is_word c || Py.chr_eqb c " " || Py.chr_eqb c "-".


(* ------------------------------------------------------------------ *)
(** ** Views of an engine, for the invariants of a build *)

(** the clause options of a query: all of it but the selected fields,
    the joins, the predicates and the child queries *)
Definition clauses_of (q : Query) :=
  (q.(q_table), q.(q_mode), q.(q_orderbys), q.(q_groupbys), q.(q_limit),
   q.(q_offset), q.(q_distinct), q.(q_for_update), q.(q_immutable)).

(** the attributes of the engine that [get_query] sets once *)
Definition config_of (self : Engine) :=
  (self.(self_doctype), self.(self_table), self.(self_user),
   self.(self_parent_doctype), self.(self_apply_permissions),
   self.(self_is_mariadb)).

(** what compiling filters leaves as it is *)
Definition filter_frame (self : Engine) :=
  (config_of self, clauses_of self.(self_query), self.(self_query).(q_selects),
   self.(self_query).(q_child_queries), self.(self_fields)).

(** [limit] and [offset] of a query are absent or not negative *)
Definition not_negative (n : option Z) : Prop :=
  match n with
  | Some z => (0 <= z)%Z
  | None => True
  end.

(** the mode the flags of a call select *)
Definition mode_of (a : Args) : query_mode :=
  if a.(a_update) then Update
  else if a.(a_into) then Into
  else if a.(a_delete) then Delete
  else SelectFrom.

(** the table a call names *)
Definition table_of (a : Args) : Table :=
  match a.(a_table) with
  | TableObject t => t
  | TableName doctype => DocType doctype
  end.

(** the call [a] with other fields *)
Definition with_fields_arg (a : Args) (fields : pyval) : Args :=
  {| a_table := a.(a_table); a_fields := fields; a_filters := a.(a_filters);
     a_order_by := a.(a_order_by); a_group_by := a.(a_group_by);
     a_limit := a.(a_limit); a_offset := a.(a_offset);
     a_distinct := a.(a_distinct); a_for_update := a.(a_for_update);
     a_update := a.(a_update); a_into := a.(a_into); a_delete := a.(a_delete);
     a_skip_locked := a.(a_skip_locked); a_wait := a.(a_wait);
     a_ignore_permissions := a.(a_ignore_permissions); a_user := a.(a_user);
     a_parent_doctype := a.(a_parent_doctype) |}.

(** a permission event of the trace *)
Definition is_permission_event (e : event) : bool :=
  match e with
  | EvHasPermission _ _ | EvRowPermissions => true
  | _ => false
  end.


(** the entity a call names *)
Definition doctype_of {site : Env} (a : Args) : string :=
  match a.(a_table) with
  | TableObject t => get_doctype_name t.(table_name)
  | TableName doctype => doctype
  end.

(** the engine of a call before its filters are compiled: fresh in the
    update, insert and delete modes, with its fields applied otherwise *)
Definition engine_before_filters {site : Env} (a : Args) (self : Engine) : Prop :=
  match mode_of a with
  | SelectFrom =>
      apply_fields (new_engine a (doctype_of a) (table_of a) SelectFrom) a.(a_fields)
      = Ok self
  | m => self = new_engine a (doctype_of a) (table_of a) m
  end.


(** the part of a query that only the fields of a call decide *)
Definition shape_of (q : Query) :=
  (q.(q_table), q.(q_mode), q.(q_selects), q.(q_child_queries)).

(** a query but for its predicates *)
Definition but_wheres (q : Query) :=
  (shape_of q, q.(q_joins), q.(q_orderbys), q.(q_groupbys), q.(q_limit),
   q.(q_offset), q.(q_distinct), q.(q_for_update), q.(q_immutable)).

(** a query but for its ordering *)
Definition but_orderbys (q : Query) :=
  (shape_of q, q.(q_joins), q.(q_wheres), q.(q_groupbys), q.(q_limit),
   q.(q_offset), q.(q_distinct), q.(q_for_update), q.(q_immutable)).

(** a query but for the clause options that [get_query] sets itself *)
Definition but_clauses (q : Query) :=
  (shape_of q, q.(q_joins), q.(q_wheres), q.(q_orderbys), q.(q_immutable)).

(** the stretch of [Engine.get_query] between ordering and permissions:
    limit, offset, distinct, locking and grouping *)
Definition apply_clauses {site : Env} (a : Args) (self : Engine) : result Engine :=
  self <-
    (if truthy a.(a_limit)
     then n <- non_negative_int a.(a_limit) ;;
          Ok (with_query self (set_limit self.(self_query) (Some n)))
     else Ok self) ;;
  self <-
    (if truthy a.(a_offset)
     then n <- non_negative_int a.(a_offset) ;;
          Ok (with_query self (set_offset self.(self_query) (Some n)))
     else Ok self) ;;
  let self :=
    if a.(a_distinct)
    then with_query self (set_distinct self.(self_query) true) else self in
  let self :=
    if a.(a_for_update)
    then with_query self
           (set_for_update self.(self_query)
              (Some (a.(a_skip_locked), negb a.(a_wait))))
    else self in
  if truthy a.(a_group_by)
  then g <- _validate_group_by a.(a_group_by) ;;
       Ok (with_query self
             (set_groupbys self.(self_query)
                (self.(self_query).(q_groupbys) ++ [g])))
  else Ok self.

(** [finish_query], stage by stage, with the trace each outcome leaves *)
Definition finish_query_staged {site : Env} (a : Args) (self : Engine) : M Query :=
  match apply_filters self a.(a_filters) with
  | Err e => ([EvApplyFilters], Err e)
  | Ok s1 =>
      match apply_order_by s1 a.(a_order_by) with
      | Err e => ([EvApplyFilters; EvApplyOrderBy], Err e)
      | Ok s2 =>
          match apply_clauses a s2 with
          | Err e => ([EvApplyFilters; EvApplyOrderBy; EvClauses], Err e)
          | Ok s3 =>
              if s3.(self_apply_permissions) then
                match add_permission_conditions s3 with
                | Err e =>
                    ([EvApplyFilters; EvApplyOrderBy; EvClauses; EvRowPermissions],
                     Err e)
                | Ok s4 =>
                    ([EvApplyFilters; EvApplyOrderBy; EvClauses; EvRowPermissions],
                     Ok (set_immutable s4.(self_query) true))
                end
              else ([EvApplyFilters; EvApplyOrderBy; EvClauses],
                    Ok (set_immutable s3.(self_query) true))
          end
      end
  end.


(** no event of the trace is a permission check or a row condition *)
Definition permission_free (t : list event) : bool :=
  forallb (fun e => negb (is_permission_event e)) t.

(** calls on the concrete site used to instantiate the properties *)
Module Calls.

Definition paged (limit offset : pyval) : Args :=
  {| a_table := TableName "Task"; a_fields := PStr "name";
     a_filters := PDict [(PStr "project", PStr "P1")];
     a_order_by := PStr "name asc"; a_group_by := PStr "project";
     a_limit := limit; a_offset := offset;
     a_distinct := true; a_for_update := true; a_update := false; a_into := false;
     a_delete := false; a_skip_locked := true; a_wait := true;
     a_ignore_permissions := true; a_user := Some "bob";
     a_parent_doctype := None |}.

Definition deleting (fields : pyval) : Args :=
  {| a_table := TableName "Task"; a_fields := fields;
     a_filters := PDict [(PStr "project", PStr "P1")];
     a_order_by := PNone; a_group_by := PNone; a_limit := PNone; a_offset := PNone;
     a_distinct := false; a_for_update := false; a_update := false; a_into := false;
     a_delete := true; a_skip_locked := false; a_wait := true;
     a_ignore_permissions := true; a_user := Some "bob";
     a_parent_doctype := None |}.

(** an engine on [Project], the entity that the user permissions of
    [bob] are about *)
Definition project_engine : Engine :=
  {| self_doctype := "Project"; self_table := DocType "Project"; self_user := "bob";
     self_parent_doctype := None; self_apply_permissions := true;
     self_is_mariadb := true; self_query := from_ (DocType "Project") SelectFrom;
     self_fields := [] |}.

End Calls.






(** the text before the first character that satisfies [p] *)
Fixpoint until (p : ascii -> bool) (s : string) : string :=
  match s with
  | EmptyString => EmptyString
  | String c t => if p c then EmptyString else String c (until p t)
  end.

(** the only whitespace of a text is the space *)
Definition space_only_whitespace (s : string) : bool :=
  Py.all_chars (fun c => negb (Py.is_space c) || Py.chr_eqb c " ") s.


(** the characters of a plain select field: those of a clause field, and
    the whitespace around [as] *)
Definition select_char (c : ascii) : bool :=
  clause_char c || Py.is_space_ascii c.


(** a dynamic field that stands on the metadata of [doctype]: a link
    field goes through a Link field of [doctype] to the entity it names,
    a child field through a table field of [doctype] to the child entity
    it names, or, written with its table, to another entity than
    [doctype] *)
Definition stands_on {site : Env} (doctype : string) (d : DynamicTableField) : Prop :=
  match d with
  | Link f =>
      f.(lt_parent_doctype) = doctype
      /\ exists df, get_field doctype f.(lt_link_fieldname) = Some df
                    /\ df.(fieldtype) = "Link"
                    /\ f.(lt_doctype) = df.(options)
  | Child f =>
      f.(ct_parent_doctype) = doctype
      /\ match f.(ct_parent_fieldname) with
         | Some parent_fieldname =>
             exists df, get_field doctype parent_fieldname = Some df
                        /\ Py.in_list df.(fieldtype) table_fields = true
                        /\ f.(ct_doctype) = df.(options)
         | None => f.(ct_doctype) <> doctype
         end
  end.


(* ------------------------------------------------------------------ *)
(** ** [Permission]

    [check_permissions] is modelled on the text of the query (the string
    it is given, or the [get_sql()] of the query object) and for a call
    that names its user. *)

(** [WORDS_PATTERN.findall(s)] on ASCII text: the maximal runs of word
    characters *)
Fixpoint words_go (cur s : string) : list string :=
  match s with
  | EmptyString => match cur with EmptyString => [] | _ => [cur] end
  | String c t =>
      if Py.is_word c then words_go (cur ++ String c EmptyString)%string t
      else match cur with
           | EmptyString => words_go EmptyString t
           | _ => cur :: words_go EmptyString t
           end
  end.

Definition WORDS_PATTERN_findall (s : string) : list string :=
  words_go EmptyString s.

(** [TAB_PATTERN.sub(empty, dt)] *)
Definition TAB_PATTERN_sub (dt : string) : string :=
  if Py.startswith "tab" dt then Patterns.drop 3 dt else dt.

(** [Permission.get_tables_from_query] *)
Definition get_tables_from_query (query : string) : list string :=
  filter (Py.startswith "tab") (WORDS_PATTERN_findall query).

Section PermissionClass.
Context {site : Env}.

(** the loop of [Permission.check_permissions] *)
Fixpoint check_tables (doctype : list string) (user : string)
    (parent_doctype : option string) : M unit :=
  match doctype with
  | [] => mret tt
  | dt :: rest =>
      let dt := TAB_PATTERN_sub dt in
      _ <~ tell (EvHasPermission dt "select") ;;
      allowed <~
        (if has_permission dt "select" user parent_doctype then mret true
         else _ <~ tell (EvHasPermission dt "read") ;;
              mret (has_permission dt "read" user parent_doctype)) ;;
      if allowed : bool then check_tables rest user parent_doctype
      else lift (Err PermissionError)
  end.

(** [Permission.check_permissions] *)
Definition check_permissions (query : string) (user : string)
    (parent_doctype : option string) : M unit :=
  check_tables (get_tables_from_query query) user parent_doctype.

(** the user may select from or read the entity of the table [t] *)
Definition may_read (user : string) (parent_doctype : option string) (t : string) : bool :=
  has_permission (TAB_PATTERN_sub t) "select" user parent_doctype
  || has_permission (TAB_PATTERN_sub t) "read" user parent_doctype.

End PermissionClass.

(** [ws] are the runs of word characters of [s], in their order: [s] is
    made of them and of the runs of other characters before, between and
    after them, and no run goes on into what follows it *)
Inductive word_runs : string -> list string -> Prop :=
| runs_none (gap : string) :
    Py.all_chars (fun c => negb (Py.is_word c)) gap = true ->
    word_runs gap []
| runs_word (gap w rest : string) (ws : list string) :
    Py.all_chars (fun c => negb (Py.is_word c)) gap = true ->
    w <> EmptyString ->
    Py.all_chars Py.is_word w = true ->
    match rest with
    | EmptyString => True
    | String c _ => Py.is_word c = false
    end ->
    word_runs rest ws ->
    word_runs (gap ++ w ++ rest) (w :: ws).

(** the entity an event asks a permission for *)
Definition asked_entity (e : event) : option string :=
  match e with
  | EvHasPermission doctype _ => Some doctype
  | _ => None
  end.


(** the link of [Task] to its parent task, a link of the entity to itself *)
Definition parent_task_field (fieldname : string) : DynamicTableField :=
  Link {| lt_doctype := "Task"; lt_fieldname := fieldname;
          lt_parent_doctype := "Task"; lt_link_fieldname := "parent_task";
          lt_alias := None |}.

(** the clause that joins [Task] to itself through [parent_task] *)
Definition parent_task_join : Join :=
  {| join_item := DocType "Task"; join_alias := Some "tabTask2";
     join_on := CEq (PField (column (DocType "Task") "name"))
                    (PField (column (DocType "Task") "parent_task")) |}.

(* ================================================================== *)
(** * Properties *)

Unset Implicit Arguments.

(** ** Joins *)

Section JoinFacts.
Context {site : Env}.

Lemma table_eqb_refl (t : Table) : table_eqb t t = true.
Proof. unfold table_eqb. apply String.eqb_refl. Qed.

Lemma table_eqb_eq (a b : Table) : table_eqb a b = true -> a = b.
Proof.
  destruct a as [x], b as [y]; unfold table_eqb; simpl.
  intros E. apply String.eqb_eq in E. now subst.
Qed.

Lemma own_table_left_join (q : Query) (t u : Table) (c : criterion) :
  own_table (left_join_on q t c) u = own_table q u.
Proof. reflexivity. Qed.



Lemma is_joined_left_join (q : Query) (t : Table) (c : criterion) :
  own_table q t = false -> is_joined (left_join_on q t c) t = true.
Proof.
  intros O. unfold is_joined, left_join_on, set_joins, join_alias_of; simpl.
  rewrite existsb_app; simpl. rewrite table_eqb_refl, O. simpl.
  now rewrite orb_true_r.
Qed.

(** a join of the query's own table is not seen by [is_joined] *)
Lemma is_joined_left_join_own (q : Query) (t u : Table) (c : criterion) :
  own_table q t = true -> is_joined (left_join_on q t c) u = is_joined q u.
Proof.
  intros O. unfold is_joined, left_join_on, set_joins, join_alias_of; simpl.
  rewrite existsb_app; simpl. rewrite O.
  now rewrite andb_false_r, orb_false_r.
Qed.

Lemma count_joins_left_join (q : Query) (t u : Table) (c : criterion) :
  count_joins u (left_join_on q t c)
  = count_joins u q + (if table_eqb u t then 1 else 0).
Proof.
  unfold count_joins, left_join_on, set_joins; simpl.
  rewrite filter_app, length_app; simpl.
  now destruct (table_eqb u t).
Qed.

Lemma count_joins_joined (q : Query) (t : Table) :
  is_joined q t = true -> 1 <= count_joins t q.
Proof.
  unfold is_joined, count_joins.
  induction (q_joins q) as [|j l IH]; simpl; [discriminate|].
  destruct (table_eqb t (join_item j)); simpl; [lia|exact IH].
Qed.

Lemma count_joins_no_join (q : Query) (t : Table) :
  has_join q t = false -> count_joins t q = 0.
Proof.
  unfold has_join, count_joins.
  induction (q_joins q) as [|j l IH]; simpl; [reflexivity|].
  destruct (table_eqb t (join_item j)); simpl; [discriminate|exact IH].
Qed.

(** on a query whose clauses the builder made, [is_joined] sees the
    clauses on every table but the query's own *)
Lemma is_joined_built (q : Query) (t : Table) :
  joins_built q -> is_joined q t = has_join q t && negb (own_table q t).
Proof.
  unfold joins_built, is_joined, has_join.
  induction (q_joins q) as [|j l IH]; intros B; simpl; [reflexivity|].
  rewrite IH by (intros k I; apply B; now right).
  destruct (table_eqb t (join_item j)) eqn:E; simpl; [|reflexivity].
  apply table_eqb_eq in E. rewrite (B j (or_introl eq_refl)), <- E.
  unfold join_alias_of. destruct (own_table q t); simpl.
  - now rewrite andb_false_r.
  - reflexivity.
Qed.

Lemma count_joins_not_joined (q : Query) (t : Table) :
  joins_built q -> own_table q t = false ->
  is_joined q t = false -> count_joins t q = 0.
Proof.
  intros B O N. rewrite (is_joined_built q t B), O, andb_true_r in N.
  now apply count_joins_no_join.
Qed.

(** the join of a dynamic field is decided by its target table only *)
Lemma apply_join_cases (d : DynamicTableField) (q : Query) :
  apply_join d q
  = if is_joined q (dyn_table d)
    then q
    else left_join_on q (dyn_table d)
           (match d with
            | Child f => child_join_on (DocType f.(ct_doctype))
                           (DocType f.(ct_parent_doctype)) f.(ct_parent_doctype)
            | Link f => link_join_on (DocType f.(lt_doctype))
                          (DocType f.(lt_parent_doctype)) f.(lt_link_fieldname)
            end).
Proof.
  destruct d as [f|f]; unfold apply_join, dyn_table, dyn_doctype;
    destruct (is_joined q _); reflexivity.
Qed.

Lemma own_table_apply_join (d : DynamicTableField) (q : Query) (u : Table) :
  own_table (apply_join d q) u = own_table q u.
Proof. rewrite apply_join_cases. now destruct (is_joined q (dyn_table d)). Qed.


Lemma apply_join_is_joined (d : DynamicTableField) (q : Query) :
  own_table q (dyn_table d) = false ->
  is_joined (apply_join d q) (dyn_table d) = true.
Proof.
  intros O. rewrite apply_join_cases.
  destruct (is_joined q (dyn_table d)) eqn:E; [exact E|].
  now apply is_joined_left_join.
Qed.

Lemma apply_join_joined (d : DynamicTableField) (q : Query) :
  is_joined q (dyn_table d) = true -> apply_join d q = q.
Proof. intros E. rewrite apply_join_cases. now rewrite E. Qed.

Lemma dyn_table_retarget (d : DynamicTableField) (doctype : string) :
  dyn_table (retarget d doctype) = DocType doctype.
Proof. destruct d; reflexivity. Qed.

Lemma joins_built_left_join (q : Query) (t : Table) (c : criterion) :
  joins_built q -> joins_built (left_join_on q t c).
Proof.
  intros B j I. unfold left_join_on, set_joins in I; simpl in I.
  apply in_app_or in I. destruct I as [I|[<-|[]]]; [|reflexivity].
  exact (B j I).
Qed.

Lemma joins_unique_from (t : Table) (m : query_mode) : joins_unique (from_ t m).
Proof.
  split; [intros j []|]. intros u _. unfold count_joins; simpl. lia.
Qed.

Lemma joins_unique_left_join (q : Query) (t : Table) (c : criterion) :
  joins_unique q -> is_joined q t = false -> joins_unique (left_join_on q t c).
Proof.
  intros [B U] N. split; [now apply joins_built_left_join|].
  intros u O. rewrite own_table_left_join in O. rewrite count_joins_left_join.
  destruct (table_eqb u t) eqn:E.
  - apply table_eqb_eq in E; subst u.
    rewrite (count_joins_not_joined q t B O N). lia.
  - specialize (U u O). lia.
Qed.

Lemma joins_unique_apply_join (d : DynamicTableField) (q : Query) :
  joins_unique q -> joins_unique (apply_join d q).
Proof.
  intros U. rewrite apply_join_cases.
  destruct (is_joined q (dyn_table d)) eqn:E; [exact U|].
  now apply joins_unique_left_join.
Qed.

Lemma joins_unique_fold (ds : list DynamicTableField) (q : Query) :
  joins_unique q -> joins_unique (fold_left (fun q d => apply_join d q) ds q).
Proof.
  revert q. induction ds as [|d ds IH]; simpl; intros q U; [exact U|].
  apply IH. now apply joins_unique_apply_join.
Qed.

Lemma own_table_fold (ds : list DynamicTableField) (q : Query) (u : Table) :
  own_table (fold_left (fun q d => apply_join d q) ds q) u = own_table q u.
Proof.
  revert q. induction ds as [|d ds IH]; simpl; intros q; [reflexivity|].
  now rewrite IH, own_table_apply_join.
Qed.

Lemma own_table_from (t u : Table) (m : query_mode) :
  m <> Into -> own_table (from_ t m) u = table_eqb u t.
Proof.
  intros M. unfold own_table, base_tables. destruct m; simpl;
    try apply orb_false_r. now elim M.
Qed.

(** on a target other than the query's own table a second join is a
    no-op, whatever its predicate, and the table has one clause *)
Lemma apply_join_idempotent_elsewhere (q : Query) (d d' : DynamicTableField) :
  joins_unique q ->
  own_table q (dyn_table d) = false ->
  apply_join d (apply_join d q) = apply_join d q
  /\ apply_join (retarget d' (dyn_doctype d)) (apply_join d q) = apply_join d q
  /\ count_joins (dyn_table d) (apply_join d (apply_join d q)) = 1.
Proof.
  intros U O.
  assert (I : apply_join d (apply_join d q) = apply_join d q)
    by (apply apply_join_joined, apply_join_is_joined, O).
  split; [exact I|]. split.
  - apply apply_join_joined. rewrite dyn_table_retarget.
    now apply apply_join_is_joined.
  - rewrite I.
    destruct (joins_unique_apply_join d q U) as [_ U'].
    pose proof (count_joins_joined _ _ (apply_join_is_joined d q O)).
    specialize (U' (dyn_table d)). rewrite own_table_apply_join in U'.
    specialize (U' O). lia.
Qed.

(** on the query's own table every join adds a clause: the clause is
    aliased, and [is_joined] asks for the table without alias *)
Lemma apply_join_own_table (q : Query) (d : DynamicTableField) :
  joins_unique q ->
  own_table q (dyn_table d) = true ->
  is_joined (apply_join d q) (dyn_table d) = false
  /\ count_joins (dyn_table d) (apply_join d q) = count_joins (dyn_table d) q + 1.
Proof.
  intros [B _] O.
  assert (N : is_joined q (dyn_table d) = false).
  { rewrite (is_joined_built q _ B), O. apply andb_false_r. }
  rewrite apply_join_cases, N. split.
  - now rewrite (is_joined_left_join_own q _ _ _ O).
  - rewrite count_joins_left_join, table_eqb_refl. reflexivity.
Qed.

(** C7, as the code has it. Within one build, that is on a query grown
    from the fresh one of an entity by any sequence of joins of dynamic
    fields of that entity, the join of a dynamic field whose target is
    another table than the one the query is built on is applied once: a second application changes
    nothing, nor does any dynamic field aimed at the same table, and the
    query holds exactly one join clause for that table. When the target
    is the table the query is built on (a link of an entity to itself),
    the guard does not hold the second join back: the builder aliases
    the joined table, [is_joined] is asked for the table without alias
    and answers no, and each application adds one more join clause. *)
Theorem own_table_join_is_repeated
    (doctype : string) (m : query_mode) (ds : list DynamicTableField)
    (d d' : DynamicTableField) :
  m <> Into ->
  Forall (fun f => dyn_parent_doctype f = doctype) (d :: d' :: ds) ->
  let t := DocType doctype in
  let q := fold_left (fun q d => apply_join d q) ds (from_ t m) in
  (dyn_table d <> t ->
   apply_join d (apply_join d q) = apply_join d q
   /\ apply_join (retarget d' (dyn_doctype d)) (apply_join d q) = apply_join d q
   /\ count_joins (dyn_table d) (apply_join d (apply_join d q)) = 1)
  /\ (dyn_table d = t ->
      is_joined (apply_join d q) t = false
      /\ apply_join d (apply_join d q) <> apply_join d q
      /\ count_joins t (apply_join d (apply_join d q)) = count_joins t q + 2).
Proof.
  intros M _ t q.
  assert (U : joins_unique q) by (apply joins_unique_fold, joins_unique_from).
  assert (O : forall u, own_table q u = table_eqb u t).
  { intros u. unfold q. now rewrite own_table_fold, own_table_from. }
  split.
  - intros N. apply apply_join_idempotent_elsewhere; [exact U|].
    rewrite O. destruct (table_eqb (dyn_table d) t) eqn:E; [|reflexivity].
    apply table_eqb_eq in E. now elim N.
  - intros E.
    assert (O1 : own_table q (dyn_table d) = true)
      by (rewrite O, E; apply table_eqb_refl).
    destruct (apply_join_own_table q d U O1) as [N1 C1].
    assert (O2 : own_table (apply_join d q) (dyn_table d) = true)
      by now rewrite own_table_apply_join.
    destruct (apply_join_own_table (apply_join d q) d
                (joins_unique_apply_join d q U) O2) as [_ C2].
    rewrite E in *. split; [exact N1|]. split.
    + intros X. rewrite X in C2. lia.
    + rewrite C2, C1. lia.
Qed.

End JoinFacts.

(** ** Row-level permissions *)

Section RowPermissionFacts.
Context {site : Env}.

Lemma permission_query_conditions_raw (self : Engine) :
  forallb is_raw (get_permission_query_conditions self) = true.
Proof.
  unfold get_permission_query_conditions.
  rewrite forallb_app. apply andb_true_intro; split.
  - induction (filter _ _) as [|c l IH]; simpl; [reflexivity|exact IH].
  - destruct (script_condition _ _) as [c|]; [|reflexivity].
    destruct (String.eqb c EmptyString); reflexivity.
Qed.

(** what [requires_owner_constraint] tests *)
Lemma requires_owner_constraint_iff (rp : RolePermissions) :
  requires_owner_constraint rp = true
  <-> rp.(rp_has_if_owner_enabled) = true
      /\ rp.(rp_if_owner) <> []
      /\ (rp.(rp_select) = true -> Py.in_list "select" rp.(rp_if_owner) = true)
      /\ (rp.(rp_read) = true -> Py.in_list "read" rp.(rp_if_owner) = true).
Proof.
  unfold requires_owner_constraint, role_has.
  destruct rp as [r s e o]; simpl.
  destruct e; simpl.
  2:{ split; [discriminate|intros [E _]; discriminate]. }
  destruct o as [|p o].
  { split; [discriminate|intros (_ & N & _); now elim N]. }
  assert (N : p :: o <> []) by discriminate.
  generalize dependent (p :: o). intros l N.
  destruct s, r, (Py.in_list "select" l), (Py.in_list "read" l); simpl;
    (split;
     [ first [ discriminate
             | intros _; repeat split;
               first [assumption | reflexivity | (intros; discriminate)] ]
     | first [ reflexivity
             | intros (_ & _ & A & B);
               first [now specialize (A eq_refl) | now specialize (B eq_refl)] ] ]).
Qed.

(** C2. When the role permissions require the owner constraint, the
    row-level conditions are [owner == acting_user] followed by raw hook
    and script predicates only (no user-permission constraint is among
    them), the shared-record fallback is active, and the predicate
    attached to the query is their conjunction, or-ed with the
    membership in the shared records when there are any. *)
Theorem owner_constraint_enforced (self : Engine) :
  requires_owner_constraint
    (get_role_permissions self.(self_doctype) self.(self_user)) = true ->
  let raw := get_permission_query_conditions self in
  let shared := get_shared self.(self_doctype) self.(self_user) in
  row_conditions self = Ok (owner_condition self :: raw, true)
  /\ forallb is_raw raw = true
  /\ add_permission_conditions self
     = Ok (with_query self
             (where_ self.(self_query)
                (match shared with
                 | [] => Criterion_all (owner_condition self :: raw)
                 | _ => COr (Criterion_all (owner_condition self :: raw))
                            (shared_condition self shared)
                 end))).
Proof.
  intros R raw shared.
  assert (RC : row_conditions self = Ok (owner_condition self :: raw, true)).
  { unfold row_conditions. rewrite R. reflexivity. }
  split; [exact RC|]. split; [apply permission_query_conditions_raw|].
  unfold add_permission_conditions. rewrite RC. simpl.
  fold shared. destruct shared; reflexivity.
Qed.

Lemma link_field_condition_sound
    (self : Engine) (ups : list (string * list UserPermission))
    (df : LinkDf) (here : list criterion) :
  link_field_condition self ups df = Ok here ->
  forall c, In c here <->
    df.(df_ignore_user_permissions) = false
    /\ exists docs,
         permitted_docs self df (dict_get df.(df_options) ups) = Ok docs
         /\ docs <> []
         /\ c = user_permission_condition self docs df.
Proof.
  unfold link_field_condition. intros E c.
  destruct (df_ignore_user_permissions df).
  { injection E as <-. split; [intros []|intros [? _]; discriminate]. }
  destruct (dict_get (df_options df) ups) as [|v vs].
  { injection E as <-. split; [intros []|].
    intros (_ & docs & P & N & _). injection P as <-. now elim N. }
  cbv beta iota in E.
  destruct (permitted_docs self df (v :: vs)) as [docs|e]; [|discriminate].
  unfold bind in E. destruct docs as [|doc docs]; injection E as <-.
  - split; [intros []|].
    intros (_ & docs & P & N & _). injection P as <-. now elim N.
  - split.
    + intros [<-|[]]. split; [reflexivity|].
      exists (doc :: docs). repeat split. discriminate.
    + intros (_ & docs' & P & _ & ->). injection P as <-. now left.
Qed.

Lemma link_field_conditions_sound
    (self : Engine) (ups : list (string * list UserPermission))
    (dfs : list LinkDf) (conds : list criterion) :
  link_field_conditions self ups dfs = Ok conds ->
  forall c, In c conds <->
    exists df docs,
      In df dfs
      /\ df.(df_ignore_user_permissions) = false
      /\ permitted_docs self df (dict_get df.(df_options) ups) = Ok docs
      /\ docs <> []
      /\ c = user_permission_condition self docs df.
Proof.
  revert conds. induction dfs as [|df dfs IH]; intros conds E c.
  - injection E as <-. split; [intros []|intros (df & docs & [] & _)].
  - cbn [link_field_conditions] in E.
    destruct (link_field_condition self ups df) as [here|e] eqn:Hh; [|discriminate].
    destruct (link_field_conditions self ups dfs) as [more|e] eqn:M; [|discriminate].
    unfold bind in E. injection E as <-.
    rewrite in_app_iff, (IH more eq_refl c), (link_field_condition_sound _ _ _ _ Hh c).
    split.
    + intros [(Ig & docs & P)|(d & docs & I & R)].
      * exists df, docs. split; [now left|]. split; [exact Ig|exact P].
      * exists d, docs. split; [now right|exact R].
    + intros (d & docs & [<-|I] & Ig & R).
      * left. split; [exact Ig|]. exists docs. exact R.
      * right. exists d, docs. auto.
Qed.

(** C8. Every constraint that [get_user_permission_conditions] returns
    stands for a link field that does not ignore user permissions and
    has applicable permitted values [docs]: under
    [apply_strict_user_permissions] it is [field IN docs], otherwise
    [field IS NULL OR field IN docs]; with read or select granted, every
    such link field has its constraint, and the shared-record fallback is
    active exactly when the user has user-permission values at all. *)
Theorem user_permission_conditions_shape
    (self : Engine) (rp : RolePermissions) (conds : list criterion) (fetch : bool) :
  get_user_permission_conditions self rp = Ok (conds, fetch) ->
  let constraint df docs :=
    let f := PField (column self.(self_table) df.(df_fieldname)) in
    if apply_strict_user_permissions
    then CIsIn f docs
    else COr (CIsNull f) (CIsIn f docs) in
  let applicable df docs :=
    In df (get_doctype_link_fields self)
    /\ df.(df_ignore_user_permissions) = false
    /\ permitted_docs self df
         (dict_get df.(df_options) (get_user_permissions self.(self_user))) = Ok docs
    /\ docs <> [] in
  (forall c, In c conds -> exists df docs, applicable df docs /\ c = constraint df docs)
  /\ (rp.(rp_read) || rp.(rp_select) = true ->
      (forall df docs, applicable df docs -> In (constraint df docs) conds)
      /\ (fetch = true <-> get_user_permissions self.(self_user) <> [])).
Proof.
  intros E constraint applicable. unfold get_user_permission_conditions in E.
  destruct (rp_read rp || rp_select rp) eqn:R; cbv beta iota delta [negb] in E.
  2:{ inversion E; subst. split; [intros c []|discriminate]. }
  destruct (get_user_permissions (self_user self)) as [|u ups] eqn:U.
  { inversion E; subst. split; [intros c []|]. intros _. split.
    - intros df docs (_ & _ & P & N). simpl in P. inversion P; subst. now elim N.
    - split; [discriminate|intros N; now elim N]. }
  cbv beta iota in E.
  destruct (link_field_conditions self (u :: ups) (get_doctype_link_fields self))
    as [cs|e] eqn:L; [|discriminate].
  unfold bind in E. injection E as <- <-.
  pose proof (link_field_conditions_sound _ _ _ _ L) as S.
  split.
  - intros c I. apply S in I. destruct I as (df & docs & A & B & C & D & ->).
    exists df, docs. split; [repeat split; assumption|reflexivity].
  - intros _. split.
    + intros df docs (A & B & C & D). apply S. exists df, docs. auto.
    + split; [discriminate|reflexivity].
Qed.

End RowPermissionFacts.

(** ** Filters *)

Section FilterFacts.
Context {site : Env}.

Lemma prepare_keeps
    (self self1 : Engine) (field _field : pyval) (doctype : option string) :
  _validate_and_prepare_filter_field self field doctype = Ok (self1, _field) ->
  self1.(self_doctype) = self.(self_doctype)
  /\ self1.(self_table) = self.(self_table)
  /\ self1.(self_query).(q_wheres) = self.(self_query).(q_wheres)
  /\ self1.(self_query).(q_selects) = self.(self_query).(q_selects).
Proof.
  unfold _validate_and_prepare_filter_field.
  destruct field; try (intros V; injection V as <- <-; auto).
  destruct (has_special_char s).
  - destruct (parse s (self_doctype self)) as [[d|]|e]; simpl; try discriminate.
    + intros V; injection V as <- <-. simpl.
      rewrite apply_join_cases.
      destruct (is_joined _ _); simpl; auto.
    + destruct (negb _); [discriminate|].
      intros V; injection V as <- <-. auto.
  - intros V; injection V as <- <-. auto.
Qed.

Lemma implicit_join_keeps (self : Engine) (doctype : option string) :
  (implicit_join self doctype).(self_doctype) = self.(self_doctype)
  /\ (implicit_join self doctype).(self_query).(q_wheres)
     = self.(self_query).(q_wheres).
Proof.
  unfold implicit_join. destruct doctype as [d|]; [|auto].
  destruct (_ && _); [|auto].
  destruct (_ && _); simpl; auto.
Qed.

Lemma implicit_join_selects (self : Engine) (doctype : option string) :
  (implicit_join self doctype).(self_query).(q_selects)
  = self.(self_query).(q_selects).
Proof.
  unfold implicit_join. destruct doctype as [d|]; [|auto].
  destruct (_ && _); [|auto].
  destruct (_ && _); simpl; auto.
Qed.

Lemma where_selects (q : Query) (c : criterion) :
  (where_ q c).(q_selects) = q.(q_selects).
Proof. destruct c; reflexivity. Qed.

Lemma where_appends (q : Query) (c : criterion) :
  c <> CEmpty -> (where_ q c).(q_wheres) = q.(q_wheres) ++ [c].
Proof. destruct c; try reflexivity. intros N; now elim N. Qed.

(** C9. When the field of a filter resolves to a column and the
    converted value is [None], then under every operator of the operator
    map that is not a nested-set operator the predicate attached to the
    query is [IS NULL] on that column, and not the operator applied to
    null. *)
Theorem none_value_is_null
    (self self1 : Engine) (field value : pyval) (operator : string)
    (doctype : option string) (f : Field) :
  _validate_and_prepare_filter_field self field doctype = Ok (self1, PField f) ->
  convert_to_value value = PNone ->
  Py.in_list operator NESTED_SET_OPERATORS = false ->
  Py.in_list (Py.casefold operator) operator_keys = true ->
  let self2 := implicit_join self1 doctype in
  _apply_filter self field value operator doctype
  = Ok (with_query self2 (where_ self2.(self_query) (CIsNull (PField f))))
  /\ forall self3, _apply_filter self field value operator doctype = Ok self3 ->
       self3.(self_query).(q_wheres)
       = self.(self_query).(q_wheres) ++ [CIsNull (PField f)].
Proof.
  intros V C N K self2.
  assert (A : _apply_filter self field value operator doctype
              = Ok (with_query self2 (where_ (self_query self2) (CIsNull (PField f))))).
  { unfold _apply_filter. rewrite V. cbv beta iota delta [bind].
    rewrite N. unfold operator_fn. rewrite K.
    unfold normalize_value. rewrite C. reflexivity. }
  split; [exact A|].
  intros self3 A'. rewrite A in A'. injection A' as <-.
  simpl. unfold self2.
  destruct (implicit_join_keeps self1 doctype) as (_ & ->).
  destruct (prepare_keeps _ _ _ _ _ V) as (_ & _ & -> & _).
  reflexivity.
Qed.







(** only an operator that is a string gets a filter compiled *)
Lemma apply_filter_with_ok
    (self self' : Engine) (field value operator : pyval) (doctype : option string) :
  _apply_filter_with self field value operator doctype = Ok self' ->
  exists op, operator = PStr op
             /\ _apply_filter self field value op doctype = Ok self'.
Proof.
  unfold _apply_filter_with.
  destruct operator; try (intros A; now eexists);
    (destruct (_validate_and_prepare_filter_field self field doctype);
     cbv beta iota delta [bind];
     [destruct (NESTED_SET_OPERATORS_hashed && _)|]; discriminate).
Qed.

Lemma apply_filter_without_entity_err (self self' : Engine) (field : pyval) :
  _apply_filter_without_entity self field <> Ok self'.
Proof.
  unfold _apply_filter_without_entity.
  destruct field; try discriminate.
  destruct (has_special_char s); [|discriminate].
  destruct (parse s (self_doctype self)) as [[d|]|e];
    cbv beta iota delta [bind]; try discriminate.
  destruct (negb _); discriminate.
Qed.

(** *** Filters leave the select list alone *)

Lemma apply_filter_selects
    (self self' : Engine) (field value : pyval) (operator : string)
    (doctype : option string) :
  _apply_filter self field value operator doctype = Ok self' ->
  self'.(self_query).(q_selects) = self.(self_query).(q_selects).
Proof.
  unfold _apply_filter.
  destruct (_validate_and_prepare_filter_field self field doctype)
    as [[self1 _field]|e] eqn:V; [|discriminate].
  cbv beta iota delta [bind].
  destruct (prepare_keeps _ _ _ _ _ V) as (_ & _ & _ & S1).
  pose proof (implicit_join_selects self1 doctype) as S2.
  set (self2 := implicit_join self1 doctype) in *.
  assert (K : forall c, (with_query self2 (where_ (self_query self2) c))
                          .(self_query).(q_selects)
                        = self.(self_query).(q_selects)).
  { intros c. cbn. now rewrite where_selects, S2, S1. }
  destruct (Py.in_list operator NESTED_SET_OPERATORS).
  - destruct (original_field_name field _field) as [name|e]; [|discriminate].
    destruct (operator_fn (hierarchy_key operator)) as [fn|e]; [|discriminate].
    intros X; rewrite <- (K (COp fn _field
      (nodes_or_blank (get_nested_set_hierarchy_result
         (ref_doctype (self_doctype self2) name) (normalize_value value) operator)))).
    now injection X as <-.
  - destruct (operator_fn (Py.casefold operator)) as [fn|e]; [|discriminate].
    destruct (normalize_value value) eqn:NV, _field;
      intros X;
      first [ rewrite <- (K (CIsNull (PField f)))
            | rewrite <- (K (COp fn (PField f) (normalize_value value)))
            | match type of X with
              | Ok (with_query _ (where_ _ ?c)) = _ => rewrite <- (K c)
              end ];
      try rewrite NV; now injection X as <-.
Qed.

Lemma apply_dict_filters_selects (filters : list (pyval * pyval)) (self self' : Engine) :
  apply_dict_filters self filters = Ok self' ->
  self'.(self_query).(q_selects) = self.(self_query).(q_selects).
Proof.
  revert self. induction filters as [|[field value] rest IH]; intros self A.
  - now injection A as <-.
  - cbn [apply_dict_filters] in A.
    match type of A with
    | bind ?m _ = _ => destruct m as [self1|e] eqn:Q; [|discriminate]
    end.
    cbv beta iota delta [bind] in A. rewrite (IH _ A).
    destruct value;
      try (exact (apply_filter_selects _ _ _ _ _ _ Q));
      (destruct l as [|operator [|v [|x l]]]; try discriminate;
       apply apply_filter_with_ok in Q as (op & _ & Q);
       exact (apply_filter_selects _ _ _ _ _ _ Q)).
Qed.

Lemma apply_list_filters_selects (filter : list pyval) (self self' : Engine) :
  apply_list_filters self filter = Ok self' ->
  self'.(self_query).(q_selects) = self.(self_query).(q_selects).
Proof.
  unfold apply_list_filters.
  destruct filter as [|x1 [|x2 [|x3 [|x4 [|x5 l]]]]]; try discriminate.
  - apply apply_filter_selects.
  - intros A. apply apply_filter_with_ok in A as (op & _ & A).
    exact (apply_filter_selects _ _ _ _ _ _ A).
  - destruct (as_doctype x1) as [d|];
      [|intros A; now apply apply_filter_without_entity_err in A].
    intros A. apply apply_filter_with_ok in A as (op & _ & A).
    exact (apply_filter_selects _ _ _ _ _ _ A).
Qed.

Lemma apply_filters_item_selects (filters : pyval) (self self' : Engine) :
  apply_filters_item self filters = Ok self' ->
  self'.(self_query).(q_selects) = self.(self_query).(q_selects).
Proof.
  unfold apply_filters_item.
  assert (K : (if is_filter_value filters
               then apply_dict_filters self [(PStr "name", convert_to_value filters)]
               else if is_criterion filters
               then Ok (with_query self (where_ (self_query self) (CTerm filters)))
               else match filters with
                    | PDict d => apply_dict_filters self d
                    | _ => Err ValueError
                    end) = Ok self' ->
              self'.(self_query).(q_selects) = self.(self_query).(q_selects)).
  { destruct (is_filter_value filters); [apply apply_dict_filters_selects|].
    destruct (is_criterion filters).
    - intros X; injection X as <-. reflexivity.
    - destruct filters; try discriminate. apply apply_dict_filters_selects. }
  destruct filters; try exact K. intros X; now injection X as <-.
Qed.

Lemma apply_filters_each_selects (filters : list pyval) (self self' : Engine) :
  apply_filters_each self filters = Ok self' ->
  self'.(self_query).(q_selects) = self.(self_query).(q_selects).
Proof.
  revert self. induction filters as [|f rest IH]; intros self A.
  - now injection A as <-.
  - cbn [apply_filters_each] in A.
    match type of A with
    | bind ?m _ = _ => destruct m as [self1|e] eqn:Q; [|discriminate]
    end.
    cbv beta iota delta [bind] in A. rewrite (IH _ A).
    destruct (is_filter_value f || is_criterion f
              || match f with PDict _ => true | _ => false end).
    + exact (apply_filters_item_selects _ _ _ Q).
    + destruct f; try discriminate; exact (apply_list_filters_selects _ _ _ Q).
Qed.

Lemma apply_filters_selects (filters : pyval) (self self' : Engine) :
  apply_filters self filters = Ok self' ->
  self'.(self_query).(q_selects) = self.(self_query).(q_selects).
Proof.
  unfold apply_filters.
  assert (K : (if is_filter_value filters || is_criterion filters
                  || match filters with PDict _ => true | _ => false end
               then apply_filters_item self filters
               else match filters with
                    | PList l | PTuple l =>
                        if forallb is_filter_value l && (0 <? List.length l)
                        then apply_dict_filters self
                               [(PStr "name",
                                 PTuple [PStr "in"; PTuple (map convert_to_value l)])]
                        else apply_filters_each self l
                    | _ => Err ValueError
                    end) = Ok self' ->
              self'.(self_query).(q_selects) = self.(self_query).(q_selects)).
  { destruct (_ || _); [apply apply_filters_item_selects|].
    destruct filters; try discriminate;
      (destruct (_ && _);
       [apply apply_dict_filters_selects|apply apply_filters_each_selects]). }
  destruct filters; try exact K. intros X; now injection X as <-.
Qed.

(** *** The filter-field firewall *)



End FilterFacts.

(** ** The derivative matcher accepts the language of an expression *)

Module ReFacts.
Import Re.

Lemma append_empty_r (s : string) : (s ++ EmptyString)%string = s.
Proof. induction s as [|c s IH]; simpl; [reflexivity|now rewrite IH]. Qed.

Lemma append_is_empty (a b : string) :
  (a ++ b)%string = EmptyString -> a = EmptyString /\ b = EmptyString.
Proof. destruct a; simpl; [auto|discriminate]. Qed.

Lemma lang_void (s : string) : ~ lang Void s.
Proof. intros L. inversion L. Qed.

Lemma lang_cat (a b : regex) (s : string) : lang (Cat a b) s -> lang (cat a b) s.
Proof.
  intros L. inversion L as [| |a' b' s1 s2 La Lb| | | |]; subst.
  destruct a; try (now destruct (lang_void _ La));
    destruct b; try (now destruct (lang_void _ Lb)); simpl;
    try (now constructor);
    inversion La; subst; simpl; assumption.
Qed.

Lemma lang_alt (a b : regex) (s : string) : lang (Alt a b) s -> lang (alt a b) s.
Proof.
  intros L.
  inversion L as [| | |a' b' s' La|a' b' s' Lb| |]; subst.
  - destruct a; try (now destruct (lang_void _ La));
      destruct b; simpl; try assumption; now apply LAltL.
  - destruct b; try (now destruct (lang_void _ Lb));
      destruct a; simpl; try assumption; now apply LAltR.
Qed.

Lemma nullable_complete (r : regex) (s : string) :
  lang r s -> s = EmptyString -> nullable r = true.
Proof.
  induction 1 as [|p c P|a b s1 s2 La IHa Lb IHb|a b s La IHa|a b s Lb IHb
                  |a|a s1 s2 La IHa Ls IHs]; intros Z; simpl; try reflexivity.
  - discriminate.
  - apply append_is_empty in Z. destruct Z as [Z1 Z2].
    now rewrite (IHa Z1), (IHb Z2).
  - now rewrite (IHa Z).
  - rewrite (IHb Z). apply orb_true_r.
Qed.

Lemma deriv_complete (r : regex) (s0 : string) :
  lang r s0 -> forall c s, s0 = String c s -> lang (deriv c r) s.
Proof.
  induction 1 as [|p c' P|a b s1 s2 La IHa Lb IHb|a b s' La IHa|a b s' Lb IHb
                  |a|a s1 s2 La IHa Ls IHs]; intros c s Z; simpl.
  - discriminate.
  - injection Z as -> <-. rewrite P. constructor.
  - destruct s1 as [|c1 s1].
    + simpl in Z. rewrite (nullable_complete _ _ La eq_refl).
      apply lang_alt, LAltR. now apply IHb.
    + simpl in Z. injection Z as -> <-.
      assert (L : lang (cat (deriv c a) b) (s1 ++ s2)%string)
        by (apply lang_cat; constructor; [now apply IHa|assumption]).
      destruct (nullable a); [apply lang_alt, LAltL|]; exact L.
  - apply lang_alt, LAltL. now apply IHa.
  - apply lang_alt, LAltR. now apply IHb.
  - discriminate.
  - destruct s1 as [|c1 s1].
    + simpl in Z. now apply IHs.
    + simpl in Z. injection Z as -> <-.
      apply lang_cat. constructor; [now apply IHa|assumption].
Qed.

Lemma matches_complete (s : string) (r : regex) : lang r s -> matches r s = true.
Proof.
  revert r. induction s as [|c s IH]; intros r L; simpl.
  - exact (nullable_complete _ _ L eq_refl).
  - apply IH. exact (deriv_complete _ _ L _ _ eq_refl).
Qed.

Lemma lang_opt_empty (r : regex) : lang (Opt r) EmptyString.
Proof. apply LAltR. constructor. Qed.

Lemma lang_star_class (p : ascii -> bool) (s : string) :
  Py.all_chars p s = true -> lang (Star (Class p)) s.
Proof.
  induction s as [|c s IH]; simpl; intros A; [constructor|].
  apply andb_prop in A. destruct A as [Pc A].
  change (String c s) with (String c EmptyString ++ s)%string.
  constructor; [now constructor|now apply IH].
Qed.

Lemma lang_plus_class (p : ascii -> bool) (s : string) :
  Py.all_chars p s = true -> s <> EmptyString -> lang (Plus (Class p)) s.
Proof.
  destruct s as [|c s]; [intros _ N; now elim N|]. simpl. intros A _.
  apply andb_prop in A. destruct A as [Pc A].
  change (String c s) with (String c EmptyString ++ s)%string.
  constructor; [now constructor|now apply lang_star_class].
Qed.

(** a plain identifier matches [ALLOWED_FIELD_PATTERN] *)
Lemma identifier_allowed (s : string) :
  Py.all_chars Py.is_word s = true -> s <> EmptyString ->
  pattern_match ALLOWED_FIELD_PATTERN s = true.
Proof.
  intros A N. apply matches_complete.
  unfold ALLOWED_FIELD_PATTERN, anchored.
  rewrite <- (append_empty_r s). constructor; [|apply lang_opt_empty].
  change s with (EmptyString ++ s)%string. constructor; [apply lang_opt_empty|].
  rewrite <- (append_empty_r s). constructor; [|apply lang_opt_empty].
  apply LAltR. now apply lang_plus_class.
Qed.

End ReFacts.

(** ** Plain identifiers *)

Module WordFacts.

Lemma word_not_space (c : ascii) : Py.is_word c = true -> Py.is_space c = false.
Proof. by_cases_on c. Qed.

Lemma word_not_quote (c : ascii) : Py.is_word c = true -> is_quote c = false.
Proof. by_cases_on c. Qed.

Lemma word_lower (c : ascii) : Py.is_word c = true -> Py.is_word (Py.to_lower c) = true.
Proof. by_cases_on c. Qed.

Lemma star_not_word : Py.is_word "*" = false.
Proof. reflexivity. Qed.

Lemma all_word_lower (s : string) :
  Py.all_chars Py.is_word s = true -> Py.all_chars Py.is_word (Py.lower s) = true.
Proof.
  unfold Py.lower.
  induction s as [|c s IH]; simpl; [reflexivity|]. intros A.
  apply andb_prop in A. destruct A as [Wc A].
  now rewrite (word_lower _ Wc), (IH A).
Qed.

Lemma prefix_nonword (p s : string) :
  has_nonword p = true -> Py.all_chars Py.is_word s = true -> prefix p s = false.
Proof.
  revert s. induction p as [|a p IH]; simpl; [discriminate|].
  intros [|b s] N A; simpl; [reflexivity|].
  simpl in A. apply andb_prop in A. destruct A as [Wb A].
  destruct (ascii_dec a b) as [->|]; [|reflexivity].
  unfold has_nonword in N. simpl in N. rewrite Wb in N. simpl in N.
  now apply IH.
Qed.

Lemma contains_nonword (p s : string) :
  has_nonword p = true -> Py.all_chars Py.is_word s = true -> Py.contains p s = false.
Proof.
  intros N. induction s as [|b s IH]; intros A.
  - cbn [Py.contains]. now rewrite (prefix_nonword _ _ N A).
  - cbn [Py.contains]. rewrite (prefix_nonword _ _ N A).
    simpl in A. apply andb_prop in A. now apply IH.
Qed.

Lemma has_nonword_app (v w : string) :
  has_nonword w = true -> has_nonword (v ++ w) = true.
Proof.
  intros N. induction v as [|c v IH]; simpl; [exact N|].
  unfold has_nonword in *. simpl. rewrite IH. apply orb_true_r.
Qed.

Lemma lstrip_word (s : string) :
  Py.all_chars Py.is_word s = true -> Py.lstrip_by Py.is_space s = s.
Proof.
  destruct s as [|c s]; simpl; [reflexivity|]. intros A.
  apply andb_prop in A. destruct A as [Wc _].
  now rewrite (word_not_space _ Wc).
Qed.

Lemma rstrip_word (s : string) :
  Py.all_chars Py.is_word s = true -> Py.rstrip_by Py.is_space s = s.
Proof.
  induction s as [|c s IH]; simpl; [reflexivity|]. intros A.
  apply andb_prop in A. destruct A as [Wc A]. rewrite (IH A).
  destruct s; [now rewrite (word_not_space _ Wc)|reflexivity].
Qed.

Lemma strip_word (s : string) :
  Py.all_chars Py.is_word s = true -> Py.strip s = s.
Proof.
  intros A. unfold Py.strip. rewrite (lstrip_word _ A). now apply rstrip_word.
Qed.

Lemma word_run_word (s : string) :
  Py.all_chars Py.is_word s = true -> word_run s = (s, EmptyString).
Proof.
  induction s as [|c s IH]; simpl; [reflexivity|]. intros A.
  apply andb_prop in A. destruct A as [Wc A]. now rewrite Wc, (IH A).
Qed.

Lemma not_star (s : string) :
  Py.all_chars Py.is_word s = true -> String.eqb s "*" = false.
Proof.
  intros A. destruct (String.eqb s "*") eqn:Q; [|reflexivity].
  apply String.eqb_eq in Q. subst. discriminate.
Qed.

Lemma field_parse_identifier (s : string) :
  plain_identifier s -> FIELD_PARSE_REGEX_match s = Some (None, s).
Proof.
  intros [A N]. unfold FIELD_PARSE_REGEX_match, quoted_word.
  assert (D : drop_quote s = s).
  { destruct s as [|c s]; [reflexivity|]. simpl in *.
    apply andb_prop in A. destruct A as [Wc _].
    now rewrite (word_not_quote _ Wc). }
  rewrite D, (word_run_word _ A).
  destruct s; [now elim N|reflexivity].
Qed.

End WordFacts.

(** ** Fields and column permissions *)

Section FieldFacts.
Context {site : Env}.
Import WordFacts.

Lemma in_list_In (s : string) (l : list string) :
  Py.in_list s l = true <-> In s l.
Proof.
  unfold Py.in_list. rewrite existsb_exists. split.
  - intros (x & I & Q). apply String.eqb_eq in Q. now subst.
  - intros I. exists s. split; [exact I|apply String.eqb_refl].
Qed.

Lemma has_function_identifier (n : string) :
  Py.all_chars Py.is_word n = true -> has_function n = false.
Proof.
  intros A. unfold has_function.
  rewrite (contains_nonword "`" n eq_refl A). simpl negb. cbv iota.
  unfold SQL_FUNCTIONS.
  induction SqlFunctions as [|v l IH]; simpl; [reflexivity|].
  rewrite IH, orb_false_r.
  apply contains_nonword; [now apply has_nonword_app|].
  now apply all_word_lower.
Qed.

Lemma parse_identifier (n doctype : string) :
  Py.all_chars Py.is_word n = true -> parse n doctype = Ok None.
Proof.
  intros A. unfold parse.
  now rewrite (contains_nonword "." n eq_refl A).
Qed.

Lemma parse_string_field_identifier (self : Engine) (n : string) :
  plain_identifier n ->
  parse_string_field self n = Ok (column self.(self_table) n).
Proof.
  intros P. pose proof P as [A N]. unfold parse_string_field.
  rewrite (not_star _ A).
  rewrite (contains_nonword " as " (Py.lower n) eq_refl (all_word_lower _ A)).
  now rewrite (field_parse_identifier _ P).
Qed.

Lemma sanitize_identifier (n : string) (is_mariadb : bool) :
  plain_identifier n -> strip_comments is_mariadb n = n ->
  _sanitize_field n is_mariadb = Ok n.
Proof.
  intros [A N] S. unfold _sanitize_field, _validate_select_field.
  rewrite (not_star _ A), (ReFacts.identifier_allowed _ A N), S, (strip_word _ A).
  destruct (Py.isdigit n); reflexivity.
Qed.

Lemma parse_item_identifier (self : Engine) (n : string) :
  plain_identifier n ->
  _parse_single_field_item self (PStr n)
  = Ok [ITerm (PField (column self.(self_table) n))].
Proof.
  intros P. pose proof P as [A N]. unfold _parse_single_field_item.
  simpl is_criterion. cbv iota.
  rewrite (has_function_identifier _ A), (parse_identifier _ (self_doctype self) A).
  cbv beta iota delta [bind].
  now rewrite (parse_string_field_identifier self _ P).
Qed.

(** parsing a list of plain identifiers yields their columns, in order *)
Lemma parse_fields_identifiers (self : Engine) (names : list string) :
  (forall n, In n names ->
     plain_identifier n /\ strip_comments self.(self_is_mariadb) n = n) ->
  parse_fields self (PList (map PStr names))
  = Ok (map (fun n => ITerm (PField (column self.(self_table) n))) names).
Proof.
  intros P. unfold parse_fields. simpl truthy.
  destruct names as [|n0 names0] eqn:Q; [reflexivity|]. rewrite <- Q in *.
  rewrite length_map. replace (negb (negb (Nat.eqb (List.length names) 0))) with false
    by (rewrite Q; reflexivity).
  assert (S : sanitize_all self.(self_is_mariadb) (map PStr names)
              = Ok (map PStr names)).
  { clear Q. induction names as [|n l IH]; [reflexivity|].
    cbn [map sanitize_all].
    destruct (P n (or_introl eq_refl)) as [Pn Sn].
    rewrite (sanitize_identifier _ _ Pn Sn). cbv beta iota delta [bind].
    rewrite IH; [reflexivity|]. intros m I. apply P. now right. }
  rewrite S. cbv beta iota delta [bind].
  clear Q S. induction names as [|n l IH]; [reflexivity|].
  cbn [map parse_items].
  destruct (P n (or_introl eq_refl)) as [Pn _].
  rewrite (parse_item_identifier self _ Pn). cbv beta iota delta [bind].
  rewrite IH; [reflexivity|]. intros m I. apply P. now right.
Qed.

Lemma has_function_star : has_function "*" = false.
Proof.
  unfold has_function. cbn [Py.contains prefix negb orb Py.casefold Py.lower Py.map_chars].
  change (Py.to_lower "*") with "*"%char.
  unfold SQL_FUNCTIONS.
  induction SqlFunctions as [|v l IH]; [reflexivity|].
  cbn [map existsb]. rewrite IH, orb_false_r.
  destruct v as [|c [|d v]]; cbn; try reflexivity;
    destruct (ascii_dec c "*"); reflexivity.
Qed.

(** a requested bare [*] parses to the star of the owning table *)
Lemma parse_fields_star (self : Engine) :
  strip_comments self.(self_is_mariadb) "*" = "*" ->
  parse_fields self (PStr "*") = Ok [ITerm (PField (star self.(self_table)))].
Proof.
  intros S. unfold parse_fields. cbn [truthy negb String.eqb Ascii.eqb Bool.eqb].
  change (COMMA_PATTERN_split "*") with ["*"].
  change (map Py.strip ["*"]) with ["*"].
  cbn [filter negb String.eqb Ascii.eqb Bool.eqb map sanitize_all].
  unfold _sanitize_field. change (_validate_select_field "*") with (Ok tt).
  cbv beta iota delta [bind]. rewrite S. change (Py.strip "*") with "*".
  cbn [parse_items]. unfold _parse_single_field_item.
  cbn [is_criterion]. rewrite has_function_star.
  change (parse "*" (self_doctype self)) with (@Ok (option DynamicTableField) None).
  reflexivity.
Qed.

Lemma child_queries_not_pseudo (self : Engine) (d : list (pyval * pyval))
    (l : list field_item) :
  child_queries_of self d = Ok l -> Forall not_pseudo_column l.
Proof.
  revert l. induction d as [|[k v] d IH]; intros l C.
  - injection C as <-. constructor.
  - cbn [child_queries_of] in C.
    destruct (as_list v) as [vs|]; [|discriminate].
    destruct (ChildQuery_init k vs (self_doctype self)) as [c|e]; [|discriminate].
    cbv beta iota delta [bind] in C.
    destruct (child_queries_of self d) as [more|e]; [|discriminate].
    injection C as <-. constructor; [exact I|]. now apply IH.
Qed.

Lemma parse_item_not_pseudo (self : Engine) (field : pyval) (l : list field_item) :
  _parse_single_field_item self field = Ok l -> Forall not_pseudo_column l.
Proof.
  unfold _parse_single_field_item.
  destruct (is_criterion field) eqn:C.
  { intros X; injection X as <-. constructor; [|constructor].
    destruct field; try discriminate; exact I. }
  destruct field; try discriminate.
  - destruct (has_function s).
    + destruct (function_object s) as [[n sql]|e]; [|discriminate].
      intros X; injection X as <-. repeat constructor.
    + destruct (parse s (self_doctype self)) as [[d|]|e]; try discriminate.
      * intros X; injection X as <-. repeat constructor.
      * cbv beta iota delta [bind].
        destruct (parse_string_field self s) as [f|e]; [|discriminate].
        intros X; injection X as <-. repeat constructor.
  - apply child_queries_not_pseudo.
Qed.

Lemma parse_items_not_pseudo (self : Engine) (l : list pyval) (parsed : list field_item) :
  parse_items self l = Ok parsed -> Forall not_pseudo_column parsed.
Proof.
  revert parsed. induction l as [|x l IH]; intros parsed P.
  - injection P as <-. constructor.
  - cbn [parse_items] in P.
    destruct (_parse_single_field_item self x) as [here|e] eqn:Q; [|discriminate].
    destruct (parse_items self l) as [more|e]; [|discriminate].
    cbv beta iota delta [bind] in P. injection P as <-.
    apply Forall_app. split; [exact (parse_item_not_pseudo _ _ _ Q)|now apply IH].
Qed.

(** [parse_fields] never yields a [PseudoColumnMapper] *)
Lemma parse_fields_not_pseudo (self : Engine) (fields : pyval)
    (parsed : list field_item) :
  parse_fields self fields = Ok parsed -> Forall not_pseudo_column parsed.
Proof.
  unfold parse_fields. destruct (negb (truthy fields)).
  { intros X; injection X as <-. constructor. }
  destruct fields; try discriminate;
    match goal with
    | |- context [sanitize_all ?m ?l] =>
        destruct (sanitize_all m l) as [sl|e]; [|discriminate]
    end; cbv beta iota delta [bind]; apply parse_items_not_pseudo.
Qed.

Lemma filter_permitted_sound (permitted : list string) (fields kept : list pyval) :
  filter_permitted permitted fields = Ok kept ->
  Forall (fun f => exists s, f = PStr s /\ In s permitted) kept.
Proof.
  revert kept. induction fields as [|f fields IH]; intros kept F.
  - injection F as <-. constructor.
  - cbn [filter_permitted] in F.
    destruct (negb (hashable f)); [discriminate|].
    destruct (filter_permitted permitted fields) as [more|e]; [|discriminate].
    cbv beta iota delta [bind] in F.
    specialize (IH more eq_refl).
    destruct f; try (injection F as <-; exact IH).
    destruct (Py.in_list s permitted) eqn:I; injection F as <-; [|exact IH].
    constructor; [|exact IH]. exists s. split; [reflexivity|now apply in_list_In].
Qed.

End FieldFacts.

Section ColumnPermissions.
Context {site : Env}.

Lemma permitted_item_sound (self : Engine) (item : field_item)
    (allowed : list field_item) :
  let permitted :=
    permitted_set self self.(self_doctype) self.(self_parent_doctype) in
  (forall n, In n permitted ->
     plain_identifier n /\ strip_comments self.(self_is_mariadb) n = n) ->
  not_pseudo_column item ->
  permitted_item self permitted item = Ok allowed ->
  Forall (item_permitted self) allowed.
Proof.
  intros permitted P NP. unfold permitted_item.
  destruct item as [t|[f|f]|[c|]].
  - destruct t; try (intros X; injection X as <-; solve [constructor]).
    + destruct (String.eqb (f_name f) "*").
      * rewrite (parse_fields_identifiers self permitted P).
        intros X; injection X as <-.
        apply Forall_forall. intros x I. apply in_map_iff in I.
        destruct I as (n & <- & I). exact I.
      * destruct (Py.in_list (f_name f) permitted) eqn:I.
        -- intros X; injection X as <-. constructor; [|constructor].
           now apply in_list_In.
        -- rewrite andb_false_r. intros X; injection X as <-. constructor.
    + now elim NP.
  - destruct (Py.in_list _ _) eqn:I; intros X; injection X as <-;
      constructor; [|constructor]. now apply in_list_In.
  - destruct (Py.in_list _ _) eqn:I; intros X; injection X as <-;
      constructor; [|constructor]. now apply in_list_In.
  - destruct (filter_permitted _ (cq_fields c)) as [kept|e] eqn:F; [|discriminate].
    cbv beta iota delta [bind].
    destruct kept as [|k kept]; intros X; injection X as <-; constructor;
      [|constructor].
    split; [discriminate|]. exact (filter_permitted_sound _ _ _ F).
  - discriminate.
Qed.

Lemma permitted_items_sound (self : Engine) (fields allowed : list field_item) :
  let permitted :=
    permitted_set self self.(self_doctype) self.(self_parent_doctype) in
  (forall n, In n permitted ->
     plain_identifier n /\ strip_comments self.(self_is_mariadb) n = n) ->
  Forall not_pseudo_column fields ->
  permitted_items self permitted fields = Ok allowed ->
  Forall (item_permitted self) allowed.
Proof.
  intros permitted P. revert allowed.
  induction fields as [|x l IH]; intros allowed NP A.
  - injection A as <-. constructor.
  - cbn [permitted_items] in A. inversion NP as [|? ? Nx Nl]; subst.
    destruct (permitted_item self permitted x) as [here|e] eqn:Q; [|discriminate].
    destruct (permitted_items self permitted l) as [more|e]; [|discriminate].
    cbv beta iota delta [bind] in A. injection A as <-.
    apply Forall_app. split.
    + exact (permitted_item_sound self x here P Nx Q).
    + now apply IH.
Qed.

(** C3. In a select-mode build with permission enforcement, with the
    permitted field names of the owning entity being plain identifiers
    that comment stripping leaves alone, every entry of the filtered
    field list lies in the permitted-field set it belongs to (the owning
    entity's for a column and for a link column, the child entity's for
    child fields), and a bare [*] becomes exactly the columns of the
    permitted-field set of the owning entity. *)
Theorem field_permissions_subset
    (self : Engine) (fields : pyval) (parsed allowed : list field_item) :
  parse_fields self fields = Ok parsed ->
  apply_field_permissions (with_fields self parsed) = Ok allowed ->
  (forall n,
     In n (permitted_set self self.(self_doctype) self.(self_parent_doctype)) ->
     plain_identifier n /\ strip_comments self.(self_is_mariadb) n = n) ->
  Forall (item_permitted self) allowed
  /\ (parsed = [ITerm (PField (star self.(self_table)))] ->
      forall item,
        In item allowed <->
        exists n,
          item = ITerm (PField (column self.(self_table) n))
          /\ In n (get_permitted_fields self.(self_doctype) self.(self_parent_doctype)
                     (get_permission_type self self.(self_doctype)))).
Proof.
  intros Pf A P. split.
  - apply (permitted_items_sound (with_fields self parsed) parsed allowed P).
    + exact (parse_fields_not_pseudo _ _ _ Pf).
    + exact A.
  - intros ->. unfold apply_field_permissions in A. cbn in A.
    change (permitted_set (with_fields self _) ?d ?p) with (permitted_set self d p) in A.
    rewrite (parse_fields_identifiers (with_fields self _) _ P) in A.
    cbv beta iota delta [bind] in A. rewrite app_nil_r in A. injection A as <-.
    intros item. rewrite in_map_iff. unfold permitted_set.
    split; intros (n & Q & I); exists n; cbn in *;
      (split; [now rewrite Q|]); now apply (nodup_In string_dec).
Qed.

End ColumnPermissions.

(** ** The order of the phases of a build *)

Section PhaseOrder.
Context {site : Env}.

Lemma mbind_trace {A B : Type} (m : M A) (k : A -> M B) :
  exists rest, fst (mbind m k) = fst m ++ rest.
Proof.
  destruct m as [t [a|e]]; simpl.
  - destruct (k a) as [t' r]. now exists t'.
  - exists []. now rewrite app_nil_r.
Qed.

Lemma check_read_permission_first (doctype user : string) (parent : option string) :
  exists rest,
    fst (check_read_permission doctype user parent)
    = EvHasPermission doctype "select" :: rest.
Proof.
  unfold check_read_permission. simpl.
  destruct (has_permission doctype "select" user parent); simpl; [now eexists|].
  destruct (has_permission doctype "read" user parent); simpl; now eexists.
Qed.

Lemma fold_order_selects (l : list string) (q : Query) :
  (fold_left order_declaration l q).(q_selects) = q.(q_selects).
Proof.
  revert q. induction l as [|d l IH]; intros q; [reflexivity|].
  cbn [fold_left]. rewrite IH. unfold order_declaration.
  destruct (nonempty _); [|reflexivity].
  destruct (Py.split " " _) as [|f more]; reflexivity.
Qed.

Lemma apply_order_by_selects (self self' : Engine) (order_by : pyval) :
  apply_order_by self order_by = Ok self' ->
  self'.(self_query).(q_selects) = self.(self_query).(q_selects).
Proof.
  unfold apply_order_by. destruct (_ || _).
  - intros X; now injection X as <-.
  - destruct (_validate_order_by order_by) as [s|e]; [|discriminate].
    intros X; injection X as <-. apply fold_order_selects.
Qed.

Lemma add_permission_conditions_selects (self self' : Engine) :
  add_permission_conditions self = Ok self' ->
  self'.(self_query).(q_selects) = self.(self_query).(q_selects).
Proof.
  unfold add_permission_conditions.
  destruct (row_conditions self) as [[conditions fetch]|e]; [|discriminate].
  cbv beta iota delta [bind].
  destruct (if fetch then _ else _) as [|d ds], conditions as [|c cs];
    intros X; injection X as <-; cbn; try reflexivity; apply where_selects.
Qed.

Lemma with_query_apply_permissions (self : Engine) (q : Query) :
  (with_query self q).(self_apply_permissions) = self.(self_apply_permissions).
Proof. reflexivity. Qed.

(** the phases that follow the fields leave the select list as it is *)
Lemma finish_query_selects (a : Args) (self : Engine) (t : list event) (q : Query) :
  finish_query a self = (t, Ok q) ->
  q.(q_selects) = self.(self_query).(q_selects).
Proof.
  unfold finish_query, tell, lift, mret. cbn [mbind].
  destruct (apply_filters self (a_filters a)) as [s1|e] eqn:F; [|discriminate].
  rewrite <- (apply_filters_selects _ _ _ F). clear F. cbn [mbind].
  destruct (apply_order_by s1 (a_order_by a)) as [s2|e] eqn:O; [|discriminate].
  rewrite <- (apply_order_by_selects _ _ _ O). clear O. cbn [mbind].
  assert (L : forall (self : Engine) (v : pyval) (set : Query -> option Z -> Query),
            (forall q n, (set q n).(q_selects) = q.(q_selects)) ->
            forall m : M Engine,
              m = (if truthy v
                   then ([], n <- non_negative_int v ;;
                             Ok (with_query self (set (self_query self) (Some n))))
                   else ([], Ok self)) ->
              (exists s, m = ([], Ok s)
                         /\ s.(self_query).(q_selects) = self.(self_query).(q_selects))
              \/ exists e, m = ([], Err e)).
  { intros s v set K m ->. destruct (truthy v); [|left; now eexists].
    destruct (non_negative_int v) as [n|e]; cbn; [left|right; now eexists].
    eexists. split; [reflexivity|]. cbn. apply K. }
  destruct (L s2 (a_limit a) set_limit (fun _ _ => eq_refl) _ eq_refl)
    as [(s3 & -> & <-)|(e & ->)]; [|discriminate]. cbn [mbind].
  destruct (L s3 (a_offset a) set_offset (fun _ _ => eq_refl) _ eq_refl)
    as [(s4 & -> & <-)|(e & ->)]; [|discriminate]. cbn [mbind].
  set (s5 := if a_distinct a then _ else s4).
  assert (E5 : s5.(self_query).(q_selects) = s4.(self_query).(q_selects))
    by (unfold s5; destruct (a_distinct a); reflexivity).
  set (s6 := if a_for_update a then _ else s5).
  assert (E6 : s6.(self_query).(q_selects) = s4.(self_query).(q_selects))
    by (rewrite <- E5; unfold s6; destruct (a_for_update a); reflexivity).
  rewrite <- E6. clearbody s6. clear E5 E6 s5.
  destruct (truthy (a_group_by a)).
  - destruct (_validate_group_by (a_group_by a)) as [g|e]; [|discriminate].
    cbn. destruct (self_apply_permissions s6); cbn.
    + destruct (add_permission_conditions _) as [s8|e] eqn:P; [|discriminate].
      intros X; injection X as _ <-. cbn.
      now rewrite (add_permission_conditions_selects _ _ P).
    + intros X; injection X as _ <-. reflexivity.
  - cbn. destruct (self_apply_permissions s6); cbn.
    + destruct (add_permission_conditions _) as [s8|e] eqn:P; [|discriminate].
      intros X; injection X as _ <-. cbn.
      now rewrite (add_permission_conditions_selects _ _ P).
    + intros X; injection X as _ <-. reflexivity.
Qed.

(** C10. In a select-mode build, when parsing the fields and, under
    permission enforcement, filtering them by column permission leave
    the field list empty (every requested field dropped as unpermitted
    included), [apply_fields] puts exactly the name column of the owning
    table in the select list of the fresh query, and the phases that
    follow keep it: the assembled query selects that column alone. *)
Theorem empty_field_list_selects_name
    (self : Engine) (fields : pyval) (parsed : list field_item) :
  self.(self_query) = from_ self.(self_table) SelectFrom ->
  parse_fields self fields = Ok parsed ->
  (if self.(self_apply_permissions)
   then apply_field_permissions (with_fields self parsed) = Ok []
   else parsed = []) ->
  exists self',
    apply_fields self fields = Ok self'
    /\ self'.(self_query).(q_selects) = [PField (column self.(self_table) "name")]
    /\ self'.(self_query).(q_joins) = []
    /\ self'.(self_query).(q_child_queries) = []
    /\ forall a t q,
         finish_query a self' = (t, Ok q) ->
         q.(q_selects) = [PField (column self.(self_table) "name")].
Proof.
  intros Q Pf A.
  assert (X : exists self',
             apply_fields self fields = Ok self'
             /\ self'.(self_query).(q_selects)
                = [PField (column self.(self_table) "name")]
             /\ self'.(self_query).(q_joins) = []
             /\ self'.(self_query).(q_child_queries) = []).
  { unfold apply_fields. rewrite Pf. cbv beta iota delta [bind].
    cbn [self_apply_permissions with_fields].
    destruct (self_apply_permissions self).
    - rewrite A. cbn. rewrite Q. eexists. split; [reflexivity|]. cbn. auto.
    - subst parsed. cbn. rewrite Q. eexists. split; [reflexivity|]. cbn. auto. }
  destruct X as (self' & F & S & J & C). exists self'.
  repeat (split; [assumption|]).
  intros a t q G. rewrite <- S. exact (finish_query_selects a self' t q G).
Qed.

(** C6. In a call of [get_query] with an entity name: a name that fails
    the identifier pattern ends the build with no permission lookup and
    no parsing at all; under permission enforcement the first step after
    the name is the entity-level permission lookup, ahead of any field
    or filter parsing; and a user with neither select nor read
    permission is refused after the two lookups, the fields and filters
    never looked at. *)
Theorem get_query_phase_order (a : Args) (doctype : string) :
  a.(a_table) = TableName doctype ->
  let user := match or_none a.(a_user) with Some u => u | None => session_user end in
  (pattern_match TABLE_NAME_PATTERN doctype = false ->
   get_query a = ([], Err ValidationError))
  /\ (pattern_match TABLE_NAME_PATTERN doctype = true ->
      a.(a_ignore_permissions) = false ->
      exists rest,
        fst (get_query a) = EvHasPermission doctype "select" :: rest)
  /\ (pattern_match TABLE_NAME_PATTERN doctype = true ->
      a.(a_ignore_permissions) = false ->
      has_permission doctype "select" user a.(a_parent_doctype) = false ->
      has_permission doctype "read" user a.(a_parent_doctype) = false ->
      get_query a
      = ([EvHasPermission doctype "select"; EvHasPermission doctype "read"],
         Err PermissionError)).
Proof.
  intros T user. split; [|split].
  - intros V. unfold get_query. rewrite T. unfold validate_doctype.
    rewrite V. reflexivity.
  - intros V I. unfold get_query. rewrite T, I. unfold validate_doctype.
    rewrite V. cbn [negb lift mbind mret app fst].
    match goal with
    | |- context [mbind (check_read_permission ?d ?u ?p) ?k] =>
        destruct (mbind_trace (check_read_permission d u p) k) as [r1 R1];
        destruct (check_read_permission_first d u p) as [r2 R2];
        destruct (mbind (check_read_permission d u p) k) as [t r]
    end.
    simpl in *. rewrite R1, R2. simpl. now eexists.
  - intros V I S R. unfold get_query. rewrite T, I. unfold validate_doctype.
    rewrite V. cbn [negb lift mbind mret app fst].
    unfold check_read_permission. fold user. rewrite S, R. reflexivity.
Qed.

End PhaseOrder.

(** ** The properties on the concrete site *)

#[local] Existing Instance Site.env.

(** C1, at field names the builder does not turn away as the claim
    says. The dotted name [a.b.c] has special characters, is not resolved
    by the dynamic-field grammar and does not match the clause-field
    pattern, yet the build does not end in a permission error: the tuple
    unpacking of [field.split(".")] in [DynamicTableField.parse] raises
    a ValueError first, for any engine and any entity. In the same way
    [table.invalid-field], whose first part is no field of the entity,
    ends in the AttributeError of [linked_field.options], and so does
    the table-qualified [tabTask.name], although it matches the pattern. *)
Theorem dotted_field_raises_value_error (self : Engine) (doctype : option string) :
  (has_special_char "a.b.c" = true
   /\ pattern_match ALLOWED_SQL_FIELD_PATTERN "a.b.c" = false
   /\ parse "a.b.c" self.(self_doctype) = Err ValueError
   /\ _validate_and_prepare_filter_field self (PStr "a.b.c") doctype = Err ValueError
   /\ get_query (Site.args "Task" PNone
                   (PList [PList [PStr "a.b.c"; PStr "="; PInt 1]]) true "bob")
      = ([EvParseFields; EvApplyFilters], Err ValueError))
  /\ (has_special_char "table.invalid-field" = true
      /\ pattern_match ALLOWED_SQL_FIELD_PATTERN "table.invalid-field" = false
      /\ _validate_and_prepare_filter_field (Site.engine "bob" false)
           (PStr "table.invalid-field") None = Err AttributeError)
  /\ (pattern_match ALLOWED_SQL_FIELD_PATTERN "tabTask.name" = true
      /\ _validate_and_prepare_filter_field (Site.engine "bob" false)
           (PStr "tabTask.name") None = Err AttributeError).
Proof. repeat split; vm_compute; reflexivity. Qed.

(** the examples of the specification *)
Example fields_name_and_alias :
  parse_fields (Site.engine "bob" false) (PStr "name, `creation` as created_on")
  = Ok [ITerm (Site.task_column "name");
        ITerm (PField (as_ (column (DocType "Task") "creation") (Some "created_on")))].
Proof. vm_compute. reflexivity. Qed.

Example filter_status_in :
  exists self',
    apply_filters (Site.engine "bob" false)
      (PDict [(PStr "status", PList [PStr "in"; PList [PStr "Open"; PStr "Closed"]])])
    = Ok self'
    /\ self'.(self_query).(q_wheres)
       = [COp "in" (Site.task_column "status") (PList [PStr "Open"; PStr "Closed"])].
Proof. eexists. split; [vm_compute; reflexivity|reflexivity]. Qed.

Example field_through_link :
  exists self',
    apply_fields (Site.engine "bob" false) (PStr "assigned_to.email") = Ok self'
    /\ self'.(self_query).(q_joins)
       = [{| join_item := DocType "User"; join_alias := None;
             join_on := CEq (PField (column (DocType "User") "name"))
                            (Site.task_column "assigned_to") |}]
    /\ self'.(self_query).(q_selects) = [PField (column (DocType "User") "email")].
Proof. eexists. split; [vm_compute; reflexivity|split; reflexivity]. Qed.

Example injection_is_rejected :
  parse_fields (Site.engine "bob" false) (PStr "name; DROP TABLE x") = Err PermissionError
  /\ _validate_and_prepare_filter_field (Site.engine "bob" false)
       (PStr "name; DROP TABLE x") None = Err PermissionError.
Proof. split; vm_compute; reflexivity. Qed.

Example hierarchy_of_the_tree :
  get_nested_set_hierarchy_result "Task" (PStr "X") "descendants of"
  = [PStr "Y"; PStr "Z"]
  /\ get_nested_set_hierarchy_result "Task" (PStr "Y") "ancestors of"
     = [PStr "X"; PStr "ROOT"]
  /\ get_nested_set_hierarchy_result "Task" (PStr "X") "descendants of (inclusive)"
     = [PStr "Y"; PStr "Z"; PStr "X"].
Proof. repeat split; vm_compute; reflexivity. Qed.

(** a mapping key whose field is not of a table type still yields a
    [ChildQuery] object, one without attributes *)
Lemma child_query_of_non_table {site : Env} (self : Engine)
    (fieldname : string) (fields : list pyval) (df : DocField) :
  get_field self.(self_doctype) fieldname = Some df ->
  Py.in_list df.(fieldtype) table_fields = false ->
  _parse_single_field_item self (PDict [(PStr fieldname, PList fields)])
  = Ok [IChildQuery None].
Proof.
  intros G T. unfold _parse_single_field_item. cbn.
  rewrite G, T. reflexivity.
Qed.

(** C5, at a mapping whose key is a Data field. The entry is not
    dropped: [ChildQuery.__init__] returns early but the object is
    appended all the same, so the parsed field list and, without
    permission enforcement, the child queries of the query hold an object
    without attributes; under permission enforcement the build ends in
    an AttributeError when column filtering reads its doctype. *)
Theorem non_table_child_query_is_kept :
  let fields := PList [PDict [(PStr "subject", PList [PStr "name"])]] in
  get_field "Task" "subject" = Some {| fieldtype := "Data"; options := EmptyString |}
  /\ parse_fields (Site.engine "bob" false) fields = Ok [IChildQuery None]
  /\ (exists q,
        get_query (Site.args "Task" fields PNone true "bob")
        = ([EvParseFields; EvApplyFilters; EvApplyOrderBy; EvClauses], Ok q)
        /\ q.(q_child_queries) = [None])
  /\ get_query (Site.args "Task" fields PNone false "bob")
     = ([EvHasPermission "Task" "select"; EvParseFields], Err AttributeError).
Proof.
  repeat split; try reflexivity.
  eexists. split; reflexivity.
Qed.



Lemma owner_constraint_enforced_witness :
  requires_owner_constraint (get_role_permissions "Task" "alice") = true
  /\ (row_conditions (Site.engine "alice" true)
      = Ok ([CEq (Site.task_column "owner") (PStr "alice")], true)
      /\ add_permission_conditions (Site.engine "alice" true)
         = Ok (with_query (Site.engine "alice" true)
                 (where_ (from_ (DocType "Task") SelectFrom)
                    (COr (CEq (Site.task_column "owner") (PStr "alice"))
                         (CIsIn (Site.task_column "name") ["T-7"]))))).
Proof.
  assert (O : requires_owner_constraint (get_role_permissions "Task" "alice") = true)
    by reflexivity.
  split; [exact O|].
  destruct (owner_constraint_enforced (Site.engine "alice" true) O) as (R & _ & A).
  split; [exact R|exact A].
Defined.

Lemma user_permission_conditions_shape_witness :
  let project := Site.task_column "project" in
  let conds := [COr (CIsNull project) (CIsIn project ["P1"; "P2"])] in
  get_user_permission_conditions (Site.engine "bob" true)
    (get_role_permissions "Task" "bob") = Ok (conds, true)
  /\ ((forall c, In c conds ->
         exists df docs, c = COr (CIsNull (Site.task_column df.(df_fieldname)))
                                 (CIsIn (Site.task_column df.(df_fieldname)) docs))
      /\ (true = true <-> get_user_permissions "bob" <> [])).
Proof.
  intros project conds.
  assert (G : get_user_permission_conditions (Site.engine "bob" true)
                (get_role_permissions "Task" "bob") = Ok (conds, true))
    by reflexivity.
  split; [exact G|].
  destruct (user_permission_conditions_shape (Site.engine "bob" true)
              (get_role_permissions "Task" "bob") conds true G) as [S C].
  split.
  - intros c I. destruct (S c I) as (df & docs & _ & Q).
    exists df, docs. exact Q.
  - exact (proj2 (C eq_refl)).
Defined.

Lemma none_value_is_null_witness :
  (_validate_and_prepare_filter_field (Site.engine "bob" false) (PStr "subject") None
   = Ok (Site.engine "bob" false, Site.task_column "subject")
   /\ convert_to_value PNone = PNone
   /\ Py.in_list "=" NESTED_SET_OPERATORS = false
   /\ Py.in_list (Py.casefold "=") operator_keys = true)
  /\ _apply_filter (Site.engine "bob" false) (PStr "subject") PNone "=" None
     = Ok (with_query (Site.engine "bob" false)
             (where_ (from_ (DocType "Task") SelectFrom) (CIsNull (Site.task_column "subject")))).
Proof.
  split; [repeat split|].
  exact (proj1 (none_value_is_null (Site.engine "bob" false) (Site.engine "bob" false)
                  (PStr "subject") PNone "=" None (column (DocType "Task") "subject")
                  eq_refl eq_refl eq_refl eq_refl)).
Defined.

Lemma site_permitted_names (n : string) :
  In n (permitted_set (Site.engine "bob" true) "Task" None) ->
  plain_identifier n /\ strip_comments true n = n.
Proof.
  intros I. simpl in I.
  repeat (destruct I as [<-|I]; [repeat split; discriminate|]). destruct I.
Defined.

Lemma field_permissions_subset_witness :
  let self := Site.engine "bob" true in
  let parsed := [ITerm (PField (star (DocType "Task")))] in
  let allowed := map (fun n => ITerm (Site.task_column n)) ["name"; "subject"; "status"; "assigned_to"] in
  (parse_fields self (PStr "*") = Ok parsed
   /\ apply_field_permissions (with_fields self parsed) = Ok allowed
   /\ (forall n, In n (permitted_set self "Task" None) ->
         plain_identifier n /\ strip_comments true n = n))
  /\ Forall (item_permitted self) allowed.
Proof.
  intros self parsed allowed.
  split; [split; [reflexivity|split; [reflexivity|exact site_permitted_names]]|].
  exact (proj1 (field_permissions_subset self (PStr "*") parsed allowed
                  eq_refl eq_refl site_permitted_names)).
Defined.

Lemma empty_field_list_selects_name_witness :
  let self := Site.engine "bob" true in
  (self.(self_query) = from_ (DocType "Task") SelectFrom
   /\ parse_fields self (PStr "secret") = Ok [ITerm (Site.task_column "secret")]
   /\ apply_field_permissions (with_fields self [ITerm (Site.task_column "secret")]) = Ok [])
  /\ exists self',
       apply_fields self (PStr "secret") = Ok self'
       /\ self'.(self_query).(q_selects) = [Site.task_column "name"].
Proof.
  intros self.
  assert (Q : self.(self_query) = from_ (DocType "Task") SelectFrom) by reflexivity.
  assert (P : parse_fields self (PStr "secret") = Ok [ITerm (Site.task_column "secret")])
    by reflexivity.
  assert (A : apply_field_permissions
                (with_fields self [ITerm (Site.task_column "secret")]) = Ok [])
    by reflexivity.
  split; [repeat split; assumption|].
  destruct (empty_field_list_selects_name self (PStr "secret")
              [ITerm (Site.task_column "secret")] Q P A)
    as (self' & F & S & _).
  exists self'. split; [exact F|exact S].
Defined.

Lemma get_query_phase_order_witness :
  (a_table (Site.args "Ta;sk" (PStr "*") PNone false "guest") = TableName "Ta;sk"
   /\ pattern_match TABLE_NAME_PATTERN "Ta;sk" = false
   /\ a_table (Site.args "Task" (PStr "nam;e") PNone false "guest") = TableName "Task"
   /\ pattern_match TABLE_NAME_PATTERN "Task" = true
   /\ has_permission "Task" "select" "guest" None = false
   /\ has_permission "Task" "read" "guest" None = false)
  /\ get_query (Site.args "Ta;sk" (PStr "*") PNone false "guest")
     = ([], Err ValidationError)
  /\ get_query (Site.args "Task" (PStr "nam;e") PNone false "guest")
     = ([EvHasPermission "Task" "select"; EvHasPermission "Task" "read"],
        Err PermissionError).
Proof.
  split; [repeat split|]. split.
  - exact (proj1 (get_query_phase_order
                    (Site.args "Ta;sk" (PStr "*") PNone false "guest") "Ta;sk" eq_refl)
                 eq_refl).
  - exact (proj2 (proj2 (get_query_phase_order
                    (Site.args "Task" (PStr "nam;e") PNone false "guest") "Task" eq_refl))
                 eq_refl eq_refl eq_refl eq_refl).
Defined.

(** under strict user permissions the same link field yields a plain [IN] *)
Example strict_user_permission_condition :
  @get_user_permission_conditions Site.strict_env (Site.engine "bob" true)
    (get_role_permissions "Task" "bob")
  = Ok ([CIsIn (Site.task_column "project") ["P1"; "P2"]], true).
Proof. reflexivity. Qed.


(** ** The derivative matcher accepts nothing but the language *)

Module ReSound.
Import Re.

Lemma nullable_sound (r : regex) : nullable r = true -> lang r EmptyString.
Proof.
  induction r as [| |p|a IHa b IHb|a IHa b IHb|a IHa]; simpl; intros N;
    try discriminate.
  - constructor.
  - apply andb_prop in N. destruct N as [Na Nb].
    change EmptyString with (EmptyString ++ EmptyString)%string.
    constructor; auto.
  - apply orb_prop in N. destruct N as [N|N]; [apply LAltL|apply LAltR]; auto.
  - constructor.
Qed.

Lemma cat_sound (a b : regex) (s : string) : lang (cat a b) s -> lang (Cat a b) s.
Proof.
  intros L.
  assert (E : lang b s -> lang (Cat Eps b) s).
  { intros Lb. change s with (EmptyString ++ s)%string. constructor; [constructor|exact Lb]. }
  destruct a; simpl in L; try (now inversion L);
    destruct b; simpl in L; try (now inversion L); try exact L; now apply E.
Qed.

Lemma alt_sound (a b : regex) (s : string) : lang (alt a b) s -> lang (Alt a b) s.
Proof.
  intros L.
  destruct a; simpl in L;
    try (now apply LAltR);
    destruct b; simpl in L; try exact L; now apply LAltL.
Qed.

Lemma deriv_sound (c : ascii) (r : regex) (s : string) :
  lang (deriv c r) s -> lang r (String c s).
Proof.
  revert s.
  induction r as [| |p|a IHa b IHb|a IHa b IHb|a IHa]; simpl; intros s L.
  - inversion L.
  - inversion L.
  - destruct (p c) eqn:P; [|inversion L].
    inversion L; subst. now constructor.
  - assert (K : lang (cat (deriv c a) b) s -> lang (Cat a b) (String c s)).
    { intros L'. apply cat_sound in L'.
      inversion L' as [| |a' b' s1 s2 La Lb| | | |]; subst.
      change (String c (s1 ++ s2)) with (String c s1 ++ s2)%string.
      constructor; [now apply IHa|exact Lb]. }
    destruct (nullable a) eqn:N; [|now apply K].
    apply alt_sound in L.
    inversion L as [| | |a' b' s' L1|a' b' s' L2| |]; subst; [now apply K|].
    change (String c s) with (EmptyString ++ String c s)%string.
    constructor; [now apply nullable_sound|now apply IHb].
  - apply alt_sound in L.
    inversion L as [| | |a' b' s' L1|a' b' s' L2| |]; subst;
      [apply LAltL; now apply IHa|apply LAltR; now apply IHb].
  - apply cat_sound in L.
    inversion L as [| |a' b' s1 s2 La Lb| | | |]; subst.
    change (String c (s1 ++ s2)) with (String c s1 ++ s2)%string.
    constructor; [now apply IHa|exact Lb].
Qed.

Lemma matches_sound (s : string) (r : regex) : matches r s = true -> lang r s.
Proof.
  revert r. induction s as [|c s IH]; simpl; intros r M.
  - now apply nullable_sound.
  - apply deriv_sound. now apply IH.
Qed.

Lemma all_chars_app (p : ascii -> bool) (a b : string) :
  Py.all_chars p (a ++ b) = Py.all_chars p a && Py.all_chars p b.
Proof.
  induction a as [|c a IH]; simpl; [reflexivity|].
  now rewrite IH, andb_assoc.
Qed.

Lemma all_chars_weaken (p q : ascii -> bool) (s : string) :
  (forall c, p c = true -> q c = true) ->
  Py.all_chars p s = true -> Py.all_chars q s = true.
Proof.
  intros W. induction s as [|c s IH]; simpl; [reflexivity|]. intros A.
  apply andb_prop in A. destruct A as [Pc A]. now rewrite (W c Pc), (IH A).
Qed.

(** a word of the language is written in the alphabet *)
Lemma lang_alphabet (r : regex) (s : string) :
  lang r s -> Py.all_chars (alphabet r) s = true.
Proof.
  induction 1 as [|p c P|a b s1 s2 La IHa Lb IHb|a b s La IHa|a b s Lb IHb
                  |a|a s1 s2 La IHa Ls IHs]; simpl; try reflexivity.
  - now rewrite P.
  - rewrite all_chars_app. apply andb_true_intro. split.
    + apply (all_chars_weaken (alphabet a)); [|exact IHa].
      intros c Q. now rewrite Q.
    + apply (all_chars_weaken (alphabet b)); [|exact IHb].
      intros c Q. rewrite Q. apply orb_true_r.
  - apply (all_chars_weaken (alphabet a)); [|exact IHa].
    intros c Q. now rewrite Q.
  - apply (all_chars_weaken (alphabet b)); [|exact IHb].
    intros c Q. rewrite Q. apply orb_true_r.
  - rewrite all_chars_app. apply andb_true_intro. split; assumption.
Qed.

Lemma clause_alphabet (c : ascii) :
  alphabet ALLOWED_SQL_FIELD_PATTERN c = true -> clause_char c = true.
Proof. by_cases_on c. Qed.

(** what matches the clause-field pattern is written with word
    characters, backticks and dots, a final newline apart *)
Lemma clause_field_chars (s : string) :
  pattern_match ALLOWED_SQL_FIELD_PATTERN s = true ->
  Py.all_chars clause_char s = true.
Proof.
  intros M. apply (all_chars_weaken _ _ s clause_alphabet).
  apply lang_alphabet. now apply matches_sound.
Qed.

End ReSound.

(** ** What the clause validators let through *)

Section ClauseFacts.
Context {site : Env}.

Lemma digits_are_clause_chars (s : string) :
  Py.isdigit s = true -> Py.all_chars clause_char s = true.
Proof.
  unfold Py.isdigit. destruct s as [|c s]; [discriminate|].
  apply ReSound.all_chars_weaken. intros x D.
  unfold clause_char, Py.is_word. now rewrite D.
Qed.

Lemma group_by_parts_chars (parts : list string) :
  validate_group_by_parts parts = Ok tt ->
  Forall (fun part => Py.all_chars clause_char (Py.strip part) = true) parts.
Proof.
  induction parts as [|part rest IH]; intros V; [constructor|].
  cbn [validate_group_by_parts] in V. cbv zeta in V.
  unfold nonempty in V.
  destruct (String.eqb (Py.strip part) EmptyString) eqn:Z; cbn [negb] in V.
  { constructor; [|now apply IH]. apply String.eqb_eq in Z. now rewrite Z. }
  destruct (Py.isdigit (Py.strip part)) eqn:D.
  { constructor; [now apply digits_are_clause_chars|now apply IH]. }
  destruct (pattern_match ALLOWED_SQL_FIELD_PATTERN (Py.strip part)) eqn:M;
    cbn [negb] in V; [|discriminate].
  constructor; [now apply ReSound.clause_field_chars|now apply IH].
Qed.

Lemma group_by_parts_error (parts : list string) (e : exception) :
  validate_group_by_parts parts = Err e -> e = PermissionError.
Proof.
  induction parts as [|part rest IH]; intros V; [discriminate|].
  cbn [validate_group_by_parts] in V. cbv zeta in V.
  destruct (negb (nonempty (Py.strip part))); [now apply IH|].
  destruct (Py.isdigit (Py.strip part)); [now apply IH|].
  destruct (negb (pattern_match ALLOWED_SQL_FIELD_PATTERN (Py.strip part)));
    [|now apply IH].
  unfold throw in V. now injection V as <-.
Qed.

Lemma group_by_lets_clause_fields_only_aux (group_by : pyval) :
  match _validate_group_by group_by with
  | Ok s => group_by = PStr s
  | Err _ => True
  end.
Proof.
  unfold _validate_group_by. destruct group_by; try exact I.
  destruct (validate_group_by_parts _) as [[]|e]; cbn; auto.
Qed.

(** X1. On ASCII text, a group-by argument that [_validate_group_by]
    accepts is a string whose comma-separated parts, stripped, are
    written with word characters, backticks and dots only (a final
    newline apart): no space, quote, parenthesis, semicolon or operator
    gets through. What it refuses it refuses with a TypeError when the
    argument is not a string and with a PermissionError otherwise. (A
    part in the digits of another script is accepted by [isdigit]
    unseen by the pattern; such text is outside the statement.) *)
Theorem group_by_lets_clause_fields_only (group_by : pyval) :
  match group_by with PStr s => Py.is_ascii s = true | _ => True end ->
  match _validate_group_by group_by with
  | Ok s =>
      group_by = PStr s
      /\ Forall (fun part => Py.all_chars clause_char (Py.strip part) = true)
                (COMMA_PATTERN_split s)
  | Err e =>
      match group_by with
      | PStr _ => e = PermissionError
      | _ => e = TypeError
      end
  end.
Proof.
  intros _.
  unfold _validate_group_by. destruct group_by; try reflexivity.
  destruct (validate_group_by_parts (COMMA_PATTERN_split s)) as [[]|e] eqn:V; cbn.
  - split; [reflexivity|now apply group_by_parts_chars].
  - now apply group_by_parts_error with (parts := COMMA_PATTERN_split s).
Qed.

Lemma split_ws_go_nonempty (s cur : string) :
  Forall (fun t => t <> EmptyString) (split_ws_go cur s).
Proof.
  revert cur. induction s as [|c s IH]; intros cur; cbn [split_ws_go].
  - destruct cur; [constructor|]. constructor; [discriminate|constructor].
  - destruct (Py.is_space c); [|apply IH].
    destruct cur; [apply IH|]. constructor; [discriminate|apply IH].
Qed.

Lemma lower_nonempty (s : string) :
  s <> EmptyString -> nonempty (Py.lower s) = true.
Proof. destruct s; [intros N; now elim N|reflexivity]. Qed.

Lemma order_by_parts_sound (declarations : list string) :
  validate_order_by_parts declarations = Ok tt ->
  Forall (fun declaration =>
            match split_ws (Py.strip declaration) with
            | [] => True
            | field_name :: rest =>
                Py.all_chars clause_char field_name = true
                /\ match rest with
                   | [] => True
                   | direction :: _ =>
                       Py.in_list (Py.lower direction) ["asc"; "desc"] = true
                   end
            end) declarations.
Proof.
  induction declarations as [|d rest IH]; intros V; [constructor|].
  cbn [validate_order_by_parts] in V. cbv zeta in V.
  enough (K : match split_ws (Py.strip d) with
              | [] => True
              | field_name :: rest =>
                  Py.all_chars clause_char field_name = true
                  /\ match rest with
                     | [] => True
                     | direction :: _ =>
                         Py.in_list (Py.lower direction) ["asc"; "desc"] = true
                     end
              end /\ validate_order_by_parts rest = Ok tt)
    by (constructor; [exact (proj1 K)|exact (IH (proj2 K))]).
  destruct (nonempty (Py.strip d)) eqn:Z.
  2:{ split; [|exact V].
      unfold nonempty in Z. apply negb_false_iff, String.eqb_eq in Z.
      now rewrite Z. }
  pose proof (split_ws_go_nonempty (Py.strip d) EmptyString) as NE.
  fold (split_ws (Py.strip d)) in NE.
  destruct (split_ws (Py.strip d)) as [|f more]; [split; [exact I|exact V]|].
  assert (F : (if Py.isdigit f then Ok tt
               else if negb (pattern_match ALLOWED_SQL_FIELD_PATTERN f)
               then throw PermissionError else Ok tt) = Ok tt ->
              Py.all_chars clause_char f = true).
  { destruct (Py.isdigit f) eqn:D; [intros _; now apply digits_are_clause_chars|].
    destruct (pattern_match ALLOWED_SQL_FIELD_PATTERN f) eqn:M; [|discriminate].
    intros _. now apply ReSound.clause_field_chars. }
  destruct (if Py.isdigit f then _ else _) as [[]|e]; [|discriminate].
  specialize (F eq_refl). cbv beta iota delta [bind] in V.
  destruct more as [|dir more'].
  - split; [split; [exact F|exact I]|exact V].
  - inversion NE as [|? ? _ NE']; subst. inversion NE' as [|? ? Nd _]; subst.
    rewrite (lower_nonempty _ Nd) in V. cbn [andb] in V.
    destruct (Py.in_list (Py.lower dir) ["asc"; "desc"]) eqn:D; cbn [negb] in V;
      [|discriminate].
    split; [split; [exact F|reflexivity]|exact V].
Qed.

Lemma order_by_parts_error (declarations : list string) (e : exception) :
  validate_order_by_parts declarations = Err e ->
  e = PermissionError \/ e = ValueError.
Proof.
  induction declarations as [|d rest IH]; intros V; [discriminate|].
  cbn [validate_order_by_parts] in V. cbv zeta in V.
  destruct (nonempty (Py.strip d)); [|now apply IH].
  destruct (split_ws (Py.strip d)) as [|f more]; [now apply IH|].
  destruct (Py.isdigit f).
  - cbv beta iota delta [bind] in V.
    destruct more as [|dir more']; [now apply IH|].
    destruct (_ && _); [unfold throw in V; injection V as <-; now right|now apply IH].
  - destruct (negb (pattern_match ALLOWED_SQL_FIELD_PATTERN f)).
    + unfold throw in V. injection V as <-. now left.
    + cbv beta iota delta [bind] in V.
      destruct more as [|dir more']; [now apply IH|].
      destruct (_ && _); [unfold throw in V; injection V as <-; now right|now apply IH].
Qed.

(** X2. On ASCII text, an order-by argument that [_validate_order_by]
    accepts is a string in which every comma-separated declaration opens with a token
    written with word characters, backticks and dots only, followed, if
    by anything, by [asc] or [desc] in any letter case. A non-string is
    refused with a TypeError, a string with a PermissionError (the
    field) or a ValueError (the direction). *)
Theorem order_by_lets_clause_fields_only (order_by : pyval) :
  match order_by with PStr s => Py.is_ascii s = true | _ => True end ->
  match _validate_order_by order_by with
  | Ok s =>
      order_by = PStr s
      /\ Forall (fun declaration =>
                   match split_ws (Py.strip declaration) with
                   | [] => True
                   | field_name :: rest =>
                       Py.all_chars clause_char field_name = true
                       /\ match rest with
                          | [] => True
                          | direction :: _ =>
                              Py.in_list (Py.lower direction) ["asc"; "desc"] = true
                          end
                   end) (Py.split "," s)
  | Err e =>
      match order_by with
      | PStr _ => e = PermissionError \/ e = ValueError
      | _ => e = TypeError
      end
  end.
Proof.
  intros _.
  unfold _validate_order_by. destruct order_by; try reflexivity.
  destruct (validate_order_by_parts (Py.split "," s)) as [[]|e] eqn:V; cbn.
  - split; [reflexivity|now apply order_by_parts_sound].
  - now apply order_by_parts_error with (declarations := Py.split "," s).
Qed.

Lemma lang_newline_opt (s : string) :
  Re.lang (Re.Opt (Re.Chr Py.newline)) s ->
  s = EmptyString \/ s = String Py.newline EmptyString.
Proof.
  intros L. inversion L as [| | |a b s' L1|a b s' L2| |]; subst.
  - inversion L1 as [|p c P| | | | |]; subst. right.
    unfold Py.chr_eqb in P. apply Ascii.eqb_eq in P. now subst.
  - inversion L2; subst. now left.
Qed.

(** X3. [validate_doctype] accepts exactly the names made of word
    characters, spaces and hyphens, the empty name included, and each
    of them again with one newline added at its end (what [$] lets
    through); every other name is refused with a validation error. *)
Theorem validate_doctype_accepts (doctype : string) :
  (validate_doctype doctype = Ok tt
   <-> exists name,
         Py.all_chars name_char name = true
         /\ (doctype = name \/ doctype = (name ++ String Py.newline EmptyString)%string))
  /\ (validate_doctype doctype = Ok tt \/ validate_doctype doctype = Err ValidationError).
Proof.
  unfold validate_doctype, throw. split.
  - split.
    + destruct (pattern_match TABLE_NAME_PATTERN doctype) eqn:M; cbn [negb];
        [intros _|discriminate].
      apply ReSound.matches_sound in M.
      inversion M as [| |a b s1 s2 L1 L2| | | |]; subst.
      exists s1. split.
      * exact (ReSound.lang_alphabet _ _ L1).
      * destruct (lang_newline_opt _ L2) as [->| ->];
          [left; now rewrite ReFacts.append_empty_r|now right].
    + intros (name & A & D).
      assert (M : pattern_match TABLE_NAME_PATTERN doctype = true).
      { apply ReFacts.matches_complete. unfold TABLE_NAME_PATTERN, Re.anchored.
        destruct D as [->| ->].
        - rewrite <- (ReFacts.append_empty_r name).
          constructor; [now apply ReFacts.lang_star_class|apply ReFacts.lang_opt_empty].
        - constructor; [now apply ReFacts.lang_star_class|].
          apply Re.LAltL. constructor. apply Ascii.eqb_refl. }
      now rewrite M.
  - destruct (pattern_match TABLE_NAME_PATTERN doctype); cbn [negb]; auto.
Qed.

End ClauseFacts.

(** ** The steps of the filter compiler

    Every change [apply_filters] makes to the engine is a join of a
    dynamic field, the implicit join of a child entity or one more
    predicate; a relation that these steps respect holds between the
    engine before and after. *)

Section FilterSteps.
Context {site : Env}.
Variable R : Engine -> Engine -> Prop.
Hypothesis R_refl : forall self, R self self.
Hypothesis R_trans : forall a b c, R a b -> R b c -> R a c.
Hypothesis R_join :
  forall self d, R self (with_query self (apply_join d self.(self_query))).
Hypothesis R_implicit : forall self doctype, R self (implicit_join self doctype).
Hypothesis R_where :
  forall self c, R self (with_query self (where_ self.(self_query) c)).

Lemma prepare_steps (self self1 : Engine) (field _field : pyval)
    (doctype : option string) :
  _validate_and_prepare_filter_field self field doctype = Ok (self1, _field) ->
  R self self1.
Proof.
  unfold _validate_and_prepare_filter_field.
  destruct field; try (intros V; injection V as <- <-; apply R_refl).
  destruct (has_special_char s).
  - destruct (parse s (self_doctype self)) as [[d|]|e]; cbn; try discriminate.
    + intros V; injection V as <- <-. apply R_join.
    + destruct (negb _); [discriminate|].
      intros V; injection V as <- <-. apply R_refl.
  - intros V; injection V as <- <-. apply R_refl.
Qed.

Lemma apply_filter_steps (self self' : Engine) (field value : pyval)
    (operator : string) (doctype : option string) :
  _apply_filter self field value operator doctype = Ok self' -> R self self'.
Proof.
  unfold _apply_filter.
  destruct (_validate_and_prepare_filter_field self field doctype)
    as [[self1 _field]|e] eqn:V; [|discriminate].
  cbv beta iota delta [bind].
  pose proof (prepare_steps _ _ _ _ _ V) as S1.
  pose proof (R_implicit self1 doctype) as S2.
  set (self2 := implicit_join self1 doctype) in *.
  assert (K : forall c s',
             Ok (with_query self2 (where_ (self_query self2) c)) = Ok s' ->
             R self s').
  { intros c s' X. injection X as <-. apply (R_trans _ self1); [exact S1|].
    apply (R_trans _ self2); [exact S2|apply R_where]. }
  destruct (Py.in_list operator NESTED_SET_OPERATORS).
  - destruct (original_field_name field _field) as [name|e]; [|discriminate].
    destruct (operator_fn (hierarchy_key operator)) as [fn|e]; [|discriminate].
    apply K.
  - destruct (operator_fn (Py.casefold operator)) as [fn|e]; [|discriminate].
    destruct (normalize_value value), _field; apply K.
Qed.

Lemma apply_dict_filters_steps (filters : list (pyval * pyval)) (self self' : Engine) :
  apply_dict_filters self filters = Ok self' -> R self self'.
Proof.
  revert self. induction filters as [|[field value] rest IH]; intros self A.
  - injection A as <-. apply R_refl.
  - cbn [apply_dict_filters] in A.
    match type of A with
    | bind ?m _ = _ => destruct m as [self1|e] eqn:Q; [|discriminate]
    end.
    cbv beta iota delta [bind] in A.
    apply (R_trans _ self1); [|now apply IH].
    destruct value;
      try (exact (apply_filter_steps _ _ _ _ _ _ Q));
      (destruct l as [|operator [|v [|x l]]]; try discriminate;
       apply apply_filter_with_ok in Q as (op & _ & Q);
       exact (apply_filter_steps _ _ _ _ _ _ Q)).
Qed.

Lemma apply_list_filters_steps (filter : list pyval) (self self' : Engine) :
  apply_list_filters self filter = Ok self' -> R self self'.
Proof.
  unfold apply_list_filters.
  destruct filter as [|x1 [|x2 [|x3 [|x4 [|x5 l]]]]]; try discriminate.
  - apply apply_filter_steps.
  - intros A. apply apply_filter_with_ok in A as (op & _ & A).
    exact (apply_filter_steps _ _ _ _ _ _ A).
  - destruct (as_doctype x1) as [d|];
      [|intros A; now apply apply_filter_without_entity_err in A].
    intros A. apply apply_filter_with_ok in A as (op & _ & A).
    exact (apply_filter_steps _ _ _ _ _ _ A).
Qed.

Lemma apply_filters_item_steps (filters : pyval) (self self' : Engine) :
  apply_filters_item self filters = Ok self' -> R self self'.
Proof.
  unfold apply_filters_item.
  assert (K : (if is_filter_value filters
               then apply_dict_filters self [(PStr "name", convert_to_value filters)]
               else if is_criterion filters
               then Ok (with_query self (where_ (self_query self) (CTerm filters)))
               else match filters with
                    | PDict d => apply_dict_filters self d
                    | _ => Err ValueError
                    end) = Ok self' -> R self self').
  { destruct (is_filter_value filters); [apply apply_dict_filters_steps|].
    destruct (is_criterion filters).
    - intros X; injection X as <-. exact (R_where self (CTerm filters)).
    - destruct filters; try discriminate. apply apply_dict_filters_steps. }
  destruct filters; try exact K. intros X; injection X as <-. apply R_refl.
Qed.

Lemma apply_filters_each_steps (filters : list pyval) (self self' : Engine) :
  apply_filters_each self filters = Ok self' -> R self self'.
Proof.
  revert self. induction filters as [|f rest IH]; intros self A.
  - injection A as <-. apply R_refl.
  - cbn [apply_filters_each] in A.
    match type of A with
    | bind ?m _ = _ => destruct m as [self1|e] eqn:Q; [|discriminate]
    end.
    cbv beta iota delta [bind] in A.
    apply (R_trans _ self1); [|now apply IH].
    destruct (is_filter_value f || is_criterion f
              || match f with PDict _ => true | _ => false end).
    + exact (apply_filters_item_steps _ _ _ Q).
    + destruct f; try discriminate; exact (apply_list_filters_steps _ _ _ Q).
Qed.

Lemma apply_filters_steps (filters : pyval) (self self' : Engine) :
  apply_filters self filters = Ok self' -> R self self'.
Proof.
  unfold apply_filters.
  assert (K : (if is_filter_value filters || is_criterion filters
                  || match filters with PDict _ => true | _ => false end
               then apply_filters_item self filters
               else match filters with
                    | PList l | PTuple l =>
                        if forallb is_filter_value l && (0 <? List.length l)
                        then apply_dict_filters self
                               [(PStr "name",
                                 PTuple [PStr "in"; PTuple (map convert_to_value l)])]
                        else apply_filters_each self l
                    | _ => Err ValueError
                    end) = Ok self' -> R self self').
  { destruct (_ || _); [apply apply_filters_item_steps|].
    destruct filters; try discriminate;
      (destruct (_ && _);
       [apply apply_dict_filters_steps|apply apply_filters_each_steps]). }
  destruct filters; try exact K. intros X; injection X as <-. apply R_refl.
Qed.

End FilterSteps.

(** ** Invariants of a build *)

Section BuildInvariants.
Context {site : Env}.

(** the invariant speaks of the joins, the table and the mode only *)
Lemma joins_unique_ext (q q' : Query) :
  q_joins q' = q_joins q -> q_table q' = q_table q -> q_mode q' = q_mode q ->
  joins_unique q -> joins_unique q'.
Proof.
  destruct q, q'; cbn. intros -> -> -> U. exact U.
Qed.

Lemma where_joins_unique (q : Query) (c : criterion) :
  joins_unique q -> joins_unique (where_ q c).
Proof. intros U. destruct c; exact U. Qed.

Lemma implicit_join_unique (self : Engine) (doctype : option string) :
  joins_unique self.(self_query) ->
  joins_unique (implicit_join self doctype).(self_query).
Proof.
  intros U. unfold implicit_join. destruct doctype as [d|]; [|exact U].
  destruct (_ && _); [|exact U].
  destruct (istable d); cbn [andb]; [|exact U].
  destruct (is_joined (self_query self) (DocType d)) eqn:J; cbn [negb]; [exact U|].
  cbn. now apply joins_unique_left_join.
Qed.

(** filters keep the invariant that no table but the query's own is
    joined twice *)
Lemma apply_filters_unique (self self' : Engine) (filters : pyval) :
  apply_filters self filters = Ok self' ->
  joins_unique self.(self_query) -> joins_unique self'.(self_query).
Proof.
  apply (apply_filters_steps
           (fun a b => joins_unique a.(self_query) -> joins_unique b.(self_query))).
  - auto.
  - auto.
  - intros s d U. cbn. now apply joins_unique_apply_join.
  - intros s d. apply implicit_join_unique.
  - intros s c U. cbn. now apply where_joins_unique.
Qed.

Lemma apply_join_frame (self : Engine) (d : DynamicTableField) :
  filter_frame (with_query self (apply_join d self.(self_query))) = filter_frame self.
Proof.
  rewrite apply_join_cases. destruct (is_joined _ _); reflexivity.
Qed.

Lemma implicit_join_frame (self : Engine) (doctype : option string) :
  filter_frame (implicit_join self doctype) = filter_frame self.
Proof.
  unfold implicit_join. destruct doctype as [d|]; [|reflexivity].
  destruct (_ && _); [|reflexivity].
  destruct (_ && _); reflexivity.
Qed.

Lemma where_frame (self : Engine) (c : criterion) :
  filter_frame (with_query self (where_ self.(self_query) c)) = filter_frame self.
Proof. destruct c; reflexivity. Qed.

(** filters touch nothing but the joins and the predicates *)
Lemma apply_filters_frame (self self' : Engine) (filters : pyval) :
  apply_filters self filters = Ok self' -> filter_frame self' = filter_frame self.
Proof.
  apply (apply_filters_steps (fun a b => filter_frame b = filter_frame a)).
  - reflexivity.
  - intros a b c -> ->. reflexivity.
  - intros s d. apply apply_join_frame.
  - intros s d. apply implicit_join_frame.
  - intros s c. apply where_frame.
Qed.

Lemma where_appends_some (q : Query) (c : criterion) :
  exists l, (where_ q c).(q_wheres) = q.(q_wheres) ++ l /\ List.length l <= 1.
Proof.
  destruct c; try (eexists [_]; split; [reflexivity|cbn; lia]).
  exists []. split; [now rewrite app_nil_r|cbn; lia].
Qed.

Lemma apply_filter_one_predicate (self self' : Engine) (field value : pyval)
    (operator : string) (doctype : option string) :
  _apply_filter self field value operator doctype = Ok self' ->
  exists c, self'.(self_query).(q_wheres) = self.(self_query).(q_wheres) ++ [c].
Proof.
  unfold _apply_filter.
  destruct (_validate_and_prepare_filter_field self field doctype)
    as [[self1 _field]|e] eqn:V; [|discriminate].
  cbv beta iota delta [bind].
  destruct (prepare_keeps _ _ _ _ _ V) as (_ & _ & W1 & _).
  destruct (implicit_join_keeps self1 doctype) as (_ & W2).
  set (self2 := implicit_join self1 doctype) in *.
  assert (K : forall c s', c <> CEmpty ->
             Ok (with_query self2 (where_ (self_query self2) c)) = Ok s' ->
             exists c, s'.(self_query).(q_wheres)
                       = self.(self_query).(q_wheres) ++ [c]).
  { intros c s' N X. injection X as <-. exists c. cbn.
    now rewrite (where_appends _ _ N), W2, W1. }
  destruct (Py.in_list operator NESTED_SET_OPERATORS).
  - destruct (original_field_name field _field) as [name|e]; [|discriminate].
    destruct (operator_fn (hierarchy_key operator)) as [fn|e]; [|discriminate].
    apply K. discriminate.
  - destruct (operator_fn (Py.casefold operator)) as [fn|e]; [|discriminate].
    destruct (normalize_value value), _field; apply K; discriminate.
Qed.

Lemma apply_dict_filters_count (filters : list (pyval * pyval)) (self self' : Engine) :
  apply_dict_filters self filters = Ok self' ->
  exists l, self'.(self_query).(q_wheres) = self.(self_query).(q_wheres) ++ l
            /\ List.length l = List.length filters.
Proof.
  revert self. induction filters as [|[field value] rest IH]; intros self A.
  - injection A as <-. exists []. split; [now rewrite app_nil_r|reflexivity].
  - cbn [apply_dict_filters] in A.
    match type of A with
    | bind ?m _ = _ => destruct m as [self1|e] eqn:Q; [|discriminate]
    end.
    cbv beta iota delta [bind] in A.
    destruct (IH _ A) as (l & W & L).
    assert (O : exists c, self1.(self_query).(q_wheres)
                          = self.(self_query).(q_wheres) ++ [c]).
    { destruct value;
        try (exact (apply_filter_one_predicate _ _ _ _ _ _ Q));
        (destruct l0 as [|operator [|v [|x l0]]]; try discriminate;
         apply apply_filter_with_ok in Q as (op & _ & Q);
         exact (apply_filter_one_predicate _ _ _ _ _ _ Q)). }
    destruct O as (c & W1). exists (c :: l). split.
    + rewrite W, W1, <- app_assoc. reflexivity.
    + cbn. now rewrite L.
Qed.

Lemma apply_filters_appends (self self' : Engine) (filters : pyval) :
  apply_filters self filters = Ok self' ->
  exists l, self'.(self_query).(q_wheres) = self.(self_query).(q_wheres) ++ l.
Proof.
  apply (apply_filters_steps
           (fun a b => exists l, b.(self_query).(q_wheres)
                                 = a.(self_query).(q_wheres) ++ l)).
  - intros s. exists []. now rewrite app_nil_r.
  - intros a b c (l1 & ->) (l2 & ->). exists (l1 ++ l2). now rewrite app_assoc.
  - intros s d. exists []. rewrite app_nil_r. cbn.
    rewrite apply_join_cases. destruct (is_joined _ _); reflexivity.
  - intros s d. exists []. rewrite app_nil_r.
    exact (proj2 (implicit_join_keeps s d)).
  - intros s c. cbn. destruct (where_appends_some (self_query s) c) as (l & W & _).
    now exists l.
Qed.

(** X4. Compiling a mapping of filters adds exactly one predicate for
    each of its keys, after the predicates the query already had;
    whatever the shape of the filters, compiling
    them only appends predicates (no predicate is dropped or moved),
    leaves the selected fields, the clause options and the child queries
    alone, and never joins a second time a table that is not the one the
    query is built on. (A link of the entity to itself is joined at each
    filter that goes through it: the builder aliases that join, and
    [is_joined] does not see it.) *)
Theorem filters_only_append (self self' : Engine) (filters : pyval) :
  apply_filters self filters = Ok self' ->
  (exists l, self'.(self_query).(q_wheres) = self.(self_query).(q_wheres) ++ l)
  /\ filter_frame self' = filter_frame self
  /\ (joins_unique self.(self_query) -> joins_unique self'.(self_query))
  /\ forall d,
       filters = PDict d -> is_filter_value filters = false ->
       List.length self'.(self_query).(q_wheres)
       = List.length self.(self_query).(q_wheres) + List.length d.
Proof.
  intros A. split; [|split; [|split]].
  - exact (apply_filters_appends _ _ _ A).
  - exact (apply_filters_frame _ _ _ A).
  - exact (apply_filters_unique _ _ _ A).
  - intros d -> F. unfold apply_filters, apply_filters_item in A.
    rewrite F in A. cbn in A.
    destruct (apply_dict_filters_count _ _ _ A) as (l & W & L).
    now rewrite W, length_app, L.
Qed.

Lemma select_field_keeps (q : Query) (f : field_item) :
  clauses_of (select_field q f) = clauses_of q
  /\ (select_field q f).(q_wheres) = q.(q_wheres)
  /\ (joins_unique q -> joins_unique (select_field q f)).
Proof.
  destruct f as [t|d|c].
  - split; [reflexivity|split; [reflexivity|]]. intros U.
    now apply (joins_unique_ext q (select q t)).
  - unfold select_field, apply_select. split; [|split].
    + rewrite apply_join_cases. now destruct (is_joined q (dyn_table d)).
    + rewrite apply_join_cases. now destruct (is_joined q (dyn_table d)).
    + intros U.
      apply (joins_unique_ext (apply_join d q)); try reflexivity.
      now apply joins_unique_apply_join.
  - split; [reflexivity|split; [reflexivity|]]. intros U.
    now apply (joins_unique_ext q (set_child_queries q _)).
Qed.

Lemma fold_select_field_keeps (l : list field_item) (q : Query) :
  clauses_of (fold_left select_field l q) = clauses_of q
  /\ (fold_left select_field l q).(q_wheres) = q.(q_wheres)
  /\ (joins_unique q -> joins_unique (fold_left select_field l q)).
Proof.
  revert q. induction l as [|f l IH]; intros q; [auto|].
  cbn [fold_left]. destruct (IH (select_field q f)) as (C & W & U).
  destruct (select_field_keeps q f) as (C1 & W1 & U1).
  rewrite C, W, C1, W1. auto.
Qed.

(** applying the fields touches the select list, the joins and the child
    queries only *)
Lemma apply_fields_keeps (self self' : Engine) (fields : pyval) :
  apply_fields self fields = Ok self' ->
  config_of self' = config_of self
  /\ clauses_of self'.(self_query) = clauses_of self.(self_query)
  /\ self'.(self_query).(q_wheres) = self.(self_query).(q_wheres)
  /\ (joins_unique self.(self_query) -> joins_unique self'.(self_query)).
Proof.
  unfold apply_fields.
  destruct (parse_fields self fields) as [parsed|e]; [|discriminate].
  cbv beta iota delta [bind]. cbn [self_apply_permissions with_fields].
  assert (K : forall l s',
             Ok (with_query (with_fields self l)
                   (fold_left select_field l
                      (set_child_queries (self_query self) []))) = Ok s' ->
             config_of s' = config_of self
             /\ clauses_of (self_query s') = clauses_of (self_query self)
             /\ q_wheres (self_query s') = q_wheres (self_query self)
             /\ (joins_unique (self_query self) -> joins_unique (self_query s'))).
  { intros l s' X. injection X as <-. cbn.
    destruct (fold_select_field_keeps l (set_child_queries (self_query self) []))
      as (C & W & U).
    rewrite C, W. split; [reflexivity|]. split; [reflexivity|].
    split; [reflexivity|]. intros J. apply U.
    now apply (joins_unique_ext (self_query self)). }
  destruct (self_apply_permissions self).
  - destruct (apply_field_permissions _) as [allowed|e]; [|discriminate].
    cbn. destruct allowed; apply K.
  - cbn. destruct parsed; apply K.
Qed.

Lemma finish_query_stages (a : Args) (self : Engine) :
  finish_query a self = finish_query_staged a self.
Proof.
  unfold finish_query, finish_query_staged, apply_clauses, tell, lift, mret.
  cbn [mbind].
  destruct (apply_filters self (a_filters a)) as [s1|e]; [|reflexivity]. cbn [mbind].
  destruct (apply_order_by s1 (a_order_by a)) as [s2|e]; [|reflexivity]. cbn [mbind app].
  destruct (truthy (a_limit a));
    [destruct (non_negative_int (a_limit a)) as [n|e]; [|reflexivity]|];
    cbn [mbind bind app];
    (destruct (truthy (a_offset a));
     [destruct (non_negative_int (a_offset a)) as [m|e]; [|reflexivity]|]);
    cbn [mbind bind app];
    (destruct (truthy (a_group_by a));
     [destruct (_validate_group_by (a_group_by a)) as [g|e]; [|reflexivity]|]);
    cbn [mbind bind app];
    match goal with
    | |- context [self_apply_permissions ?s] =>
        destruct (self_apply_permissions s)
    end; cbn [mbind bind app];
    try reflexivity;
    match goal with
    | |- context [add_permission_conditions ?s] =>
        destruct (add_permission_conditions s)
    end; reflexivity.
Qed.

Lemma fold_order_keeps (l : list string) (q : Query) :
  but_orderbys (fold_left order_declaration l q) = but_orderbys q
  /\ exists more, (fold_left order_declaration l q).(q_orderbys)
                  = q.(q_orderbys) ++ more.
Proof.
  revert q. induction l as [|d l IH]; intros q.
  - split; [reflexivity|]. exists []. now rewrite app_nil_r.
  - cbn [fold_left]. destruct (IH (order_declaration q d)) as (B & more & O).
    rewrite B, O. unfold order_declaration.
    destruct (nonempty _); [|split; [reflexivity|now exists more]].
    destruct (Py.split " " _) as [|f rest]; [split; [reflexivity|now exists more]|].
    split; [reflexivity|]. cbn. eexists. now rewrite <- app_assoc.
Qed.

Lemma apply_order_by_keeps (self self' : Engine) (order_by : pyval) :
  apply_order_by self order_by = Ok self' ->
  config_of self' = config_of self
  /\ but_orderbys self'.(self_query) = but_orderbys self.(self_query).
Proof.
  unfold apply_order_by. destruct (_ || _).
  - intros X; injection X as <-. auto.
  - destruct (_validate_order_by order_by) as [s|e]; [|discriminate].
    intros X; injection X as <-. split; [reflexivity|].
    exact (proj1 (fold_order_keeps _ _)).
Qed.

Lemma non_negative_int_bound (v : pyval) (n : Z) :
  non_negative_int v = Ok n -> (0 <= n)%Z.
Proof.
  destruct v; try discriminate; cbn.
  - destruct b; intros X; injection X as <-; lia.
  - destruct (z <? 0)%Z eqn:L; [discriminate|].
    intros X; injection X as <-. lia.
Qed.

(** what the clause stage sets, and what it keeps *)
Lemma apply_clauses_post (a : Args) (self self' : Engine) :
  apply_clauses a self = Ok self' ->
  config_of self' = config_of self
  /\ but_clauses self'.(self_query) = but_clauses self.(self_query)
  /\ (if truthy a.(a_limit)
      then exists n, non_negative_int a.(a_limit) = Ok n
                     /\ self'.(self_query).(q_limit) = Some n
      else self'.(self_query).(q_limit) = self.(self_query).(q_limit))
  /\ (if truthy a.(a_offset)
      then exists n, non_negative_int a.(a_offset) = Ok n
                     /\ self'.(self_query).(q_offset) = Some n
      else self'.(self_query).(q_offset) = self.(self_query).(q_offset))
  /\ self'.(self_query).(q_distinct)
     = (if a.(a_distinct) then true else self.(self_query).(q_distinct))
  /\ self'.(self_query).(q_for_update)
     = (if a.(a_for_update) then Some (a.(a_skip_locked), negb a.(a_wait))
        else self.(self_query).(q_for_update))
  /\ (if truthy a.(a_group_by)
      then exists g, a.(a_group_by) = PStr g
                     /\ self'.(self_query).(q_groupbys)
                        = self.(self_query).(q_groupbys) ++ [g]
      else self'.(self_query).(q_groupbys) = self.(self_query).(q_groupbys)).
Proof.
  unfold apply_clauses.
  destruct (truthy (a_limit a));
    [destruct (non_negative_int (a_limit a)) as [n|e]; [|discriminate]|];
    cbv beta iota delta [bind];
    (destruct (truthy (a_offset a));
     [destruct (non_negative_int (a_offset a)) as [m|e]; [|discriminate]|]);
    cbv beta iota delta [bind];
    (destruct (truthy (a_group_by a));
     [pose proof (group_by_lets_clause_fields_only_aux (a_group_by a)) as G;
      destruct (_validate_group_by (a_group_by a)) as [g|e]; [|discriminate]|]);
    destruct (a_distinct a), (a_for_update a);
    intros X; injection X as <-; cbn;
    repeat split; eauto.
Qed.

Lemma add_permission_conditions_post (self self' : Engine) :
  add_permission_conditions self = Ok self' ->
  config_of self' = config_of self
  /\ but_wheres self'.(self_query) = but_wheres self.(self_query)
  /\ exists l, self'.(self_query).(q_wheres) = self.(self_query).(q_wheres) ++ l
               /\ List.length l <= 1.
Proof.
  unfold add_permission_conditions.
  destruct (row_conditions self) as [[conditions fetch]|e]; [|discriminate].
  cbv beta iota delta [bind].
  assert (K : forall c s',
             Ok (with_query self (where_ (self_query self) c)) = Ok s' ->
             config_of s' = config_of self
             /\ but_wheres (self_query s') = but_wheres (self_query self)
             /\ exists l, q_wheres (self_query s') = q_wheres (self_query self) ++ l
                          /\ List.length l <= 1).
  { intros c s' X. injection X as <-. split; [reflexivity|]. split.
    - destruct c; reflexivity.
    - apply where_appends_some. }
  destruct (if fetch then _ else _) as [|d ds], conditions as [|c cs];
    try apply K.
  intros X; injection X as <-. repeat split.
  exists []. split; [now rewrite app_nil_r|cbn; lia].
Qed.

(** what the phases after the fields set, and what they keep *)
Lemma finish_query_post (a : Args) (self : Engine) (t : list event) (q : Query) :
  finish_query a self = (t, Ok q) ->
  q.(q_immutable) = true
  /\ shape_of q = shape_of self.(self_query)
  /\ (joins_unique self.(self_query) -> joins_unique q)
  /\ (exists l, q.(q_wheres) = self.(self_query).(q_wheres) ++ l)
  /\ (if truthy a.(a_limit)
      then exists n, non_negative_int a.(a_limit) = Ok n /\ q.(q_limit) = Some n
      else q.(q_limit) = self.(self_query).(q_limit))
  /\ (if truthy a.(a_offset)
      then exists n, non_negative_int a.(a_offset) = Ok n /\ q.(q_offset) = Some n
      else q.(q_offset) = self.(self_query).(q_offset))
  /\ q.(q_distinct)
     = (if a.(a_distinct) then true else self.(self_query).(q_distinct))
  /\ q.(q_for_update)
     = (if a.(a_for_update) then Some (a.(a_skip_locked), negb a.(a_wait))
        else self.(self_query).(q_for_update))
  /\ (if truthy a.(a_group_by)
      then exists g, a.(a_group_by) = PStr g
                     /\ q.(q_groupbys) = self.(self_query).(q_groupbys) ++ [g]
      else q.(q_groupbys) = self.(self_query).(q_groupbys))
  /\ t = [EvApplyFilters; EvApplyOrderBy; EvClauses]
         ++ (if self.(self_apply_permissions) then [EvRowPermissions] else []).
Proof.
  rewrite finish_query_stages. unfold finish_query_staged.
  destruct (apply_filters self (a_filters a)) as [s1|e] eqn:F; [|discriminate].
  destruct (apply_order_by s1 (a_order_by a)) as [s2|e] eqn:O; [|discriminate].
  destruct (apply_clauses a s2) as [s3|e] eqn:C; [|discriminate].
  pose proof (apply_filters_frame _ _ _ F) as FF.
  pose proof (apply_filters_unique _ _ _ F) as FU.
  destruct (apply_filters_appends _ _ _ F) as (l1 & FW).
  destruct (apply_order_by_keeps _ _ _ O) as (OC & OB).
  destruct (apply_clauses_post _ _ _ C) as (CC & CB & CL & CO & CD & CF & CG).
  unfold filter_frame, clauses_of, config_of, but_orderbys, but_clauses, shape_of
    in FF, OC, OB, CC, CB.
  injection FF as F1 F2 F3 F4 F5 F6 F7 F8 F9 F10 F11 F12 F13 F14 F15 F16 F17 F18.
  injection OC as O1 O2 O3 O4 O5 O6.
  injection OB as B1 B2 B3 B4 B5 B6 B7 B8 B9 B10 B11 B12.
  injection CC as K1 K2 K3 K4 K5 K6.
  injection CB as D1 D2 D3 D4 D5 D6 D7 D8.
  assert (U3 : joins_unique (self_query self) -> joins_unique (self_query s3)).
  { intros U. apply (joins_unique_ext (self_query s1));
      [congruence|congruence|congruence|exact (FU U)]. }
  assert (Q : forall (s4 : Engine) (l2 : list criterion),
             but_wheres (self_query s4) = but_wheres (self_query s3) ->
             q_wheres (self_query s4) = q_wheres (self_query s3) ++ l2 ->
             forall t' q',
               (t', Ok (set_immutable (self_query s4) true)) = (t, Ok q) ->
               t' = [EvApplyFilters; EvApplyOrderBy; EvClauses]
                    ++ (if self_apply_permissions self then [EvRowPermissions] else []) ->
               q' = q ->
               q_immutable q = true
               /\ shape_of q = shape_of (self_query self)
               /\ (joins_unique (self_query self) -> joins_unique q)
               /\ (exists l, q_wheres q = q_wheres (self_query self) ++ l)
               /\ (if truthy (a_limit a)
                   then exists n, non_negative_int (a_limit a) = Ok n
                                  /\ q_limit q = Some n
                   else q_limit q = q_limit (self_query self))
               /\ (if truthy (a_offset a)
                   then exists n, non_negative_int (a_offset a) = Ok n
                                  /\ q_offset q = Some n
                   else q_offset q = q_offset (self_query self))
               /\ q_distinct q
                  = (if a_distinct a then true else q_distinct (self_query self))
               /\ q_for_update q
                  = (if a_for_update a
                     then Some (a_skip_locked a, negb (a_wait a))
                     else q_for_update (self_query self))
               /\ (if truthy (a_group_by a)
                   then exists g, a_group_by a = PStr g
                                  /\ q_groupbys q
                                     = q_groupbys (self_query self) ++ [g]
                   else q_groupbys q = q_groupbys (self_query self))
               /\ t = [EvApplyFilters; EvApplyOrderBy; EvClauses]
                      ++ (if self_apply_permissions self
                          then [EvRowPermissions] else [])).
  { intros s4 l2 PB PW t' q' X T _.
    unfold but_wheres, shape_of in PB.
    injection PB as P1 P2 P3 P4 P5 P6 P7 P8 P9 P10 P11 P12.
    injection X as <- <-. cbn.
    split; [reflexivity|]. split; [unfold shape_of; cbn; congruence|].
    split; [intros U; apply (joins_unique_ext (self_query s3));
            [cbn; congruence|cbn; congruence|cbn; congruence|exact (U3 U)]|].
    split; [exists (l1 ++ l2); rewrite PW, D6, B6, FW, app_assoc; reflexivity|].
    split; [destruct (truthy (a_limit a));
            [destruct CL as (n & N1 & N2); exists n; split; congruence|congruence]|].
    split; [destruct (truthy (a_offset a));
            [destruct CO as (n & N1 & N2); exists n; split; congruence|congruence]|].
    split; [destruct (a_distinct a); congruence|].
    split; [destruct (a_for_update a); congruence|].
    split; [destruct (truthy (a_group_by a));
            [destruct CG as (g & N1 & N2); exists g; split; congruence|congruence]|].
    exact T. }
  assert (AP : self_apply_permissions s3 = self_apply_permissions self)
    by congruence.
  rewrite AP. destruct (self_apply_permissions self).
  - destruct (add_permission_conditions s3) as [s4|e] eqn:P; [|discriminate].
    destruct (add_permission_conditions_post _ _ P) as (_ & PB & l2 & PW & _).
    intros X. exact (Q s4 l2 PB PW _ q X eq_refl eq_refl).
  - intros X. refine (Q s3 [] eq_refl _ _ q X eq_refl eq_refl).
    now rewrite app_nil_r.
Qed.

Lemma mbind_ok {A B : Type} (m : M A) (k : A -> M B) (t : list event) (b : B) :
  mbind m k = (t, Ok b) ->
  exists t0 x t1, m = (t0, Ok x) /\ k x = (t1, Ok b) /\ t = t0 ++ t1.
Proof.
  destruct m as [t0 [x|e]]; cbn; [|discriminate].
  destruct (k x) as [t1 r] eqn:K. intros X. injection X as <- ->.
  now exists t0, x, t1.
Qed.

(** a successful build went through the engine that the fields left *)
Lemma get_query_inv (a : Args) (t : list event) (q : Query) :
  get_query a = (t, Ok q) ->
  exists self t1,
    engine_before_filters a self
    /\ finish_query a self = (t1, Ok q)
    /\ t = (if a.(a_ignore_permissions) then []
            else fst (check_read_permission (doctype_of a)
                        (match or_none a.(a_user) with
                         | Some u => u | None => session_user end)
                        a.(a_parent_doctype)))
           ++ (match mode_of a with SelectFrom => [EvParseFields] | _ => [] end)
           ++ t1.
Proof.
  unfold get_query. intros X.
  apply mbind_ok in X as (t0 & [doctype table] & t1 & X0 & X1 & ->).
  assert (N : doctype = doctype_of a /\ table = table_of a /\ t0 = []).
  { unfold doctype_of, table_of. destruct (a_table a) as [tb|d].
    - injection X0 as <- <- <-. auto.
    - destruct (validate_doctype d) as [[]|e]; [|discriminate].
      injection X0 as <- <- <-. auto. }
  destruct N as (-> & -> & ->).
  apply mbind_ok in X1 as (tp & [] & t2 & P & X2 & ->).
  apply mbind_ok in X2 as (tf & self & t3 & Fd & X3 & ->).
  exists self, t3. split; [|split; [exact X3|]].
  - unfold engine_before_filters, mode_of.
    destruct (a_update a); [now injection Fd as <- <-|].
    destruct (a_into a); [now injection Fd as <- <-|].
    destruct (a_delete a); [now injection Fd as <- <-|].
    cbn in Fd. destruct (apply_fields _ _) as [s|e]; [|discriminate].
    now injection Fd as <- <-.
  - cbn [app]. f_equal; [|f_equal].
    + destruct (a_ignore_permissions a); cbn [negb] in P.
      * now injection P as <-.
      * now rewrite P.
    + unfold mode_of.
      destruct (a_update a); [now injection Fd as <- <-|].
      destruct (a_into a); [now injection Fd as <- <-|].
      destruct (a_delete a); [now injection Fd as <- <-|].
      cbn in Fd. destruct (apply_fields _ _) as [s|e]; [|discriminate].
      now injection Fd as <- <-.
Qed.

Lemma new_engine_query (a : Args) (doctype : string) (table : Table) (m : query_mode) :
  (new_engine a doctype table m).(self_query) = from_ table m.
Proof. reflexivity. Qed.

(** the engine that the fields leave: its table and mode are those of
    the call, it has no predicate, no ordering and no clause option yet,
    and no table but its own is joined twice *)
Lemma engine_before_filters_post (a : Args) (self : Engine) :
  engine_before_filters a self ->
  clauses_of self.(self_query) = clauses_of (from_ (table_of a) (mode_of a))
  /\ self.(self_query).(q_wheres) = []
  /\ joins_unique self.(self_query)
  /\ self.(self_apply_permissions) = negb a.(a_ignore_permissions)
  /\ (mode_of a <> SelectFrom ->
      self.(self_query).(q_selects) = [] /\ self.(self_query).(q_child_queries) = []).
Proof.
  unfold engine_before_filters.
  destruct (mode_of a) eqn:Mo.
  - intros A. destruct (apply_fields_keeps _ _ _ A) as (Cf & Cl & W & U).
    unfold config_of in Cf. injection Cf as _ _ _ _ Ap _.
    rewrite Cl, W, Ap. split; [reflexivity|]. split; [reflexivity|].
    split; [apply U, joins_unique_from|]. split; [reflexivity|].
    intros N. now elim N.
  - intros ->. split; [reflexivity|]. split; [reflexivity|].
    split; [apply joins_unique_from|]. split; [reflexivity|]. now split.
  - intros ->. split; [reflexivity|]. split; [reflexivity|].
    split; [apply joins_unique_from|]. split; [reflexivity|]. now split.
  - intros ->. split; [reflexivity|]. split; [reflexivity|].
    split; [apply joins_unique_from|]. split; [reflexivity|]. now split.
Qed.

(** X5. A query that [get_query] returns is frozen, is built on the
    table and in the mode the call names, has at most one join clause for
    each table other than the one it is built on (its own table it may
    join more than once, each time under the alias the builder gives),
    and carries the clause options of the call: distinct and row locking
    as asked, and the group-by text when one was given. *)
Theorem built_query_carries_the_call (a : Args) (t : list event) (q : Query) :
  get_query a = (t, Ok q) ->
  q.(q_immutable) = true
  /\ q.(q_table) = table_of a
  /\ q.(q_mode) = mode_of a
  /\ joins_unique q
  /\ q.(q_distinct) = a.(a_distinct)
  /\ q.(q_for_update)
     = (if a.(a_for_update) then Some (a.(a_skip_locked), negb a.(a_wait)) else None)
  /\ q.(q_groupbys)
     = match a.(a_group_by) with
       | PStr g => if truthy (PStr g) then [g] else []
       | _ => []
       end.
Proof.
  intros G. destruct (get_query_inv _ _ _ G) as (self & t1 & B & Fq & _).
  destruct (engine_before_filters_post _ _ B) as (Cl & _ & U & _).
  destruct (finish_query_post _ _ _ _ Fq)
    as (Im & Sh & Ju & _ & _ & _ & Di & Fu & Gr & _).
  unfold clauses_of in Cl. injection Cl as C1 C2 C3 C4 C5 C6 C7 C8 C9.
  unfold shape_of in Sh. injection Sh as S1 S2 S3 S4.
  split; [exact Im|]. split; [congruence|]. split; [congruence|].
  split; [exact (Ju U)|].
  split; [rewrite Di, C7; cbn; now destruct (a_distinct a)|].
  split; [rewrite Fu, C8; reflexivity|].
  destruct (truthy (a_group_by a)) eqn:T.
  - destruct Gr as (g & Eg & ->). rewrite Eg in *. rewrite T, C4. reflexivity.
  - rewrite Gr, C4. destruct (a_group_by a); try reflexivity. now rewrite T.
Qed.

(** X6. The limit and the offset of a query that [get_query] returns
    are each either unset or a positive integer, the one the call gave:
    a limit or offset of zero, like [None], sets no clause at all, and
    no negative number or value of another type gets through. *)
Theorem limit_and_offset_positive_or_unset (a : Args) (t : list event) (q : Query) :
  get_query a = (t, Ok q) ->
  match q.(q_limit) with
  | Some n => (0 < n)%Z /\ (a.(a_limit) = PInt n \/ (a.(a_limit) = PBool true /\ n = 1%Z))
  | None => truthy a.(a_limit) = false
  end
  /\ match q.(q_offset) with
     | Some n =>
         (0 < n)%Z /\ (a.(a_offset) = PInt n \/ (a.(a_offset) = PBool true /\ n = 1%Z))
     | None => truthy a.(a_offset) = false
     end.
Proof.
  intros G. destruct (get_query_inv _ _ _ G) as (self & t1 & B & Fq & _).
  destruct (engine_before_filters_post _ _ B) as (Cl & _).
  destruct (finish_query_post _ _ _ _ Fq) as (_ & _ & _ & _ & Li & Of & _).
  unfold clauses_of in Cl. injection Cl as C1 C2 C3 C4 C5 C6 C7 C8 C9.
  assert (K : forall (v : pyval) (n : Z),
             truthy v = true -> non_negative_int v = Ok n ->
             (0 < n)%Z /\ (v = PInt n \/ (v = PBool true /\ n = 1%Z))).
  { intros v n T N. destruct v; try discriminate; cbn in T, N.
    - subst b. injection N as <-. split; [lia|auto].
    - destruct (z <? 0)%Z eqn:L; [discriminate|]. injection N as <-.
      apply Z.ltb_ge in L. apply negb_true_iff, Z.eqb_neq in T.
      split; [lia|auto]. }
  split.
  - destruct (truthy (a_limit a)) eqn:T.
    + destruct Li as (n & N & ->). exact (K _ _ T N).
    + rewrite Li, C5. reflexivity.
  - destruct (truthy (a_offset a)) eqn:T.
    + destruct Of as (n & N & ->). exact (K _ _ T N).
    + rewrite Of, C6. reflexivity.
Qed.

(** X7. In the update, insert and delete modes [get_query] never looks
    at the [fields] argument: whatever is passed there, the outcome and
    the trace are the same, no field is selected, no child query is
    collected and [apply_fields] is not entered. *)
Theorem write_modes_ignore_fields (a : Args) (fields : pyval) :
  mode_of a <> SelectFrom ->
  get_query (with_fields_arg a fields) = get_query a
  /\ forall t q, get_query a = (t, Ok q) ->
       q.(q_selects) = [] /\ q.(q_child_queries) = [] /\ ~ In EvParseFields t.
Proof.
  intros Mo. split.
  - unfold mode_of in Mo. unfold get_query.
    destruct (a_update a) eqn:Eu; [cbn; rewrite Eu; reflexivity|].
    destruct (a_into a) eqn:Ei; [cbn; rewrite Eu, Ei; reflexivity|].
    destruct (a_delete a) eqn:Ed; [cbn; rewrite Eu, Ei, Ed; reflexivity|].
    now elim Mo.
  - intros t q G. destruct (get_query_inv _ _ _ G) as (self & t1 & B & Fq & ->).
    destruct (engine_before_filters_post _ _ B) as (_ & _ & _ & Ap & Se).
    destruct (Se Mo) as (S1 & S2).
    destruct (finish_query_post _ _ _ _ Fq) as (_ & Sh & _ & _ & _ & _ & _ & _ & _ & ->).
    unfold shape_of in Sh. injection Sh as _ _ S3 S4.
    split; [congruence|]. split; [congruence|].
    intros I. apply in_app_or in I as [I|I].
    + destruct (a_ignore_permissions a); [exact I|].
      unfold check_read_permission, tell, lift, mret in I. cbn in I.
      destruct (has_permission _ "select" _ _); cbn in I;
        [destruct I as [I|[]]; discriminate|].
      destruct (has_permission _ "read" _ _); cbn in I;
        destruct I as [I|[I|[]]]; discriminate.
    + apply in_app_or in I as [I|I].
      * destruct (mode_of a); [now elim Mo|exact I..].
      * destruct (self_apply_permissions self); cbn in I;
          repeat (destruct I as [I|I]; [discriminate|]); exact I.
Qed.

Lemma mbind_permission_free {A B : Type} (m : M A) (k : A -> M B) :
  permission_free (fst m) = true ->
  (forall x, snd m = Ok x -> permission_free (fst (k x)) = true) ->
  permission_free (fst (mbind m k)) = true.
Proof.
  destruct m as [t0 [x|e]]; cbn; intros P K; [|exact P].
  specialize (K x eq_refl). destruct (k x) as [t1 r]. cbn in *.
  unfold permission_free in *. rewrite forallb_app, P, K. reflexivity.
Qed.

Lemma finish_query_permission_free (a : Args) (self : Engine) :
  self.(self_apply_permissions) = false ->
  permission_free (fst (finish_query a self)) = true.
Proof.
  intros Ap. rewrite finish_query_stages. unfold finish_query_staged.
  destruct (apply_filters self (a_filters a)) as [s1|e] eqn:F; [|reflexivity].
  destruct (apply_order_by s1 (a_order_by a)) as [s2|e] eqn:O; [|reflexivity].
  destruct (apply_clauses a s2) as [s3|e] eqn:C; [|reflexivity].
  pose proof (apply_filters_frame _ _ _ F) as FF.
  destruct (apply_order_by_keeps _ _ _ O) as (OC & _).
  destruct (apply_clauses_post _ _ _ C) as (CC & _).
  unfold filter_frame, config_of in FF, OC, CC.
  injection FF as _ _ _ _ F5 _. injection OC as _ _ _ _ O5 _.
  injection CC as _ _ _ _ K5 _.
  assert (Ap3 : self_apply_permissions s3 = false) by congruence.
  rewrite Ap3. reflexivity.
Qed.

(** X8. With [ignore_permissions] set, [get_query] makes no permission
    check and adds no row condition, whether the build succeeds or
    raises: no [has_permission] call and no entry of
    [add_permission_conditions] appears in its trace. *)
Theorem ignore_permissions_skips_every_check (a : Args) :
  a.(a_ignore_permissions) = true ->
  permission_free (fst (get_query a)) = true.
Proof.
  intros Ig. unfold get_query.
  apply mbind_permission_free.
  { destruct (a_table a) as [tb|d]; [reflexivity|].
    cbn. destruct (validate_doctype d) as [[]|e]; reflexivity. }
  intros [doctype table] _. rewrite Ig. cbn [negb].
  apply mbind_permission_free; [reflexivity|]. intros _ _.
  apply mbind_permission_free.
  - destruct (a_update a); [reflexivity|]. destruct (a_into a); [reflexivity|].
    destruct (a_delete a); [reflexivity|]. unfold tell, lift. cbn [mbind].
    destruct (apply_fields (new_engine a doctype table SelectFrom) (a_fields a));
      reflexivity.
  - intros self0 S. apply finish_query_permission_free.
    assert (N : forall m, (new_engine a doctype table m).(self_apply_permissions) = false).
    { intros m. cbn. now rewrite Ig. }
    destruct (a_update a); [injection S as <-; apply N|].
    destruct (a_into a); [injection S as <-; apply N|].
    destruct (a_delete a); [injection S as <-; apply N|].
    unfold tell, lift in S. cbn [mbind] in S.
    destruct (apply_fields (new_engine a doctype table SelectFrom) (a_fields a))
      as [s|e] eqn:Af; [|discriminate].
    cbn in S. injection S as <-.
    destruct (apply_fields_keeps _ _ _ Af) as (Cf & _).
    unfold config_of in Cf. injection Cf as _ _ _ _ C5 _.
    rewrite C5. exact (N SelectFrom).
Qed.

End BuildInvariants.

(* ------------------------------------------------------------------ *)
(** ** Row conditions *)

Section RowConditionFacts.
Context {site : Env}.

Lemma permitted_docs_error (self : Engine) (df : LinkDf) (values : list UserPermission)
    (e : exception) :
  permitted_docs self df values = Err e -> e = AttributeError.
Proof.
  induction values as [|p rest IH]; [discriminate|].
  cbn [permitted_docs].
  destruct (String.eqb (up_applicable_for p) EmptyString).
  - cbv beta iota delta [bind].
    destruct (permitted_docs self df rest) as [more|e']; [discriminate|].
    intros X. injection X as <-. now apply IH.
  - destruct (String.eqb (df_fieldname df) "name").
    + cbv beta iota delta [bind]. intros X. now injection X as <-.
    + destruct (String.eqb (up_applicable_for p) (self_doctype self));
        cbv beta iota delta [bind];
        (destruct (permitted_docs self df rest) as [more|e']; [discriminate|]);
        intros X; injection X as <-; now apply IH.
Qed.

Lemma permitted_docs_name_raises (self : Engine) (df : LinkDf)
    (values : list UserPermission) (p : UserPermission) :
  df.(df_fieldname) = "name" ->
  In p values ->
  p.(up_applicable_for) <> EmptyString ->
  permitted_docs self df values = Err AttributeError.
Proof.
  intros N I A. induction values as [|p' rest IH]; [destruct I|].
  cbn [permitted_docs]. rewrite N. cbn [String.eqb Ascii.eqb Bool.eqb].
  destruct (String.eqb (up_applicable_for p') EmptyString) eqn:E.
  - destruct I as [->|I].
    + apply String.eqb_eq in E. now elim A.
    + cbv beta iota delta [bind]. now rewrite (IH I).
  - reflexivity.
Qed.

(** X9. A user permission restricted to an entity ([applicable_for]
    set) that is about the queried entity itself makes
    [add_permission_conditions] raise [AttributeError], as soon as the
    roles grant read or select without the owner constraint: the engine
    reads its attribute [reference_doctype], which it never sets. *)
Theorem scoped_user_permission_raises (self : Engine) (p : UserPermission) :
  let role_permissions := get_role_permissions self.(self_doctype) self.(self_user) in
  requires_owner_constraint role_permissions = false ->
  role_permissions.(rp_read) || role_permissions.(rp_select) = true ->
  In p (dict_get self.(self_doctype) (get_user_permissions self.(self_user))) ->
  p.(up_applicable_for) <> EmptyString ->
  add_permission_conditions self = Err AttributeError.
Proof.
  intros rp O R I A.
  unfold add_permission_conditions, row_conditions. fold rp. rewrite O, R.
  unfold get_user_permission_conditions. rewrite R. cbn [negb].
  destruct (get_user_permissions (self_user self)) as [|u ups] eqn:U;
    [destruct I|].
  cbv beta iota. unfold get_doctype_link_fields. cbn [link_field_conditions].
  unfold link_field_condition.
  cbn [df_ignore_user_permissions df_options].
  destruct (dict_get (self_doctype self) (u :: ups)) as [|v vs] eqn:D;
    [destruct I|].
  rewrite (permitted_docs_name_raises self
             {| df_fieldname := "name"; df_options := self_doctype self;
                df_ignore_user_permissions := false |} (v :: vs) p eq_refl I A).
  reflexivity.
Qed.

(** X10. [add_permission_conditions] adds at most one predicate to the
    query, after those it already has, and changes nothing else: not the
    other parts of the query, not the configuration of the engine; and
    the only error its own code can raise (the collaborators it calls
    aside) is [AttributeError]. *)
Theorem permission_conditions_append_once (self : Engine) :
  match add_permission_conditions self with
  | Ok self' =>
      config_of self' = config_of self
      /\ self'.(self_fields) = self.(self_fields)
      /\ but_wheres self'.(self_query) = but_wheres self.(self_query)
      /\ exists l,
           self'.(self_query).(q_wheres) = self.(self_query).(q_wheres) ++ l
           /\ List.length l <= 1
  | Err e => e = AttributeError
  end.
Proof.
  destruct (add_permission_conditions self) as [self'|e] eqn:A.
  - destruct (add_permission_conditions_post _ _ A) as (C & B & W).
    split; [exact C|]. split; [|split; [exact B|exact W]].
    revert A. unfold add_permission_conditions.
    destruct (row_conditions self) as [[conditions fetch]|e]; [|discriminate].
    cbv beta iota delta [bind].
    destruct (if fetch then _ else _) as [|d ds], conditions as [|c cs];
      intros X; injection X as <-; reflexivity.
  - revert A. unfold add_permission_conditions, row_conditions.
    destruct (requires_owner_constraint _).
    + cbv beta iota delta [bind].
      destruct (get_shared _ _); discriminate.
    + destruct (rp_read _ || rp_select _) eqn:R.
      * unfold get_user_permission_conditions. rewrite R. cbn [negb].
        destruct (get_user_permissions (self_user self)) as [|u ups].
        { cbv beta iota delta [bind].
          destruct (_ ++ _); discriminate. }
        cbv beta iota.
        destruct (link_field_conditions self (u :: ups) (get_doctype_link_fields self))
          as [cs|e'] eqn:L.
        { cbv beta iota delta [bind].
          destruct (get_shared _ _), (cs ++ _); discriminate. }
        cbv beta iota delta [bind]. intros X. injection X as <-.
        revert L. generalize (get_doctype_link_fields self) as dfs.
        intros dfs. revert e'. induction dfs as [|df dfs IH]; [discriminate|].
        intros e'. cbn [link_field_conditions]. unfold link_field_condition at 1.
        destruct (df_ignore_user_permissions df).
        { cbv beta iota delta [bind].
          destruct (link_field_conditions self (u :: ups) dfs) as [more|e2] eqn:L2;
            [discriminate|].
          intros X. injection X as <-. now apply IH. }
        destruct (dict_get (df_options df) (u :: ups)) as [|v vs].
        { cbv beta iota delta [bind].
          destruct (link_field_conditions self (u :: ups) dfs) as [more|e2] eqn:L2;
            [discriminate|].
          intros X. injection X as <-. now apply IH. }
        destruct (permitted_docs self df (v :: vs)) as [docs|e3] eqn:P.
        { cbv beta iota delta [bind].
          destruct docs;
            (destruct (link_field_conditions self (u :: ups) dfs) as [more|e2] eqn:L2;
             [discriminate|]);
            intros X; injection X as <-; now apply IH. }
        cbv beta iota delta [bind]. intros X. injection X as <-.
        exact (permitted_docs_error _ _ _ _ P).
      * cbv beta iota delta [bind]. destruct (_ ++ _); discriminate.
Qed.

End RowConditionFacts.

(* ------------------------------------------------------------------ *)
(** ** The walk of a nested set *)

Section HierarchyFacts.
Context {site : Env}.




Section Insertion.
Variable le : NodeRow -> NodeRow -> bool.
Variable R : NodeRow -> NodeRow -> Prop.
Hypothesis le_R : forall a b, le a b = true -> R a b.
Hypothesis le_total : forall a b, le a b = false -> R b a.




End Insertion.




End HierarchyFacts.

(* ------------------------------------------------------------------ *)
(** ** Ordering *)

Section OrderFacts.
Context {site : Env}.

Lemma append_snoc (a b : string) (c : ascii) :
  ((a ++ String c EmptyString) ++ b)%string = (a ++ String c b)%string.
Proof. induction a as [|x a IH]; cbn; [reflexivity|now rewrite IH]. Qed.

Lemma prefix_space (c : ascii) (t : string) :
  prefix " " (String c t) = Ascii.eqb c " ".
Proof.
  change (prefix " " (String c t))
    with (if ascii_dec " " c then prefix EmptyString t else false).
  destruct (ascii_dec " " c) as [<-|N].
  - destruct t; reflexivity.
  - symmetry. apply Ascii.eqb_neq. congruence.
Qed.

Lemma split_space_head (s cur : string) :
  exists rest,
    Py.split_go " " 0 cur s = (cur ++ until (fun c => Ascii.eqb c " ") s)%string :: rest.
Proof.
  revert cur. induction s as [|c t IH]; intros cur.
  - exists []. cbn. now rewrite ReFacts.append_empty_r.
  - cbn [Py.split_go until]. rewrite prefix_space.
    destruct (Ascii.eqb c " ").
    + eexists. now rewrite ReFacts.append_empty_r.
    + destruct (IH (cur ++ String c EmptyString)%string) as (rest & ->).
      exists rest. now rewrite append_snoc.
Qed.

Lemma split_ws_head (s cur : string) :
  cur <> EmptyString ->
  exists rest, split_ws_go cur s = (cur ++ until Py.is_space s)%string :: rest.
Proof.
  revert cur. induction s as [|c t IH]; intros cur N.
  - cbn. destruct cur; [now elim N|]. exists []. now rewrite ReFacts.append_empty_r.
  - cbn [split_ws_go until]. destruct (Py.is_space c).
    + destruct cur; [now elim N|]. eexists. now rewrite ReFacts.append_empty_r.
    + destruct (IH (cur ++ String c EmptyString)%string) as (rest & ->).
      * destruct cur; discriminate.
      * exists rest. now rewrite append_snoc.
Qed.

Lemma until_space (s : string) :
  space_only_whitespace s = true ->
  until Py.is_space s = until (fun c => Ascii.eqb c " ") s.
Proof.
  unfold space_only_whitespace.
  induction s as [|c t IH]; cbn; [reflexivity|]. intros H.
  apply andb_true_iff in H as [H1 H2]. rewrite (IH H2).
  destruct (Py.is_space c) eqn:S; cbn in H1.
  - unfold Py.chr_eqb in H1. now rewrite H1.
  - destruct (Ascii.eqb c " ") eqn:E; [|reflexivity].
    apply Ascii.eqb_eq in E. subst c. discriminate.
Qed.

Lemma rstrip_first (p : ascii -> bool) (s r : string) (c : ascii) :
  Py.rstrip_by p s = String c r -> exists t, s = String c t.
Proof.
  destruct s as [|a s]; cbn; [discriminate|].
  destruct (Py.rstrip_by p s); [destruct (p a)|]; intros X;
    try discriminate; injection X as <- _; now eexists.
Qed.

Lemma lstrip_first (p : ascii -> bool) (s t : string) (c : ascii) :
  Py.lstrip_by p s = String c t -> p c = false.
Proof.
  induction s as [|a s IH]; cbn; [discriminate|].
  destruct (p a) eqn:P; [exact IH|]. intros X. now injection X as <- _.
Qed.

Lemma strip_first (d t : string) (c : ascii) :
  Py.strip d = String c t -> Py.is_space c = false.
Proof.
  unfold Py.strip. intros X. destruct (rstrip_first _ _ _ _ X) as (t' & L).
  exact (lstrip_first _ _ _ _ L).
Qed.

Lemma lstrip_chars (P p : ascii -> bool) (s : string) :
  Py.all_chars P s = true -> Py.all_chars P (Py.lstrip_by p s) = true.
Proof.
  induction s as [|a s IH]; cbn; [reflexivity|]. intros H.
  destruct (p a); [|exact H]. apply andb_true_iff in H as [_ H]. now apply IH.
Qed.

Lemma rstrip_chars (P p : ascii -> bool) (s : string) :
  Py.all_chars P s = true -> Py.all_chars P (Py.rstrip_by p s) = true.
Proof.
  induction s as [|a s IH]; cbn; [reflexivity|]. intros H.
  apply andb_true_iff in H as [H1 H2]. specialize (IH H2).
  destruct (Py.rstrip_by p s) as [|b r].
  - destruct (p a); [reflexivity|]. cbn. now rewrite H1.
  - cbn [Py.all_chars] in *. rewrite H1. exact IH.
Qed.

Lemma strip_chars_kept (P : ascii -> bool) (s : string) :
  Py.all_chars P s = true -> Py.all_chars P (Py.strip s) = true.
Proof. intros H. unfold Py.strip. now apply rstrip_chars, lstrip_chars. Qed.

Lemma split_chars (P : ascii -> bool) (sep s : string) (skip : nat) (cur : string) :
  Py.all_chars P cur = true -> Py.all_chars P s = true ->
  Forall (fun x => Py.all_chars P x = true) (Py.split_go sep skip cur s).
Proof.
  revert skip cur. induction s as [|c t IH]; intros skip cur C H.
  - cbn. now repeat constructor.
  - cbn [Py.all_chars] in H. apply andb_true_iff in H as [H1 H2].
    cbn [Py.split_go]. destruct skip as [|k]; [|now apply IH].
    destruct (prefix sep (String c t)).
    + constructor; [exact C|]. now apply IH.
    + apply IH; [|exact H2]. rewrite ReSound.all_chars_app, C. cbn. now rewrite H1.
Qed.

(** a declaration without tabs and the like is ordered by the field that
    was validated *)
Lemma order_declaration_validated (q : Query) (d : string) :
  space_only_whitespace d = true ->
  match split_ws (Py.strip d) with
  | [] => True
  | field_name :: _ => Py.all_chars clause_char field_name = true
  end ->
  exists added,
    (order_declaration q d).(q_orderbys) = q.(q_orderbys) ++ added
    /\ Forall (fun fo => Py.all_chars clause_char (fst fo) = true) added.
Proof.
  intros W V. unfold order_declaration.
  destruct (Py.strip d) as [|c t] eqn:T.
  { exists []. cbn. now rewrite app_nil_r. }
  cbn [nonempty String.eqb negb].
  pose proof (strip_first _ _ _ T) as Sc.
  assert (Wt : space_only_whitespace (String c t) = true).
  { rewrite <- T. now apply strip_chars_kept. }
  unfold split_ws in V. cbn [split_ws_go append] in V. rewrite Sc in V.
  destruct (split_ws_head t (String c EmptyString)) as (rest & Hw); [discriminate|].
  cbn [append] in Hw. rewrite Hw in V.
  unfold Py.split.
  destruct (split_space_head (String c t) EmptyString) as (more & ->).
  cbn [append]. rewrite <- (until_space _ Wt). cbn [until]. rewrite Sc.
  eexists [_]. split; [reflexivity|]. constructor; [exact V|constructor].
Qed.

Lemma fold_order_validated (l : list string) (q : Query) :
  Forall (fun d => space_only_whitespace d = true) l ->
  Forall (fun d => match split_ws (Py.strip d) with
                   | [] => True
                   | field_name :: _ => Py.all_chars clause_char field_name = true
                   end) l ->
  exists added,
    (fold_left order_declaration l q).(q_orderbys) = q.(q_orderbys) ++ added
    /\ Forall (fun fo => Py.all_chars clause_char (fst fo) = true) added.
Proof.
  revert q. induction l as [|d l IH]; intros q W V.
  - exists []. cbn. split; [now rewrite app_nil_r|constructor].
  - inversion W as [|? ? W1 W2]; subst. inversion V as [|? ? V1 V2]; subst.
    cbn [fold_left].
    destruct (order_declaration_validated q d W1 V1) as (a1 & E1 & F1).
    destruct (IH (order_declaration q d) W2 V2) as (a2 & E2 & F2).
    exists (a1 ++ a2). split.
    + now rewrite E2, E1, app_assoc.
    + apply Forall_app. now split.
Qed.

(** X12. When the order-by text is ASCII text with no whitespace but
    spaces, every field that [apply_order_by] orders the query by is one
    that [_validate_order_by] has checked: it is written with word
    characters, backticks and dots only. The entries are added after those the query
    has, and nothing else of the query changes. (With a tab in the text
    the two methods split a declaration differently, and the field
    ordered by is no longer the one that was checked.) *)
Theorem ordered_fields_are_validated (self self' : Engine) (s : string) :
  Py.is_ascii s = true ->
  space_only_whitespace s = true ->
  apply_order_by self (PStr s) = Ok self' ->
  but_orderbys self'.(self_query) = but_orderbys self.(self_query)
  /\ exists added,
       self'.(self_query).(q_orderbys) = self.(self_query).(q_orderbys) ++ added
       /\ Forall (fun fo => Py.all_chars clause_char (fst fo) = true) added.
Proof.
  intros _ W A. split; [exact (proj2 (apply_order_by_keeps _ _ _ A))|].
  revert A. unfold apply_order_by.
  destruct (_ || _).
  - intros X. injection X as <-. exists []. split; [now rewrite app_nil_r|constructor].
  - unfold _validate_order_by.
    destruct (validate_order_by_parts (Py.split "," s)) as [[]|e] eqn:V; [|discriminate].
    cbv beta iota delta [bind]. intros X. injection X as <-.
    cbn [self_query with_query]. apply fold_order_validated.
    + apply split_chars; [reflexivity|exact W].
    + pose proof (order_by_parts_sound _ V) as S.
      eapply Forall_impl; [|exact S]. intros d. cbv beta.
      destruct (split_ws (Py.strip d)); [auto|]. now intros [? _].
Qed.

End OrderFacts.

(* ------------------------------------------------------------------ *)
(** ** What the select validator lets through *)

Section SelectFacts.
Context {site : Env}.

Lemma select_alphabet (c : ascii) :
  alphabet ALLOWED_FIELD_PATTERN c = true -> select_char c = true.
Proof. by_cases_on c. Qed.

Lemma append_assoc' (a b c : string) :
  ((a ++ b) ++ c)%string = (a ++ (b ++ c))%string.
Proof. induction a as [|x a IH]; cbn; [reflexivity|now rewrite IH]. Qed.

Lemma lang_plus_word (s : string) :
  Re.lang (Re.Plus W) s -> s <> EmptyString /\ Py.all_chars Py.is_word s = true.
Proof.
  intros L. split.
  - inversion L as [| |a b s1 s2 L1 L2| | | |]; subst.
    inversion L1; subst. discriminate.
  - apply (ReSound.all_chars_weaken (alphabet (Re.Plus W))).
    + intros c. cbn. now destruct (Py.is_word c).
    + now apply ReSound.lang_alphabet.
Qed.

Lemma function_call_shape (s : string) :
  pattern_match FUNCTION_CALL_PATTERN s = true ->
  exists name rest,
    s = (name ++ String "(" rest)%string
    /\ name <> EmptyString
    /\ Py.all_chars Py.is_word name = true.
Proof.
  intros M. apply ReSound.matches_sound in M.
  unfold FUNCTION_CALL_PATTERN, Re.anchored in M.
  inversion M as [| |a b s1 s2 L1 L2| | | |]; subst. clear M.
  inversion L1 as [| |a b n s3 Ln L3| | | |]; subst. clear L1.
  inversion L3 as [| |a b p s4 Lp L4| | | |]; subst. clear L3.
  inversion Lp as [|cl c P| | | | |]; subst.
  unfold Py.chr_eqb in P. apply Ascii.eqb_eq in P. subst c.
  destruct (lang_plus_word _ Ln) as (N & Wd).
  exists n. eexists. split; [|split; [exact N|exact Wd]].
  rewrite append_assoc'. cbn [append]. reflexivity.
Qed.

(** X13. A select field of ASCII text that [_validate_select_field]
    accepts is the star, or is written with word characters, backticks, dots and
    whitespace only (digits, a plain or qualified name, an alias), or
    opens with a name of word characters directly followed by an opening
    parenthesis (the function-call form). Anything else is refused with
    a PermissionError, and [_sanitize_field] refuses exactly what
    [_validate_select_field] refuses: the text is checked as it was
    given, before its comments are stripped. *)
Theorem select_field_letters (field : string) (is_mariadb : bool) :
  Py.is_ascii field = true ->
  match _validate_select_field field with
  | Ok _ =>
      (field = "*"
       \/ Py.all_chars select_char field = true
       \/ exists name rest,
            field = (name ++ String "(" rest)%string
            /\ name <> EmptyString
            /\ Py.all_chars Py.is_word name = true)
      /\ _sanitize_field field is_mariadb
         = Ok (Py.strip (strip_comments is_mariadb field))
  | Err e => e = PermissionError /\ _sanitize_field field is_mariadb = Err PermissionError
  end.
Proof.
  intros _.
  unfold _sanitize_field, _validate_select_field.
  destruct (String.eqb field "*") eqn:S.
  { apply String.eqb_eq in S. split; [now left|reflexivity]. }
  destruct (Py.isdigit field) eqn:D.
  { split; [|reflexivity]. right; left.
    apply (ReSound.all_chars_weaken clause_char);
      [|now apply digits_are_clause_chars].
    intros c Q. unfold select_char. now rewrite Q. }
  destruct (pattern_match ALLOWED_FIELD_PATTERN field) eqn:A.
  { split; [|reflexivity]. right; left.
    apply (ReSound.all_chars_weaken _ _ field select_alphabet).
    apply ReSound.lang_alphabet. now apply ReSound.matches_sound. }
  destruct (pattern_match FUNCTION_CALL_PATTERN field) eqn:F.
  { split; [|reflexivity]. right; right. now apply function_call_shape. }
  split; reflexivity.
Qed.

End SelectFacts.

(* ------------------------------------------------------------------ *)
(** ** What the field parsers return *)

Section ParserFacts.
Context {site : Env}.

Lemma word_run_chars (s w r : string) :
  word_run s = (w, r) -> Py.all_chars Py.is_word w = true.
Proof.
  revert w r. induction s as [|c s IH]; cbn; intros w r X.
  - now injection X as <- _.
  - destruct (Py.is_word c) eqn:Wc.
    + destruct (word_run s) as [w' r'] eqn:R. injection X as <- _.
      cbn. rewrite Wc. exact (IH _ _ eq_refl).
    + now injection X as <- _.
Qed.

Lemma quoted_word_groups (s w r : string) :
  quoted_word s = Some (w, r) ->
  w <> EmptyString /\ Py.all_chars Py.is_word w = true.
Proof.
  unfold quoted_word. destruct (word_run (drop_quote s)) as [w' r'] eqn:R.
  pose proof (word_run_chars _ _ _ R) as C.
  destruct w' as [|c w']; [discriminate|].
  intros X. injection X as <- _. split; [discriminate|exact C].
Qed.

Lemma field_parse_groups (s : string) (table_name : option string) (field_name : string) :
  FIELD_PARSE_REGEX_match s = Some (table_name, field_name) ->
  field_name <> EmptyString
  /\ Py.all_chars Py.is_word field_name = true
  /\ match table_name with
     | Some t => is_tab_word t = true /\ Py.all_chars Py.is_word t = true
     | None => True
     end.
Proof.
  unfold FIELD_PARSE_REGEX_match.
  destruct (quoted_word s) as [[w r]|] eqn:Q; [|discriminate].
  destruct (quoted_word_groups _ _ _ Q) as (N & C).
  destruct (at_end r).
  { intros X. injection X as <- <-. auto. }
  destruct r as [|c r']; [discriminate|].
  destruct (Py.chr_eqb c "." && is_tab_word w) eqn:T; [|discriminate].
  apply andb_true_iff in T as [_ T].
  destruct (quoted_word r') as [[f r'']|] eqn:Q2; [|discriminate].
  destruct (quoted_word_groups _ _ _ Q2) as (N2 & C2).
  destruct (at_end r''); [|discriminate].
  intros X. injection X as <- <-. auto.
Qed.

(** X14. What [parse_string_field] returns on ASCII text. The star
    gives the star of the engine's table. Any other text that is parsed gives a field whose
    name is a non-empty run of word characters, on the engine's table, or
    on the table of a name of word characters that opens with [tab], and
    whose alias, when it has one, is not empty. A text that is not parsed
    raises the ValidationError of [frappe.throw]. *)
Theorem parse_string_field_shape (self : Engine) (field : string) :
  Py.is_ascii field = true ->
  match parse_string_field self field with
  | Ok f =>
      (field = "*" /\ f = star self.(self_table))
      \/ (f.(f_name) <> EmptyString
          /\ Py.all_chars Py.is_word f.(f_name) = true
          /\ (f.(f_table) = self.(self_table)
              \/ exists t, f.(f_table) = DocType t
                           /\ is_tab_word t = true
                           /\ Py.all_chars Py.is_word t = true)
          /\ f.(f_alias) <> Some EmptyString)
  | Err e => e = ValidationError
  end.
Proof.
  intros _.
  unfold parse_string_field.
  destruct (String.eqb field "*") eqn:S.
  { left. apply String.eqb_eq in S. auto. }
  destruct (if Py.contains " as " (Py.lower field) then _ else _)
    as [field_part alias].
  destruct (FIELD_PARSE_REGEX_match field_part) as [[tn fnm]|] eqn:M;
    [|reflexivity].
  destruct (field_parse_groups _ _ _ M) as (N & C & T).
  assert (Tb : match or_none tn with
               | Some t => column (DocType t) fnm
               | None => column (self_table self) fnm
               end.(f_table) = self_table self
               \/ exists t, match or_none tn with
                            | Some t => column (DocType t) fnm
                            | None => column (self_table self) fnm
                            end.(f_table) = DocType t
                            /\ is_tab_word t = true
                            /\ Py.all_chars Py.is_word t = true).
  { destruct tn as [t|]; cbn; [|now left].
    destruct (String.eqb t EmptyString); [now left|]. right. now exists t. }
  assert (Nm : match or_none tn with
               | Some t => column (DocType t) fnm
               | None => column (self_table self) fnm
               end.(f_name) = fnm).
  { destruct (or_none tn); reflexivity. }
  destruct (or_none alias) as [a|] eqn:A.
  - right. cbn [as_ f_name f_table f_alias]. rewrite Nm.
    split; [exact N|]. split; [exact C|]. split; [exact Tb|].
    destruct alias as [a'|]; [|discriminate]. cbn in A.
    destruct (String.eqb a' EmptyString) eqn:E; [discriminate|].
    injection A as <-. intros X. injection X as ->. discriminate.
  - right. rewrite Nm. split; [exact N|]. split; [exact C|]. split; [exact Tb|].
    destruct (or_none tn); discriminate.
Qed.

(** what [DynamicTableField.parse] returns *)
Lemma parse_stands_on (field doctype : string) :
  match parse field doctype with
  | Ok (Some d) => Py.contains "." field = true /\ stands_on doctype d
  | Ok None => True
  | Err e => Py.contains "." field = true /\ (e = ValueError \/ e = AttributeError)
  end.
Proof.
  unfold parse. destruct (Py.contains "." field); [|exact I].
  assert (K : forall (f : string) (alias : option string),
             match
               (if Py.startswith "`tab" f || Py.startswith (String dquote "tab") f
                then
                  match child_ref_search f with
                  | None => Err AttributeError
                  | Some (_, child_doctype, child_field) =>
                      if String.eqb child_doctype doctype then Ok None
                      else Ok (Some (Child {| ct_doctype := child_doctype;
                                              ct_fieldname := child_field;
                                              ct_parent_doctype := doctype;
                                              ct_parent_fieldname := None;
                                              ct_alias := alias |}))
                  end
                else
                  match Py.split "." f with
                  | [linked_fieldname; fieldname] =>
                      match get_field doctype linked_fieldname with
                      | None => Err AttributeError
                      | Some linked_field =>
                          let linked_doctype := linked_field.(options) in
                          if String.eqb linked_field.(fieldtype) "Link"
                          then Ok (Some (Link {| lt_doctype := linked_doctype;
                                                 lt_fieldname := fieldname;
                                                 lt_parent_doctype := doctype;
                                                 lt_link_fieldname := linked_fieldname;
                                                 lt_alias := alias |}))
                          else if Py.in_list linked_field.(fieldtype) table_fields
                          then Ok (Some (Child {| ct_doctype := linked_doctype;
                                                  ct_fieldname := fieldname;
                                                  ct_parent_doctype := doctype;
                                                  ct_parent_fieldname := Some linked_fieldname;
                                                  ct_alias := alias |}))
                          else Ok None
                      end
                  | _ => Err ValueError
                  end)
             with
             | Ok (Some d) => true = true /\ stands_on doctype d
             | Ok None => True
             | Err e => true = true /\ (e = ValueError \/ e = AttributeError)
             end).
  { intros f alias. destruct (_ || _).
    - destruct (child_ref_search f) as [[[q cd] cf]|]; [|auto].
      destruct (String.eqb cd doctype) eqn:E; [exact I|].
      split; [reflexivity|]. cbn. split; [reflexivity|].
      now apply String.eqb_neq.
    - destruct (Py.split "." f) as [|a [|b [|c l]]]; auto.
      destruct (get_field doctype a) as [lf|] eqn:G; [|auto]. cbv zeta.
      destruct (String.eqb (fieldtype lf) "Link") eqn:L.
      + split; [reflexivity|]. cbn. split; [reflexivity|].
        exists lf. apply String.eqb_eq in L. auto.
      + destruct (Py.in_list (fieldtype lf) table_fields) eqn:T; [|exact I].
        split; [reflexivity|]. cbn. split; [reflexivity|]. exists lf. auto. }
  destruct (Py.contains " as " field).
  - destruct (Py.split " as " field) as [|a [|b [|c l]]]; cbn; auto.
    apply K.
  - cbn. apply K.
Qed.

(** X15. What [DynamicTableField.parse] returns. A text without a dot is
    no dynamic field and raises nothing. A dynamic field that is returned
    has the entity of the call as its parent and stands on its metadata:
    a link field was found there as a Link field and points to the entity
    that field names; a child field was found there as a table field, or
    was written with its table, which is then not the table of the entity
    itself. The errors are the ValueError of an unpacking and the
    AttributeError of a missing match or field. *)
Theorem parsed_dynamic_field_stands_on_metadata (field doctype : string) :
  match parse field doctype with
  | Ok (Some d) => Py.contains "." field = true /\ stands_on doctype d
  | Ok None => True
  | Err e => Py.contains "." field = true /\ (e = ValueError \/ e = AttributeError)
  end.
Proof.
  exact (parse_stands_on field doctype).
Qed.

End ParserFacts.

(* ------------------------------------------------------------------ *)
(** ** Filter fields and filter forms *)

Section FilterForms.
Context {site : Env}.


(** X17. The forms of a filter agree: a three-element list
    [field, operator, value] compiles as the mapping entry
    [field: (operator, value)] does, a four-element list whose entity is
    [None] as the three-element list, and a two-element list
    [field, value], when the value is not itself a list or a tuple, as
    the mapping entry [field: value] and as the list with the operator
    [=]. (A mapping entry whose value is a list or tuple is unpacked
    into operator and value; the two-element list is not.) *)
Theorem filter_forms_agree (self : Engine) (field operator value : pyval) :
  apply_list_filters self [field; operator; value]
  = apply_dict_filters self [(field, PTuple [operator; value])]
  /\ apply_list_filters self [PNone; field; operator; value]
     = apply_list_filters self [field; operator; value]
  /\ match value with
     | PList _ | PTuple _ => True
     | _ =>
         apply_list_filters self [field; value]
         = apply_dict_filters self [(field, value)]
         /\ apply_list_filters self [field; value]
            = apply_list_filters self [field; PStr "="; value]
     end.
Proof.
  split; [|split].
  - cbn [apply_list_filters apply_dict_filters]. cbv beta iota delta [bind].
    now destruct (_apply_filter_with self field value operator None).
  - reflexivity.
  - destruct value; try exact I;
      (split; [|reflexivity]);
      cbn [apply_list_filters apply_dict_filters]; cbv beta iota delta [bind];
      match goal with
      | |- ?m = _ => now destruct m
      end.
Qed.

End FilterForms.

(* ------------------------------------------------------------------ *)
(** ** [Permission]: the tables of a query text *)

Section PermissionClassFacts.
Context {site : Env}.

Lemma words_go_word (cur s : string) :
  Py.all_chars Py.is_word cur = true ->
  Forall (fun w => Py.all_chars Py.is_word w = true) (words_go cur s).
Proof.
  revert cur. induction s as [|c t IH]; intros cur C; cbn [words_go].
  - destruct cur; repeat constructor. exact C.
  - destruct (Py.is_word c) eqn:Wc.
    + apply IH. rewrite ReSound.all_chars_app, C. cbn. now rewrite Wc.
    + destruct cur; [now apply IH|]. constructor; [exact C|now apply IH].
Qed.

Lemma check_tables_outcome (tables : list string) (user : string)
    (parent_doctype : option string) :
  snd (check_tables tables user parent_doctype)
  = (if forallb (may_read user parent_doctype) tables
     then Ok tt else Err PermissionError)
  /\ Forall (fun e => exists t, In t tables /\ asked_entity e = Some (TAB_PATTERN_sub t))
            (fst (check_tables tables user parent_doctype)).
Proof.
  induction tables as [|t rest (IH1 & IH2)]; [split; [reflexivity|constructor]|].
  assert (IH2' : Forall (fun e => exists t0, In t0 (t :: rest)
                            /\ asked_entity e = Some (TAB_PATTERN_sub t0))
                        (fst (check_tables rest user parent_doctype))).
  { eapply Forall_impl; [|exact IH2]. intros e (t0 & I & A). exists t0.
    split; [now right|exact A]. }
  assert (Hd : forall p, exists t0, In t0 (t :: rest)
                 /\ asked_entity (EvHasPermission (TAB_PATTERN_sub t) p)
                    = Some (TAB_PATTERN_sub t0)).
  { intros p. exists t. split; [now left|reflexivity]. }
  cbn [check_tables forallb]. unfold may_read at 1, tell, lift, mret.
  cbv zeta. cbn [mbind].
  destruct (has_permission (TAB_PATTERN_sub t) "select" user parent_doctype);
    cbn [mbind orb andb app].
  - destruct (check_tables rest user parent_doctype) as [tr r] eqn:C.
    cbn in *. split; [exact IH1|]. constructor; [exact (Hd "select")|exact IH2'].
  - destruct (has_permission (TAB_PATTERN_sub t) "read" user parent_doctype);
      cbn [mbind orb andb app].
    + destruct (check_tables rest user parent_doctype) as [tr r] eqn:C.
      cbn in *. split; [exact IH1|].
      constructor; [exact (Hd "select")|].
      constructor; [exact (Hd "read")|exact IH2'].
    + cbn. split; [reflexivity|].
      constructor; [exact (Hd "select")|].
      constructor; [exact (Hd "read")|constructor].
Qed.

Lemma words_go_run (w cur s : string) :
  Py.all_chars Py.is_word w = true ->
  words_go cur (w ++ s) = words_go (cur ++ w) s.
Proof.
  revert cur. induction w as [|c w IH]; intros cur C.
  - cbn. now rewrite ReFacts.append_empty_r.
  - cbn [Py.all_chars] in C. apply andb_true_iff in C as [Wc C].
    cbn [append words_go]. rewrite Wc, (IH _ C). now rewrite append_snoc.
Qed.

(** a run of non-word characters is passed over *)
Lemma words_go_gap (gap s : string) :
  Py.all_chars (fun c => negb (Py.is_word c)) gap = true ->
  words_go EmptyString (gap ++ s) = words_go EmptyString s.
Proof.
  induction gap as [|c gap IH]; intros G; [reflexivity|].
  cbn [Py.all_chars] in G. apply andb_true_iff in G as [Gc G].
  cbn [append words_go]. apply negb_true_iff in Gc. rewrite Gc. now apply IH.
Qed.

(** a run that is read ends where a non-word character or the text's end
    follows *)
Lemma words_go_stop (w rest : string) :
  w <> EmptyString ->
  match rest with
  | EmptyString => True
  | String c _ => Py.is_word c = false
  end ->
  words_go w rest = w :: words_go EmptyString rest.
Proof.
  intros N R. destruct rest as [|c rest]; cbn [words_go].
  - destruct w; [now elim N|reflexivity].
  - rewrite R. destruct w; [now elim N|reflexivity].
Qed.

Lemma word_runs_unique (s : string) (ws : list string) :
  word_runs s ws -> ws = WORDS_PATTERN_findall s.
Proof.
  unfold WORDS_PATTERN_findall.
  induction 1 as [gap G|gap w rest ws G N W R Rs IH].
  - rewrite <- (ReFacts.append_empty_r gap), (words_go_gap gap EmptyString G).
    reflexivity.
  - rewrite (words_go_gap gap _ G), (words_go_run w EmptyString rest W).
    cbn [append]. rewrite (words_go_stop w rest N R). now rewrite IH.
Qed.

Lemma word_runs_skip (c : ascii) (s : string) (ws : list string) :
  Py.is_word c = false -> word_runs s ws -> word_runs (String c s) ws.
Proof.
  intros C R. inversion R as [gap G|gap w rest ws' G N W Rt Rs]; subst.
  - apply runs_none. cbn. now rewrite C.
  - apply (@runs_word (String c gap) w rest ws'); try assumption.
    cbn. now rewrite C.
Qed.

Lemma words_go_runs (s cur : string) :
  Py.all_chars Py.is_word cur = true ->
  word_runs (cur ++ s) (words_go cur s).
Proof.
  revert cur. induction s as [|c t IH]; intros cur C.
  - cbn [words_go]. destruct cur as [|x cur].
    + now apply runs_none.
    + apply (@runs_word EmptyString (String x cur) EmptyString []);
        [reflexivity|discriminate|exact C|exact I|now apply runs_none].
  - cbn [words_go]. destruct (Py.is_word c) eqn:Wc.
    + rewrite <- append_snoc. apply IH.
      rewrite ReSound.all_chars_app, C. cbn. now rewrite Wc.
    + assert (T : word_runs (String c t) (words_go EmptyString t)).
      { apply word_runs_skip; [exact Wc|]. exact (IH EmptyString eq_refl). }
      destruct cur as [|x cur]; [exact T|].
      apply (@runs_word EmptyString (String x cur) (String c t) _);
        [reflexivity|discriminate|exact C|exact Wc|exact T].
Qed.

(** X18. On ASCII text, [WORDS_PATTERN.findall] gives the runs of word
    characters of the query text, in their order, and nothing else is a
    list of them; [Permission.get_tables_from_query] returns those of
    them that open with [tab]; and [check_permissions] succeeds exactly
    when, for each of these, the user may select from or read the entity
    named by the rest of the run, and raises a PermissionError
    otherwise. It asks permissions for those entities only. *)
Theorem check_permissions_outcome (query user : string) (parent_doctype : option string) :
  Py.is_ascii query = true ->
  (exists ws,
     word_runs query ws
     /\ (forall ws', word_runs query ws' -> ws' = ws)
     /\ get_tables_from_query query = filter (Py.startswith "tab") ws)
  /\ snd (check_permissions query user parent_doctype)
     = (if forallb (may_read user parent_doctype) (get_tables_from_query query)
        then Ok tt else Err PermissionError)
  /\ Forall (fun e => exists t, In t (get_tables_from_query query)
                                /\ asked_entity e = Some (TAB_PATTERN_sub t))
            (fst (check_permissions query user parent_doctype)).
Proof.
  intros _. split.
  - exists (WORDS_PATTERN_findall query). split; [|split].
    + exact (words_go_runs query EmptyString eq_refl).
    + intros ws' R. exact (word_runs_unique query ws' R).
    + reflexivity.
  - apply check_tables_outcome.
Qed.

Lemma startswith_tab (a : string) :
  Py.startswith "tab" (String "t" (String "a" (String "b" a))) = true.
Proof. destruct a; reflexivity. Qed.

(** X19. A table name is cut at its first space: in a query text that
    quotes the table of an entity whose name has a space, the table found
    is the run up to that space, and the first permission
    [check_permissions] asks for is on the entity named by the text
    between [tab] and the space, not on the entity of the table. *)
Theorem table_names_are_cut_at_spaces
    (a rest user : string) (parent_doctype : option string) :
  Py.all_chars Py.is_word a = true ->
  let query := String backtick ("tab" ++ a ++ String " " rest) in
  get_tables_from_query query = ("tab" ++ a)%string :: get_tables_from_query rest
  /\ exists t,
       fst (check_permissions query user parent_doctype)
       = EvHasPermission a "select" :: t.
Proof.
  intros A query.
  assert (G : get_tables_from_query query
              = ("tab" ++ a)%string :: get_tables_from_query rest).
  { unfold query, get_tables_from_query, WORDS_PATTERN_findall.
    cbn [words_go]. change (Py.is_word backtick) with false. cbv iota.
    change ("tab" ++ a ++ String " " rest)%string
      with (("tab" ++ a) ++ String " " rest)%string at 1.
    rewrite (words_go_run ("tab" ++ a) EmptyString (String " " rest)).
    - cbn [append words_go]. change (Py.is_word " ") with false. cbv iota.
      cbn [filter]. rewrite (startswith_tab a). reflexivity.
    - cbn. exact A. }
  split; [exact G|].
  unfold check_permissions. rewrite G. cbn [check_tables append].
  unfold TAB_PATTERN_sub at 1. rewrite (startswith_tab a).
  cbn [Patterns.drop]. unfold tell. cbv zeta. cbn [mbind].
  match goal with
  | |- context [let (t', r) := ?m in _] => destruct m as [t' r]
  end.
  now eexists.
Qed.

End PermissionClassFacts.

(* ------------------------------------------------------------------ *)
(** ** Operators *)

Section OperatorFacts.
Context {site : Env}.

Lemma to_lower_idempotent (c : ascii) : Py.to_lower (Py.to_lower c) = Py.to_lower c.
Proof. by_cases_on c. Qed.

Lemma casefold_idempotent (s : string) : Py.casefold (Py.casefold s) = Py.casefold s.
Proof.
  unfold Py.casefold, Py.lower.
  induction s as [|c s IH]; cbn; [reflexivity|].
  now rewrite to_lower_idempotent, IH.
Qed.

(** X20. The operator of a filter is looked up without regard to letter
    case, the hierarchy operators apart, which are recognised in their
    exact spelling only: an operator that is not spelled as a hierarchy
    operator, and whose case-folded form is not one either, compiles as
    its case-folded form does, to the same query or the same error. *)
Theorem ordinary_operators_ignore_case
    (self : Engine) (field value : pyval) (operator : string) (doctype : option string) :
  Py.in_list operator NESTED_SET_OPERATORS = false ->
  Py.in_list (Py.casefold operator) NESTED_SET_OPERATORS = false ->
  _apply_filter self field value (Py.casefold operator) doctype
  = _apply_filter self field value operator doctype.
Proof.
  intros N1 N2. unfold _apply_filter. rewrite N1, N2, casefold_idempotent.
  reflexivity.
Qed.

End OperatorFacts.

(* ------------------------------------------------------------------ *)
(** ** The properties on the concrete site *)

Lemma filters_only_append_witness :
  let filters := PDict [(PStr "status", PStr "Open");
                        (PStr "project", PTuple [PStr "in"; PList [PStr "P1"]])] in
  exists self',
    apply_filters (Site.engine "bob" false) filters = Ok self'
    /\ is_filter_value filters = false
    /\ List.length self'.(self_query).(q_wheres) = 2
    /\ filter_frame self' = filter_frame (Site.engine "bob" false).
Proof.
  intros filters.
  destruct (apply_filters (Site.engine "bob" false) filters) as [s|e] eqn:A.
  - exists s. split; [reflexivity|]. split; [reflexivity|].
    destruct (filters_only_append (Site.engine "bob" false) s filters A)
      as (_ & F & _ & L).
    split; [exact (L _ eq_refl eq_refl)|exact F].
  - vm_compute in A. discriminate.
Defined.

Lemma built_query_carries_the_call_witness :
  exists t q,
    get_query (Calls.paged (PInt 10) (PInt 0)) = (t, Ok q)
    /\ q.(q_immutable) = true
    /\ q.(q_table) = DocType "Task"
    /\ q.(q_mode) = SelectFrom
    /\ q.(q_distinct) = true
    /\ q.(q_for_update) = Some (true, false)
    /\ q.(q_groupbys) = ["project"].
Proof.
  destruct (get_query (Calls.paged (PInt 10) (PInt 0))) as [t [q|e]] eqn:G.
  - exists t, q. split; [reflexivity|].
    destruct (built_query_carries_the_call (Calls.paged (PInt 10) (PInt 0)) t q G)
      as (I & T & M & _ & D & F & B).
    repeat split; assumption.
  - vm_compute in G. discriminate.
Defined.

Lemma limit_and_offset_positive_or_unset_witness :
  exists t q,
    get_query (Calls.paged (PInt 10) (PInt 0)) = (t, Ok q)
    /\ q.(q_limit) = Some 10%Z
    /\ q.(q_offset) = None.
Proof.
  destruct (get_query (Calls.paged (PInt 10) (PInt 0))) as [t [q|e]] eqn:G.
  - exists t, q. split; [reflexivity|].
    destruct (limit_and_offset_positive_or_unset
                (Calls.paged (PInt 10) (PInt 0)) t q G) as [L O].
    split.
    + destruct (q_limit q) as [n|]; [|discriminate L].
      destruct L as (_ & [E|(E & _)]); [|discriminate E].
      injection E as <-. reflexivity.
    + destruct (q_offset q) as [n|]; [|reflexivity].
      destruct O as (P & [E|(E & _)]); [|discriminate E].
      injection E as <-. discriminate P.
  - vm_compute in G. discriminate.
Defined.

Lemma write_modes_ignore_fields_witness :
  mode_of (Calls.deleting PNone) <> SelectFrom
  /\ get_query (Calls.deleting (PStr "nam;e")) = get_query (Calls.deleting PNone).
Proof.
  assert (M : mode_of (Calls.deleting PNone) <> SelectFrom) by discriminate.
  split; [exact M|].
  exact (proj1 (write_modes_ignore_fields (Calls.deleting PNone) (PStr "nam;e") M)).
Defined.

Lemma ignore_permissions_skips_every_check_witness :
  a_ignore_permissions (Calls.paged (PInt (-1)) PNone) = true
  /\ permission_free (fst (get_query (Calls.paged (PInt (-1)) PNone))) = true.
Proof.
  split; [reflexivity|].
  exact (ignore_permissions_skips_every_check (Calls.paged (PInt (-1)) PNone) eq_refl).
Defined.

Lemma scoped_user_permission_raises_witness :
  let p := {| up_doc := "P2"; up_applicable_for := "Task" |} in
  (requires_owner_constraint (get_role_permissions "Project" "bob") = false
   /\ In p (dict_get "Project" (get_user_permissions "bob"))
   /\ p.(up_applicable_for) <> EmptyString)
  /\ add_permission_conditions Calls.project_engine = Err AttributeError.
Proof.
  intros p.
  assert (O : requires_owner_constraint (get_role_permissions "Project" "bob") = false)
    by reflexivity.
  assert (I : In p (dict_get "Project" (get_user_permissions "bob")))
    by (right; left; reflexivity).
  assert (A : p.(up_applicable_for) <> EmptyString) by discriminate.
  split; [auto|].
  exact (scoped_user_permission_raises Calls.project_engine p O eq_refl I A).
Defined.

Lemma ordered_fields_are_validated_witness :
  (Py.is_ascii "name asc, status" = true
   /\ space_only_whitespace "name asc, status" = true)
  /\ exists self',
       apply_order_by (Site.engine "bob" false) (PStr "name asc, status") = Ok self'
       /\ exists added,
            self'.(self_query).(q_orderbys) = [] ++ added
            /\ Forall (fun fo => Py.all_chars clause_char (fst fo) = true) added.
Proof.
  split; [split; reflexivity|].
  destruct (apply_order_by (Site.engine "bob" false) (PStr "name asc, status"))
    as [s|e] eqn:A.
  - exists s. split; [reflexivity|].
    exact (proj2 (ordered_fields_are_validated (Site.engine "bob" false) s
                    "name asc, status" eq_refl eq_refl A)).
  - vm_compute in A. discriminate.
Defined.

(** with a tab between the field and the direction the text passes the
    validation, which reads the field [name], and the query is ordered by
    the whole text, descending *)
Example tab_declaration_is_ordered_by_whole :
  let s := ("name" ++ String (ascii_of_nat 9) "asc")%string in
  space_only_whitespace s = false
  /\ apply_order_by (Site.engine "bob" false) (PStr s)
     = Ok (with_query (Site.engine "bob" false)
             (orderby (from_ (DocType "Task") SelectFrom) s desc)).
Proof. split; vm_compute; reflexivity. Qed.


Lemma ordinary_operators_ignore_case_witness :
  (Py.in_list "LIKE" NESTED_SET_OPERATORS = false
   /\ Py.in_list (Py.casefold "LIKE") NESTED_SET_OPERATORS = false)
  /\ _apply_filter (Site.engine "bob" false) (PStr "subject") (PStr "a%") "like" None
     = _apply_filter (Site.engine "bob" false) (PStr "subject") (PStr "a%") "LIKE" None.
Proof.
  split; [split; reflexivity|].
  exact (ordinary_operators_ignore_case (Site.engine "bob" false) (PStr "subject")
           (PStr "a%") "LIKE" None eq_refl eq_refl).
Defined.

Lemma table_names_are_cut_at_spaces_witness :
  Py.all_chars Py.is_word "Sales" = true
  /\ get_tables_from_query "select name from `tabSales Order`" <> []
  /\ get_tables_from_query "`tabSales Order`"
     = "tabSales" :: get_tables_from_query "Order`".
Proof.
  split; [reflexivity|]. split; [discriminate|].
  exact (proj1 (table_names_are_cut_at_spaces "Sales" "Order`" "bob" None eq_refl)).
Defined.

Lemma own_table_join_is_repeated_witness :
  let d := parent_task_field "subject" in
  let q := from_ (DocType "Task") SelectFrom in
  (SelectFrom <> Into
   /\ Forall (fun f => dyn_parent_doctype f = "Task"%string) [d; d]
   /\ dyn_table d = DocType "Task")
  /\ is_joined (apply_join d q) (DocType "Task") = false
  /\ count_joins (DocType "Task") (apply_join d (apply_join d q)) = 2.
Proof.
  intros d q.
  assert (M : SelectFrom <> Into) by discriminate.
  assert (P : Forall (fun f => dyn_parent_doctype f = "Task"%string) [d; d])
    by (repeat constructor).
  assert (E : dyn_table d = DocType "Task") by reflexivity.
  split; [split; [exact M|split; [exact P|exact E]]|].
  destruct (proj2 (own_table_join_is_repeated "Task" SelectFrom [] d d M P) E)
    as (N & _ & C).
  split; [exact N|exact C].
Defined.

(** two fields through the link of [Task] to itself: the built query
    joins [Task] twice, under the same alias *)
Example self_link_fields_join_twice :
  exists t q,
    get_query (Site.args "Task"
                 (PList [PStr "parent_task.subject"; PStr "parent_task.status"])
                 PNone true "bob") = (t, Ok q)
    /\ q.(q_joins) = [parent_task_join; parent_task_join].
Proof. eexists. eexists. split; [vm_compute; reflexivity|reflexivity]. Qed.

(** two fields through a link to another entity: one join *)
Example other_link_fields_join_once :
  exists t q,
    get_query (Site.args "Task"
                 (PList [PStr "assigned_to.email"; PStr "assigned_to.full_name"])
                 PNone true "bob") = (t, Ok q)
    /\ count_joins (DocType "User") q = 1.
Proof. eexists. eexists. split; [vm_compute; reflexivity|reflexivity]. Qed.

Lemma group_by_lets_clause_fields_only_witness :
  let s := "project, `tabTask`.status" in
  Py.is_ascii s = true
  /\ _validate_group_by (PStr s) = Ok s
  /\ Forall (fun part => Py.all_chars clause_char (Py.strip part) = true)
            (COMMA_PATTERN_split s).
Proof.
  intros s.
  assert (A : Py.is_ascii s = true) by reflexivity.
  assert (V : _validate_group_by (PStr s) = Ok s) by (vm_compute; reflexivity).
  split; [exact A|]. split; [exact V|].
  pose proof (group_by_lets_clause_fields_only (PStr s) A) as H.
  rewrite V in H. exact (proj2 H).
Defined.

Lemma order_by_lets_clause_fields_only_witness :
  let s := "name asc, `tabTask`.status DESC" in
  Py.is_ascii s = true
  /\ _validate_order_by (PStr s) = Ok s
  /\ Forall (fun declaration =>
               match split_ws (Py.strip declaration) with
               | [] => True
               | field_name :: rest =>
                   Py.all_chars clause_char field_name = true
                   /\ match rest with
                      | [] => True
                      | direction :: _ =>
                          Py.in_list (Py.lower direction) ["asc"; "desc"] = true
                      end
               end) (Py.split "," s).
Proof.
  intros s.
  assert (A : Py.is_ascii s = true) by reflexivity.
  assert (V : _validate_order_by (PStr s) = Ok s) by (vm_compute; reflexivity).
  split; [exact A|]. split; [exact V|].
  pose proof (order_by_lets_clause_fields_only (PStr s) A) as H.
  rewrite V in H. exact (proj2 H).
Defined.

Lemma select_field_letters_witness :
  let field := "count(name) as n" in
  Py.is_ascii field = true
  /\ _validate_select_field field = Ok tt
  /\ _sanitize_field field true = Ok (Py.strip (strip_comments true field)).
Proof.
  intros field.
  assert (A : Py.is_ascii field = true) by reflexivity.
  assert (V : _validate_select_field field = Ok tt) by (vm_compute; reflexivity).
  split; [exact A|]. split; [exact V|].
  pose proof (select_field_letters field true A) as H.
  rewrite V in H. exact (proj2 H).
Defined.

Lemma parse_string_field_shape_witness :
  let field := "subject as title" in
  Py.is_ascii field = true
  /\ exists f,
       parse_string_field (Site.engine "bob" false) field = Ok f
       /\ ((field = "*" /\ f = star (DocType "Task"))
           \/ (f.(f_name) <> EmptyString
               /\ Py.all_chars Py.is_word f.(f_name) = true
               /\ (f.(f_table) = DocType "Task"
                   \/ exists t, f.(f_table) = DocType t
                                /\ is_tab_word t = true
                                /\ Py.all_chars Py.is_word t = true)
               /\ f.(f_alias) <> Some EmptyString)).
Proof.
  intros field.
  assert (A : Py.is_ascii field = true) by reflexivity.
  split; [exact A|].
  pose proof (parse_string_field_shape (Site.engine "bob" false) field A) as H.
  destruct (parse_string_field (Site.engine "bob" false) field) as [f|e] eqn:P.
  - exists f. split; [reflexivity|exact H].
  - vm_compute in P. discriminate.
Defined.

Lemma check_permissions_outcome_witness :
  let query := "select name from `tabTask` where status = 'Open'" in
  Py.is_ascii query = true
  /\ get_tables_from_query query = ["tabTask"]
  /\ snd (check_permissions query "bob" None) = Ok tt
  /\ snd (check_permissions query "guest" None) = Err PermissionError.
Proof.
  intros query.
  assert (A : Py.is_ascii query = true) by reflexivity.
  assert (G : get_tables_from_query query = ["tabTask"]) by reflexivity.
  split; [exact A|]. split; [exact G|]. split.
  - rewrite (proj1 (proj2 (check_permissions_outcome query "bob" None A))), G.
    reflexivity.
  - rewrite (proj1 (proj2 (check_permissions_outcome query "guest" None A))), G.
    reflexivity.
Defined.
